(** * stellar-stm32-tools: configuration store, resolver and Makefile generator

    A shallow embedding of the core of the VS Code extension:
    - [ConfigManager.js]: MCU parameter lookup, default configuration,
      load / save of [.stm32-config.json], linker-script and startup-file
      resolvers, memory sizes;
    - [BuildManager.js] and [ProjectManager.js]: the operations that write the
      linker and startup pairs of the configuration;
    - [makefileGenerator.js]: the Makefile template.

    Conventions of the model.
    - A JavaScript string is a [string] of bytes (UTF-8).  Every needle the
      code searches for ('STM32F407', '.ld', 'xx', ...) is ASCII, and for an
      ASCII needle the byte-level substring test agrees with the UTF-16 one.
    - [null] and [undefined] of a string-typed expression are [None].
    - The project configuration object is a finite map from property names to
      JSON values.  The resolvers read [mcu] at whatever type the file gave
      it.  The generator reads the fields at the types the data model
      declares ([mcu : string], [sourceDirs : string[]], ...); there a field
      holding a value of another type is outside the model.
    - The host's file system, path functions and workspace search are an
      explicit [Host] record; the clock is an explicit argument.
    - Part I holds the definitions, Part II the properties. *)

From Stdlib Require Import String Ascii List ZArith Lia Bool.
From Stdlib Require Import Floats.SpecFloat DecimalString.
From stdpp Require Import gmap strings fin_maps.

Open Scope string_scope.

(* ===================================================================== *)
(** ** JavaScript string primitives used by the sources                   *)
(* ===================================================================== *)

Module JS.

(** [s.includes(needle)]: case-sensitive substring test. *)
Fixpoint includes (s needle : string) : bool :=
  if String.prefix needle s then true
  else match s with
       | EmptyString => false
       | String _ rest => includes rest needle
       end.

(** Truthiness of a value that is a string, [null] or [undefined]. *)
Definition truthy (v : option string) : bool :=
  match v with
  | Some (String _ _) => true
  | _ => false
  end.

(** [a || d] where [a] is a string, [null] or [undefined] and [d] a string. *)
Definition or_else (a : option string) (d : string) : string :=
  match a with
  | Some (String c rest) => String c rest
  | _ => d
  end.

(** [s.charAt(s.length - 3)]: the empty string when the index is out of
    range.  Positions are counted in bytes, which for the ASCII identifiers
    of MCUs are the UTF-16 units of the source. *)
Definition charAt_from_end3 (s : string) : string :=
  if (String.length s <? 3)%nat then ""
  else match String.get (String.length s - 3) s with
       | Some c => String c ""
       | None => ""
       end.

Definition lower_ascii (c : ascii) : ascii :=
  let n := nat_of_ascii c in
  if ((65 <=? n) && (n <=? 90))%nat then ascii_of_nat (n + 32) else c.

Definition upper_ascii (c : ascii) : ascii :=
  let n := nat_of_ascii c in
  if ((97 <=? n) && (n <=? 122))%nat then ascii_of_nat (n - 32) else c.

(** [toLowerCase] / [toUpperCase]; the sources apply them to the ASCII
    tokens of the MCU table only. *)
Fixpoint toLowerCase (s : string) : string :=
  match s with
  | EmptyString => EmptyString
  | String c rest => String (lower_ascii c) (toLowerCase rest)
  end.

Fixpoint toUpperCase (s : string) : string :=
  match s with
  | EmptyString => EmptyString
  | String c rest => String (upper_ascii c) (toUpperCase rest)
  end.

Fixpoint drop (n : nat) (s : string) : string :=
  match n, s with
  | O, _ => s
  | S n', String _ rest => drop n' rest
  | S _, EmptyString => EmptyString
  end.

(** [s.replace(pat, by)] with a string pattern: the first occurrence only. *)
Fixpoint replace_first (pat by_ s : string) : string :=
  if String.prefix pat s then by_ ++ drop (String.length pat) s
  else match s with
       | EmptyString => EmptyString
       | String c rest => String c (replace_first pat by_ rest)
       end.

(** [arr.join(sep)] on an array of strings. *)
Definition join (sep : string) (parts : list string) : string :=
  String.concat sep parts.

(** [[...new Set(arr)]]: duplicates removed, first occurrences kept in
    their order. *)
Fixpoint dedupe_from (seen : list string) (l : list string) : list string :=
  match l with
  | [] => []
  | x :: rest =>
      if existsb (String.eqb x) seen then dedupe_from seen rest
      else x :: dedupe_from (x :: seen) rest
  end.

Definition dedupe (l : list string) : list string := dedupe_from [] l.

End JS.

(* ===================================================================== *)
(** ** MCU parameter table ([ConfigManager.getMCUParams])                 *)
(* ===================================================================== *)

Module MCUParams.
Record t : Type := mk {
  cpu : string;
  fpu : string;
  floatAbi : string;
  startupFile : string;
  define : string;
  series : string
}.
End MCUParams.

(** The chain of tests of [getMCUParams].  [includes needle] is
    [mcuName.includes(needle)]: the receiver is a string on the usual path
    and may be an array when the configuration file says so. *)
Definition mcuParams_where (includes : string -> bool) : MCUParams.t :=
  if includes "STM32F407" then
    {| MCUParams.cpu := "-mcpu=cortex-m4";
       MCUParams.fpu := "-mfpu=fpv4-sp-d16";
       MCUParams.floatAbi := "-mfloat-abi=hard";
       MCUParams.startupFile := "startup_stm32f407xx";
       MCUParams.define := "STM32F407xx";
       MCUParams.series := "f4" |}
  else if includes "STM32F401" then
    {| MCUParams.cpu := "-mcpu=cortex-m4";
       MCUParams.fpu := "-mfpu=fpv4-sp-d16";
       MCUParams.floatAbi := "-mfloat-abi=hard";
       MCUParams.startupFile := "startup_stm32f401xx";
       MCUParams.define := "STM32F401xx";
       MCUParams.series := "f4" |}
  else if includes "STM32F411" then
    {| MCUParams.cpu := "-mcpu=cortex-m4";
       MCUParams.fpu := "-mfpu=fpv4-sp-d16";
       MCUParams.floatAbi := "-mfloat-abi=hard";
       MCUParams.startupFile := "startup_stm32f411xe";
       MCUParams.define := "STM32F411xE";
       MCUParams.series := "f4" |}
  else if includes "STM32F103" then
    {| MCUParams.cpu := "-mcpu=cortex-m3";
       MCUParams.fpu := "";
       MCUParams.floatAbi := "";
       MCUParams.startupFile := "startup_stm32f103xe";
       MCUParams.define := "STM32F103xE";
       MCUParams.series := "f1" |}
  else if includes "STM32F303" then
    {| MCUParams.cpu := "-mcpu=cortex-m4";
       MCUParams.fpu := "-mfpu=fpv4-sp-d16";
       MCUParams.floatAbi := "-mfloat-abi=hard";
       MCUParams.startupFile := "startup_stm32f303xc";
       MCUParams.define := "STM32F303xC";
       MCUParams.series := "f3" |}
  else if includes "STM32F030" then
    {| MCUParams.cpu := "-mcpu=cortex-m0";
       MCUParams.fpu := "";
       MCUParams.floatAbi := "";
       MCUParams.startupFile := "startup_stm32f030x8";
       MCUParams.define := "STM32F030x8";
       MCUParams.series := "f0" |}
  else if includes "STM32G0" then
    {| MCUParams.cpu := "-mcpu=cortex-m0plus";
       MCUParams.fpu := "";
       MCUParams.floatAbi := "";
       MCUParams.startupFile := "startup_stm32g071xx";
       MCUParams.define := "STM32G071xx";
       MCUParams.series := "g0" |}
  else if includes "STM32L4" then
    {| MCUParams.cpu := "-mcpu=cortex-m4";
       MCUParams.fpu := "-mfpu=fpv4-sp-d16";
       MCUParams.floatAbi := "-mfloat-abi=hard";
       MCUParams.startupFile := "startup_stm32l476xx";
       MCUParams.define := "STM32L476xx";
       MCUParams.series := "l4" |}
  else if includes "STM32H7" then
    {| MCUParams.cpu := "-mcpu=cortex-m7";
       MCUParams.fpu := "-mfpu=fpv5-d16";
       MCUParams.floatAbi := "-mfloat-abi=hard";
       MCUParams.startupFile := "startup_stm32h750xx";
       MCUParams.define := "STM32H750xx";
       MCUParams.series := "h7" |}
  else
    {| MCUParams.cpu := "-mcpu=cortex-m4";
       MCUParams.fpu := "-mfpu=fpv4-sp-d16";
       MCUParams.floatAbi := "-mfloat-abi=hard";
       MCUParams.startupFile := "startup_stm32f407xx";
       MCUParams.define := "STM32F407xx";
       MCUParams.series := "f4" |}.

(** [getMCUParams(mcuName)] on a string (or [null], [undefined]).
    [config_mcu] is [this.projectConfig?.mcu]. *)
Definition getMCUParams (config_mcu : option string) (mcuName : option string)
  : MCUParams.t :=
  let mcuName :=
    match mcuName with
    | Some (String c rest) => String c rest
    | _ => JS.or_else config_mcu "STM32F407VG"
    end in
  mcuParams_where (JS.includes mcuName).

(** The specification's reading of the same function: an ordered table of
    (substring, parameters) rows, searched first match first, with the
    STM32F407 row as the fallback. *)
Module MCUTable.

Definition cortex_m4f (startup def ser : string) : MCUParams.t :=
  MCUParams.mk "-mcpu=cortex-m4" "-mfpu=fpv4-sp-d16" "-mfloat-abi=hard"
               startup def ser.

Definition no_fpu (core startup def ser : string) : MCUParams.t :=
  MCUParams.mk core "" "" startup def ser.

Definition stm32f407 : MCUParams.t :=
  cortex_m4f "startup_stm32f407xx" "STM32F407xx" "f4".

Definition rows : list (string * MCUParams.t) :=
  [ ("STM32F407", stm32f407);
    ("STM32F401", cortex_m4f "startup_stm32f401xx" "STM32F401xx" "f4");
    ("STM32F411", cortex_m4f "startup_stm32f411xe" "STM32F411xE" "f4");
    ("STM32F103", no_fpu "-mcpu=cortex-m3" "startup_stm32f103xe" "STM32F103xE" "f1");
    ("STM32F303", cortex_m4f "startup_stm32f303xc" "STM32F303xC" "f3");
    ("STM32F030", no_fpu "-mcpu=cortex-m0" "startup_stm32f030x8" "STM32F030x8" "f0");
    ("STM32G0", no_fpu "-mcpu=cortex-m0plus" "startup_stm32g071xx" "STM32G071xx" "g0");
    ("STM32L4", cortex_m4f "startup_stm32l476xx" "STM32L476xx" "l4");
    ("STM32H7", MCUParams.mk "-mcpu=cortex-m7" "-mfpu=fpv5-d16" "-mfloat-abi=hard"
                             "startup_stm32h750xx" "STM32H750xx" "h7") ].

(** First row whose substring occurs in the identifier, else the default. *)
Definition first_match (mcuIdentifier : string) : MCUParams.t :=
  match List.find (fun row => JS.includes mcuIdentifier (fst row)) rows with
  | Some row => snd row
  | None => stm32f407
  end.

End MCUTable.

(** [getMemorySizes(mcuName)]. *)
Module MemorySizes.
Record t : Type := mk { flash : string; ram : string; ccmram : string }.
End MemorySizes.

(** [sizeMap[memoryCode]]: flash and ram of the entry, [None] when the object
    has no such key. *)
Definition sizeMap (memoryCode : string) : option (string * string) :=
  if String.eqb memoryCode "V" then Some ("1024K", "192K")
  else if String.eqb memoryCode "Z" then Some ("1024K", "256K")
  else if String.eqb memoryCode "I" then Some ("2048K", "256K")
  else if String.eqb memoryCode "G" then Some ("512K", "128K")
  else if String.eqb memoryCode "C" then Some ("256K", "64K")
  else None.

Definition getMemorySizes (config_mcu : option string) (mcuName : option string)
  : MemorySizes.t :=
  let mcuName :=
    match mcuName with
    | Some (String c rest) => String c rest
    | _ => JS.or_else config_mcu "STM32F407VG"
    end in
  let defaultSizes := MemorySizes.mk "1024K" "192K" "64K" in
  if negb (JS.truthy (Some mcuName)) then defaultSizes
  else
    let memoryCode := JS.charAt_from_end3 mcuName in
    let sizes :=
      match sizeMap memoryCode with
      | Some fr => fr
      | None => (MemorySizes.flash defaultSizes, MemorySizes.ram defaultSizes)
      end in
    let series := MCUParams.series (getMCUParams config_mcu (Some mcuName)) in
    let hasCCMRAM :=
      String.eqb series "F4" || String.eqb series "F7" || String.eqb series "H7" in
    {| MemorySizes.flash := fst sizes;
       MemorySizes.ram := snd sizes;
       MemorySizes.ccmram := if hasCCMRAM then "64K" else "0K" |}.

(* ===================================================================== *)
(** ** JSON values and the configuration object                           *)
(* ===================================================================== *)

(** The values [JSON.parse] produces.  A number is an IEEE 754 double
    ([spec_float] at precision 53): a literal beyond the double range parses
    to an infinity.  [JObj] lists the own properties of an object. *)
#[warnings="-register-all"]
Inductive jsvalue : Type :=
| JNull
| JBool (b : bool)
| JNum (n : spec_float)
| JStr (s : string)
| JArr (items : list jsvalue)
| JObj (props : list (string * jsvalue)).

(** The double of an integer literal such as [115200]. *)
Definition num (z : Z) : jsvalue := JNum (binary_normalize 53 1024 z 0 false).

(** What [JSON.parse(JSON.stringify(v))] makes of a value: [stringify]
    prints a non-finite number as [null] and negative zero as [0]; every
    other finite number is printed with enough digits to parse back to
    itself. *)
Fixpoint json_reparse (v : jsvalue) : jsvalue :=
  match v with
  | JNum (S754_finite s m e) => JNum (S754_finite s m e)
  | JNum (S754_zero _) => JNum (S754_zero false)
  | JNum _ => JNull
  | JArr items => JArr (List.map json_reparse items)
  | JObj props => JObj (List.map (fun kv => (fst kv, json_reparse (snd kv))) props)
  | JNull => JNull
  | JBool b => JBool b
  | JStr s => JStr s
  end.

(** The values serialisation leaves unchanged: every number in them is
    finite and is not negative zero. *)
Fixpoint json_stable (v : jsvalue) : bool :=
  match v with
  | JNum (S754_finite _ _ _) => true
  | JNum (S754_zero neg) => negb neg
  | JNum _ => false
  | JArr items => forallb json_stable items
  | JObj props => forallb (fun kv => json_stable (snd kv)) props
  | _ => true
  end.

(** Truthiness of a property read ([None] is [undefined]). *)
Definition truthy_value (v : option jsvalue) : bool :=
  match v with
  | None | Some JNull => false
  | Some (JBool b) => b
  | Some (JNum (S754_zero _)) | Some (JNum S754_nan) => false
  | Some (JNum _) => true
  | Some (JStr s) => JS.truthy (Some s)
  | Some (JArr _) | Some (JObj _) => true
  end.

(** A field read at its declared type [string | null]. *)
Definition field_string (o : gmap string jsvalue) (key : string) : option string :=
  match o !! key with
  | Some (JStr s) => Some s
  | _ => None
  end.

(** [arr.includes(needle)] on an array ([Array.prototype.includes]): some
    element is the string [needle]. *)
Definition array_includes (items : list jsvalue) (needle : string) : bool :=
  existsb (fun item => match item with
                       | JStr s => String.eqb s needle
                       | _ => false
                       end) items.

(** [this.getMCUParams(this.projectConfig.mcu)], the property being whatever
    the configuration file gave it.  A falsy value is replaced by
    ['STM32F407VG'].  A string and an array both have a method [includes].
    On a truthy number, boolean or object [mcuName.includes] is not a
    function and the call throws a TypeError: [None]. *)
Definition getMCUParams_of (mcu : option jsvalue) : option MCUParams.t :=
  if negb (truthy_value mcu) then Some (getMCUParams None None)
  else match mcu with
       | Some (JStr s) => Some (getMCUParams (Some s) (Some s))
       | Some (JArr items) => Some (mcuParams_where (array_includes items))
       | _ => None
       end.

(** The property name of an array index: its decimal digits. *)
Definition index_key (i : nat) : string := NilEmpty.string_of_uint (Nat.to_uint i).

Fixpoint indexed {A : Type} (from : nat) (l : list A) : list (string * A) :=
  match l with
  | [] => []
  | x :: rest => (index_key from, x) :: indexed (S from) rest
  end.

(** The own enumerable properties an object spread [{...v}] copies, in
    order: the properties of an object, the indexed elements of an array,
    the indexed characters of a string (one per byte, which for an ASCII
    string is one per UTF-16 unit), nothing for other values. *)
Definition own_props (v : jsvalue) : list (string * jsvalue) :=
  match v with
  | JObj props => props
  | JArr items => indexed 0 items
  | JStr s => indexed 0 (List.map (fun c => JStr (String c "")) (list_ascii_of_string s))
  | _ => []
  end.

(** [{ ...target, ...source }]: each property of the source is defined on
    the result in turn, a later one replacing an earlier one of that name. *)
Definition spread (target : gmap string jsvalue) (source : list (string * jsvalue))
  : gmap string jsvalue :=
  List.fold_left (fun acc kv => <[ fst kv := snd kv ]> acc) source target.

(** The configuration object as the value [JSON.stringify] walks. *)
Definition object_value (o : gmap string jsvalue) : jsvalue := JObj (map_to_list o).

(* ===================================================================== *)
(** ** ConfigManager: defaults, load and save                             *)
(* ===================================================================== *)

Definition getDefaultProgrammerPath (currentPlatform : string) : string :=
  if String.eqb currentPlatform "darwin" then
    "/Applications/STM32CubeIDE.app/Contents/Eclipse/plugins/com.st.stm32cube.ide.mcu.externaltools.cubeprogrammer.macos64_2.2.300.202508131133/tools/bin/STM32_Programmer_CLI"
  else if String.eqb currentPlatform "win32" then
    "C:\Program Files\STMicroelectronics\STM32Cube\STM32CubeProgrammer\bin\STM32_Programmer_CLI.exe"
  else
    "/usr/local/bin/STM32_Programmer_CLI".

Definition getDefaultGccPath (currentPlatform : string) : string :=
  if String.eqb currentPlatform "darwin" then
    "/Applications/STM32CubeIDE.app/Contents/Eclipse/plugins/com.st.stm32cube.ide.mcu.externaltools.gnu-tools-for-stm32.13.3.rel1.macos64_1.0.100.202509120712/tools/bin/arm-none-eabi-gcc"
  else if String.eqb currentPlatform "win32" then
    "C:\Program Files (x86)\GNU Arm Embedded Toolchain\10 2021.10\bin\arm-none-eabi-gcc.exe"
  else
    "/usr/bin/arm-none-eabi-gcc".

Definition serialPortPattern (currentPlatform : string) : string :=
  if String.eqb currentPlatform "win32" then "COM*"
  else if String.eqb currentPlatform "darwin" then "/dev/tty*usb*"
  else if String.eqb currentPlatform "linux" then "/dev/ttyUSB*"
  else "/dev/ttyUSB*".

Definition defaultProps (currentPlatform : string) : list (string * jsvalue) :=
  [ ("projectName", JStr "STM32F407VGT6");
    ("mcu", JStr "STM32F407VGTx");
    ("mcuFamily", JStr "STM32F4");
    ("compilerLinker", JStr "GCC");
    ("stackSize", JStr "0x400");
    ("heapSize", JStr "0x200");
    ("sysClockFreq", JStr "8000000");
    ("serialPort", JStr (serialPortPattern currentPlatform));
    ("baudRate", num 115200);
    ("programmerPath", JStr (getDefaultProgrammerPath currentPlatform));
    ("gccPath", JStr (getDefaultGccPath currentPlatform));
    ("sourceDirs", JArr [JStr "Core/Src"; JStr "Drivers/STM32F4xx_HAL_Driver/Src"]);
    ("excludeFiles", JArr []);
    ("includeDirs", JArr [ JStr "Core/Inc";
                           JStr "Drivers/STM32F4xx_HAL_Driver/Inc";
                           JStr "Drivers/CMSIS/Include";
                           JStr "Drivers/CMSIS/Device/ST/STM32F4xx/Include";
                           JStr "Drivers/STM32F4xx_HAL_Driver/Inc/Legacy" ]);
    ("autoUpdateMakefile", JBool true);
    ("preferredMonitor", JStr "auto");
    ("clearBufferOnStart", JBool true);
    ("monitorTimeout", num 3000);
    ("ldscript", JNull);
    ("startupFile", JNull);
    ("ldscriptPath", JNull);
    ("startupFilePath", JNull);
    ("configInitialized", JBool false) ].

(** [getDefaultConfig()]: the object literal of the source. *)
Definition getDefaultConfig (currentPlatform : string) : gmap string jsvalue :=
  spread ∅ (defaultProps currentPlatform).

(** What a read of [.stm32-config.json] followed by [JSON.parse] gives: the
    file is absent, or reading or parsing it throws, or it parses to [v]. *)
Inductive ConfigFile : Type :=
| Missing
| Unparsable
| Parses (v : jsvalue).

(** The part of the disk the store touches: the configuration file and
    whether [writeFileSync] on it succeeds. *)
Record Disk : Type := mkDisk {
  configFile : ConfigFile;
  writable : bool
}.

(** The fields of a [ConfigManager] instance ([projectConfig] is [null]
    until the constructor has run). *)
Record ConfigManager : Type := mkManager {
  workspacePath : option string;
  currentPlatform : string;
  projectConfig : option (gmap string jsvalue)
}.

Record State : Type := mkState {
  manager : ConfigManager;
  disk : Disk
}.

(** Completion of a command: normal with a result, or an exception thrown;
    either way with the state the command leaves. *)
Inductive completion (A : Type) : Type :=
| Normal (a : A) (st : State)
| Thrown (error : string) (st : State).

Arguments Normal {A} a st.
Arguments Thrown {A} error st.

(** Commands over the manager and the disk that may throw. *)
Definition Cmd (A : Type) : Type := State -> completion A.

Definition ret {A : Type} (a : A) : Cmd A := fun st => Normal a st.

Definition throw {A : Type} (error : string) : Cmd A := fun st => Thrown error st.

Definition bind {A B : Type} (c : Cmd A) (k : A -> Cmd B) : Cmd B :=
  fun st =>
    match c st with
    | Normal a st' => k a st'
    | Thrown e st' => Thrown e st'
    end.

(** [try { body } catch (e) { handler }]: the handler runs in the state the
    body had reached when it threw. *)
Definition try_catch {A : Type} (body : Cmd A) (handler : string -> Cmd A) : Cmd A :=
  fun st =>
    match body st with
    | Normal a st' => Normal a st'
    | Thrown e st' => handler e st'
    end.

Declare Scope cmd_scope.
Delimit Scope cmd_scope with cmd.
Notation "x <- c ;; k" := (bind c (fun x => k))
  (at level 100, c at next level, right associativity) : cmd_scope.
Notation "c ;;; k" := (bind c (fun _ => k))
  (at level 100, right associativity) : cmd_scope.

Definition get_manager : Cmd ConfigManager := fun st => Normal (manager st) st.

Definition get_disk : Cmd Disk := fun st => Normal (disk st) st.

Definition set_projectConfig (o : gmap string jsvalue) : Cmd unit :=
  fun st =>
    let m := manager st in
    Normal tt (mkState (mkManager (workspacePath m) (currentPlatform m) (Some o))
                       (disk st)).

Definition set_configFile (f : ConfigFile) : Cmd unit :=
  fun st => Normal tt (mkState (manager st) (mkDisk f (writable (disk st)))).

(** [JSON.parse(fs.readFileSync(configPath, 'utf8'))]. *)
Definition read_and_parse : Cmd jsvalue :=
  fun st =>
    match configFile (disk st) with
    | Parses v => Normal v st
    | Unparsable => Thrown "SyntaxError" st
    | Missing => Thrown "ENOENT" st
    end.

(** [fs.writeFileSync(configPath, JSON.stringify(o, null, 2), 'utf8')]: on
    success the file holds the text of [o], which parses to
    [json_reparse o]. *)
Definition stringify_and_write (o : gmap string jsvalue) : Cmd unit :=
  fun st =>
    if writable (disk st)
    then set_configFile (Parses (json_reparse (object_value o))) st
    else Thrown "EACCES" st.

(** [updateCppProperties()] is [async] and its promise is dropped by the
    callers: nothing it throws reaches them.  It reads [projectConfig] and
    writes [.vscode/c_cpp_properties.json], which is outside [Disk]. *)
Definition updateCppProperties : Cmd unit := ret tt.

(** [loadConfig()]. *)
Definition loadConfig : Cmd unit :=
  (m <- get_manager ;;
   if negb (JS.truthy (workspacePath m)) then
     set_projectConfig (getDefaultConfig (currentPlatform m))
   else
     let defaultConfig := getDefaultConfig (currentPlatform m) in
     d <- get_disk ;;
     (match configFile d with
      | Missing => set_projectConfig defaultConfig
      | _ =>
          try_catch
            (parsedConfig <- read_and_parse ;;
             set_projectConfig (spread defaultConfig (own_props parsedConfig)))
            (fun _ => set_projectConfig defaultConfig)
      end) ;;;
     updateCppProperties)%cmd.

(** The configuration [loadConfig] installs, by cases on the workspace and
    on the file. *)
Definition loaded (ws : option string) (platform : string) (f : ConfigFile)
  : gmap string jsvalue :=
  if JS.truthy ws then
    match f with
    | Parses v => spread (getDefaultConfig platform) (own_props v)
    | _ => getDefaultConfig platform
    end
  else getDefaultConfig platform.

(** [saveConfig()]. *)
Definition saveConfig : Cmd bool :=
  (m <- get_manager ;;
   match JS.truthy (workspacePath m), projectConfig m with
   | true, Some o =>
       try_catch
         (stringify_and_write o ;;;
          loadConfig ;;;
          updateCppProperties ;;;
          ret true)
         (fun _ => ret false)
   | _, _ => ret false
   end)%cmd.

(** The sequence load; save; load on one manager, returning the
    configuration installed by the first and by the second load. *)
Definition load_save_load
  : Cmd (option (gmap string jsvalue) * option (gmap string jsvalue)) :=
  (loadConfig ;;;
   m1 <- get_manager ;;
   saveConfig ;;;
   loadConfig ;;;
   m3 <- get_manager ;;
   ret (projectConfig m1, projectConfig m3))%cmd.

(** [set(key, value)].  An assignment to ['__proto__'] on an object that has
    no own property of that name reaches the prototype setter and defines no
    own property. *)
Definition set (key : string) (value : jsvalue) : Cmd bool :=
  (m <- get_manager ;;
   match projectConfig m with
   | None => ret false
   | Some o =>
       (match String.eqb key "__proto__", o !! key with
        | true, None => ret tt
        | _, _ => set_projectConfig (<[ key := value ]> o)
        end) ;;;
       ret true
   end)%cmd.

(** [resetToDefaults()]. *)
Definition resetToDefaults : Cmd bool :=
  (m <- get_manager ;;
   set_projectConfig (getDefaultConfig (currentPlatform m)) ;;;
   saveConfig)%cmd.

(* ===================================================================== *)
(** ** File-system resolver ([findLinkerScript], [findStartupFile])       *)
(* ===================================================================== *)

(** What the resolvers ask of Node and of VS Code.  [findFiles pattern] is
    the list of [fsPath]s [vscode.workspace.findFiles(pattern,
    '**/node_modules/**')] resolves to. *)
Record Host : Type := mkHost {
  basename : string -> string;
  basename_ext : string -> string -> string;
  path_join : list string -> string;
  path_relative : string -> string -> string;
  existsSync : string -> bool;
  findFiles : string -> list string
}.

Definition is_digit (c : ascii) : bool :=
  let n := nat_of_ascii c in ((48 <=? n) && (n <=? 57))%nat.

Definition is_upper (c : ascii) : bool :=
  let n := nat_of_ascii c in ((65 <=? n) && (n <=? 90))%nat.

Fixpoint all_chars (p : ascii -> bool) (s : string) : bool :=
  match s with
  | EmptyString => true
  | String c rest => p c && all_chars p rest
  end.

(** [s.replace(/\d+$/, '')]: the trailing run of digits removed. *)
Fixpoint strip_trailing_digits (s : string) : string :=
  match s with
  | EmptyString => EmptyString
  | String c rest =>
      if is_digit c && all_chars is_digit rest then EmptyString
      else String c (strip_trailing_digits rest)
  end.

(** The longest prefix of characters satisfying [p], and the rest. *)
Fixpoint span (p : ascii -> bool) (s : string) : string * string :=
  match s with
  | EmptyString => (EmptyString, EmptyString)
  | String c rest =>
      if p c then let (run, tail) := span p rest in (String c run, tail)
      else (EmptyString, s)
  end.

(** A match of [/STM32(F\d+[A-Z]*[A-Z])/] starting at the head of [s]: the
    captured group.  The greedy digit run must be followed by at least one
    capital, and the group takes the whole run of capitals. *)
Definition variant_here (s : string) : option string :=
  if String.prefix "STM32F" s then
    let (digits, after_digits) := span is_digit (JS.drop 6 s) in
    let (capitals, _) := span is_upper after_digits in
    match digits, capitals with
    | String _ _, String _ _ => Some ("F" ++ digits ++ capitals)
    | _, _ => None
    end
  else None.

(** [s.match(/STM32(F\d+[A-Z]*[A-Z])/)]: group 1 of the leftmost match. *)
Fixpoint match_variant (s : string) : option string :=
  match variant_here s with
  | Some group => Some group
  | None =>
      match s with
      | EmptyString => None
      | String _ rest => match_variant rest
      end
  end.

(** [s.replace(/\.\./g, '.')]. *)
Fixpoint replace_dotdot (s : string) : string :=
  match s with
  | String "." (String "." rest) => String "." (replace_dotdot rest)
  | String c rest => String c (replace_dotdot rest)
  | EmptyString => EmptyString
  end.

(** [getExpectedLinkerName(mcuName)]. *)
Definition getExpectedLinkerName (mcuName : option string) : string :=
  match mcuName with
  | Some (String c rest) =>
      let mcuName := String c rest in
      let baseName := strip_trailing_digits mcuName in
      match match_variant baseName with
      | Some (String g group) => "STM32" ++ String g group ++ "_FLASH.ld"
      | _ => replace_dotdot (mcuName ++ "_FLASH.ld")
      end
  | _ => "STM32F407XX_FLASH.ld"
  end.

Module LinkerResult.
Record t : Type := mk {
  ldscript : string;
  ldscriptPath : string;
  relativePath : string
}.
End LinkerResult.

Module StartupResult.
Record t : Type := mk {
  startupFile : string;
  startupFilePath : string;
  relativePath : string
}.
End StartupResult.

Definition linkerPatterns : list string :=
  ["**/*.ld"; "**/*.LD"; "**/STM32*_FLASH.ld"; "**/*_FLASH.ld"].

(** The files of the search, duplicates removed. *)
Definition foundLinkerFiles (h : Host) : list string :=
  JS.dedupe (List.flat_map (findFiles h) linkerPatterns).

(** [findLinkerScript()].  The function only reads; an exception in its
    body is caught and gives [null]: [projectConfig] being [null], or, once
    files are found, a truthy [mcu] that is not a string, on which
    [getExpectedLinkerName] calls [mcuName.replace]. *)
Definition findLinkerScript (h : Host) (m : ConfigManager) : option LinkerResult.t :=
  match workspacePath m with
  | Some (String w ws) =>
      let workspacePath := String w ws in
      let foundFiles := foundLinkerFiles h in
      match foundFiles with
      | [] => None
      | first :: _ =>
          match projectConfig m with
          | None => None
          | Some config =>
              let mcuName := config !! "mcu" in
              let result := fun preferredLd : option string =>
                let selectedLd := JS.or_else preferredLd first in
                Some {| LinkerResult.ldscript := basename h selectedLd;
                        LinkerResult.ldscriptPath := selectedLd;
                        LinkerResult.relativePath :=
                          path_relative h workspacePath selectedLd |} in
              if truthy_value mcuName then
                match mcuName with
                | Some (JStr mcuName) =>
                    let expectedLdName := getExpectedLinkerName (Some mcuName) in
                    result
                      (List.find
                         (fun f => String.eqb (basename h f) expectedLdName
                                   || JS.includes f (JS.replace_first ".ld" "" expectedLdName))
                         foundFiles)
                | _ => None
                end
              else result None
          end
      end
  | _ => None
  end.

(** The conventional places probed first. *)
Definition startupPaths (h : Host) (workspacePath : string) (mcuParams : MCUParams.t)
  : list string :=
  let startupFileName := MCUParams.startupFile mcuParams ++ ".s" in
  [ path_join h [workspacePath; startupFileName];
    path_join h [workspacePath; "Startup"; startupFileName];
    path_join h [workspacePath; "startups"; startupFileName];
    path_join h [workspacePath; "Core"; "Startup"; startupFileName];
    path_join h [workspacePath; "Drivers"; "CMSIS"; "Device"; "ST";
                 "STM32" ++ JS.toUpperCase (MCUParams.series mcuParams) ++ "xx";
                 "Source"; "Templates"; "gcc"; startupFileName] ].

Definition startupPatterns (mcuParams : MCUParams.t) : list string :=
  [ "**/*startup*.s";
    "**/startup*.S";
    "**/startup_*.s";
    "**/startup_stm32" ++ MCUParams.series mcuParams ++ "*.s" ].

(** The files of the fallback search, duplicates removed. *)
Definition allStartupFiles (h : Host) (mcuParams : MCUParams.t) : list string :=
  JS.dedupe (List.flat_map (findFiles h) (startupPatterns mcuParams)).

Definition startupResult (h : Host) (workspacePath path : string) : StartupResult.t :=
  {| StartupResult.startupFile := JS.replace_first ".S" "" (basename_ext h path ".s");
     StartupResult.startupFilePath := path;
     StartupResult.relativePath := path_relative h workspacePath path |}.

(** [findStartupFile()].  An exception in its body is caught and gives
    [null]: [projectConfig] being [null], or [getMCUParams] throwing on the
    [mcu] it is given. *)
Definition findStartupFile (h : Host) (m : ConfigManager) : option StartupResult.t :=
  match workspacePath m with
  | Some (String w ws) =>
      let workspacePath := String w ws in
      match projectConfig m with
      | None => None
      | Some config =>
          match getMCUParams_of (config !! "mcu") with
          | None => None
          | Some mcuParams =>
              match List.find (existsSync h) (startupPaths h workspacePath mcuParams) with
              | Some startupPath => Some (startupResult h workspacePath startupPath)
              | None =>
                  match allStartupFiles h mcuParams with
                  | [] => None
                  | first :: rest =>
                      let suitableFile :=
                        JS.or_else
                          (List.find
                             (fun f =>
                                JS.includes f (MCUParams.startupFile mcuParams)
                                || JS.includes f
                                     (JS.replace_first "xx" ""
                                        (JS.toLowerCase (MCUParams.define mcuParams))))
                             (first :: rest))
                          first in
                      Some (startupResult h workspacePath suitableFile)
                  end
              end
          end
      end
  | _ => None
  end.

(* ===================================================================== *)
(** ** Operations that write the linker and startup pairs                 *)
(* ===================================================================== *)

(** [this.projectConfig[key]] and [this.projectConfig[key] = value] for a
    fixed key; on a [null] configuration the property access throws. *)
Definition read (key : string) : Cmd (option jsvalue) :=
  (m <- get_manager ;;
   match projectConfig m with
   | None => throw "TypeError"
   | Some o => ret (o !! key)
   end)%cmd.

Definition assign (key : string) (value : jsvalue) : Cmd unit :=
  (m <- get_manager ;;
   match projectConfig m with
   | None => throw "TypeError"
   | Some o => set_projectConfig (<[ key := value ]> o)
   end)%cmd.

(** Two assignments in a row. *)
Definition assign2 (key1 : string) (value1 : jsvalue) (key2 : string) (value2 : jsvalue)
  : Cmd unit :=
  (assign key1 value1 ;;; assign key2 value2)%cmd.

(** [config.ldscript = ldConfig.ldscript; config.ldscriptPath =
    ldConfig.ldscriptPath;] and the like for the startup file. *)
Definition store_linker (ld : LinkerResult.t) : Cmd unit :=
  assign2 "ldscript" (JStr (LinkerResult.ldscript ld))
          "ldscriptPath" (JStr (LinkerResult.ldscriptPath ld)).

Definition store_startup (su : StartupResult.t) : Cmd unit :=
  assign2 "startupFile" (JStr (StartupResult.startupFile su))
          "startupFilePath" (JStr (StartupResult.startupFilePath su)).

(** [ConfigManager.initializeProjectConfig()]. *)
Definition initializeProjectConfig (h : Host) : Cmd bool :=
  (m <- get_manager ;;
   if negb (JS.truthy (workspacePath m)) then ret false
   else
     ldscriptPath <- read "ldscriptPath" ;;
     (if negb (truthy_value ldscriptPath) then
        m <- get_manager ;;
        match findLinkerScript h m with
        | Some ldConfig => store_linker ldConfig
        | None => ret tt
        end
      else ret tt) ;;;
     startupFilePath <- read "startupFilePath" ;;
     (if negb (truthy_value startupFilePath) then
        m <- get_manager ;;
        match findStartupFile h m with
        | Some startupConfig => store_startup startupConfig
        | None => ret tt
        end
      else ret tt) ;;;
     assign "configInitialized" (JBool true) ;;;
     saveConfig)%cmd.

(** [BuildManager.selectLinkerScript()]; [pick] is the [fsPath] of the item
    the user picks in the quick pick, [None] when it is dismissed.  The
    build manager is constructed on the workspace path of the configuration
    manager. *)
Definition selectLinkerScript (h : Host) (pick : option string) : Cmd bool :=
  (m <- get_manager ;;
   if negb (JS.truthy (workspacePath m)) then ret false
   else
     try_catch
       (match findFiles h "**/*.ld" with
        | [] => ret false
        | _ :: _ =>
            match pick with
            | Some fsPath =>
                assign2 "ldscript" (JStr (basename h fsPath))
                        "ldscriptPath" (JStr fsPath) ;;;
                saveConfig ;;;
                ret true
            | None => ret false
            end
        end)
       (fun _ => ret false))%cmd.

(** [BuildManager.selectStartupFile()]. *)
Definition selectStartupFile (h : Host) (pick : option string) : Cmd bool :=
  (m <- get_manager ;;
   if negb (JS.truthy (workspacePath m)) then ret false
   else
     try_catch
       (match findFiles h "**/*.s" with
        | [] => ret false
        | _ :: _ =>
            match pick with
            | Some fsPath =>
                let startupName := JS.replace_first ".S" "" (basename_ext h fsPath ".s") in
                assign2 "startupFile" (JStr startupName)
                        "startupFilePath" (JStr fsPath) ;;;
                saveConfig ;;;
                ret true
            | None => ret false
            end
        end)
       (fun _ => ret false))%cmd.

(** The button the user presses in a warning or error message ([None] when
    the message is dismissed). *)
Definition chose (choice : option string) (label : string) : bool :=
  match choice with
  | Some c => String.eqb c label
  | None => false
  end.

(** [BuildManager.handleMissingLinker()]. *)
Definition handleMissingLinker (h : Host) (choice pick : option string) : Cmd bool :=
  (if chose choice "Найти автоматически" then
     m <- get_manager ;;
     match findLinkerScript h m with
     | Some ldConfig => store_linker ldConfig ;;; saveConfig ;;; ret true
     | None => ret false
     end
   else if chose choice "Выбрать вручную" then selectLinkerScript h pick
   else ret false)%cmd.

(** [BuildManager.handleMissingStartup()]. *)
Definition handleMissingStartup (h : Host) (choice pick : option string) : Cmd bool :=
  (if chose choice "Найти автоматически" then
     m <- get_manager ;;
     match findStartupFile h m with
     | Some startupConfig => store_startup startupConfig ;;; saveConfig ;;; ret true
     | None => ret false
     end
   else if chose choice "Выбрать вручную" then selectStartupFile h pick
   else if chose choice "Продолжить без стартапа" then ret true
   else ret false)%cmd.

(** The inputs of the dialogs an operation may open. *)
Record Dialogs : Type := mkDialogs {
  linkerChoice : option string;
  linkerPick : option string;
  startupChoice : option string;
  startupPick : option string
}.

(** [BuildManager.checkProjectFiles()].  The local [config] is an alias of
    [this.configManager.projectConfig].  A successful [saveConfig] reloads
    and so replaces that object: from then on the alias denotes the old,
    detached object, and what is written through it no longer reaches the
    manager ([attached] is false). *)
Definition checkProjectFiles (h : Host) (dlg : Dialogs) : Cmd bool :=
  (m <- get_manager ;;
   match projectConfig m with
   | None => throw "TypeError"
   | Some config =>
       linker <-
         (if negb (truthy_value (config !! "ldscript"))
             || negb (truthy_value (config !! "ldscriptPath")) then
            match findLinkerScript h m with
            | None =>
                r <- handleMissingLinker h (linkerChoice dlg) (linkerPick dlg) ;;
                ret (inl r)
            | Some ldConfig =>
                store_linker ldConfig ;;;
                saved <- saveConfig ;;
                ret (inr (negb saved))
            end
          else ret (inr true)) ;;
       match linker with
       | inl r => ret r
       | inr attached =>
           if negb (truthy_value (config !! "startupFile"))
              || negb (truthy_value (config !! "startupFilePath")) then
             m' <- get_manager ;;
             match findStartupFile h m' with
             | None => handleMissingStartup h (startupChoice dlg) (startupPick dlg)
             | Some startupConfig =>
                 (if attached then store_startup startupConfig else ret tt) ;;;
                 saveConfig ;;;
                 ret true
             end
           else ret true
       end
   end)%cmd.

(** [ProjectManager.verifyProjectFiles()]; the two choices answer the
    'continue the setup?' warnings. *)
Definition verifyProjectFiles (h : Host) (dlg : Dialogs) : Cmd bool :=
  (m <- get_manager ;;
   match projectConfig m with
   | None => throw "TypeError"
   | Some config =>
       continue <-
         (if negb (truthy_value (config !! "ldscript"))
             || negb (truthy_value (config !! "ldscriptPath")) then
            match findLinkerScript h m with
            | None => ret (chose (linkerChoice dlg) "Продолжить")
            | Some ldConfig => store_linker ldConfig ;;; ret true
            end
          else ret true) ;;
       if negb continue then ret false
       else
         if negb (truthy_value (config !! "startupFile"))
            || negb (truthy_value (config !! "startupFilePath")) then
           m' <- get_manager ;;
           match findStartupFile h m' with
           | None => ret (chose (startupChoice dlg) "Продолжить")
           | Some startupConfig => store_startup startupConfig ;;; ret true
           end
         else ret true
   end)%cmd.

(** The callback of [BuildManager.handleBuildError()]: what the button
    pressed in the error message does to the configuration. *)
Definition handleBuildError_then (choice : option string) : Cmd unit :=
  (if chose choice "Проверить скрипт линкера" then
     assign2 "ldscript" JNull "ldscriptPath" JNull ;;;
     saveConfig ;;;
     ret tt
   else if chose choice "Проверить startup файл" then
     assign2 "startupFile" JNull "startupFilePath" JNull ;;;
     saveConfig ;;;
     ret tt
   else ret tt)%cmd.

(** *** The pairing invariant *)

(** Both members of a pair are [null], or both are strings. *)
Definition paired (o : gmap string jsvalue) (name path : string) : bool :=
  match o !! name, o !! path with
  | Some JNull, Some JNull => true
  | Some (JStr _), Some (JStr _) => true
  | _, _ => false
  end.

Definition pairs_ok (o : gmap string jsvalue) : bool :=
  paired o "ldscript" "ldscriptPath" && paired o "startupFile" "startupFilePath".

(** A property of configurations holds of a state: of the configuration in
    memory, and of the one a load of the file on disk would install. *)
Definition holds (P : gmap string jsvalue -> bool) (st : State) : Prop :=
  (forall o, projectConfig (manager st) = Some o -> P o = true) /\
  P (loaded (workspacePath (manager st)) (currentPlatform (manager st))
            (configFile (disk st))) = true.

(** The pairing invariant on a state. *)
Definition state_ok (st : State) : Prop := holds pairs_ok st.

(** The linker pair is unresolved: both members are [null]. *)
Definition linker_unresolved (o : gmap string jsvalue) : bool :=
  match o !! "ldscript", o !! "ldscriptPath" with
  | Some JNull, Some JNull => true
  | _, _ => false
  end.

(** The operations on the configuration, with the inputs they take. *)
Inductive Operation : Type :=
| OpLoadConfig
| OpSaveConfig
| OpResetToDefaults
| OpInitializeProjectConfig
| OpCheckProjectFiles (dlg : Dialogs)
| OpVerifyProjectFiles (dlg : Dialogs)
| OpHandleMissingLinker (choice pick : option string)
| OpHandleMissingStartup (choice pick : option string)
| OpSelectLinkerScript (pick : option string)
| OpSelectStartupFile (pick : option string)
| OpHandleBuildError (choice : option string)
| OpSet (key : string) (value : jsvalue).

Definition run (h : Host) (op : Operation) : Cmd unit :=
  (match op with
   | OpLoadConfig => loadConfig
   | OpSaveConfig => saveConfig ;;; ret tt
   | OpResetToDefaults => resetToDefaults ;;; ret tt
   | OpInitializeProjectConfig => initializeProjectConfig h ;;; ret tt
   | OpCheckProjectFiles dlg => checkProjectFiles h dlg ;;; ret tt
   | OpVerifyProjectFiles dlg => verifyProjectFiles h dlg ;;; ret tt
   | OpHandleMissingLinker choice pick => handleMissingLinker h choice pick ;;; ret tt
   | OpHandleMissingStartup choice pick => handleMissingStartup h choice pick ;;; ret tt
   | OpSelectLinkerScript pick => selectLinkerScript h pick ;;; ret tt
   | OpSelectStartupFile pick => selectStartupFile h pick ;;; ret tt
   | OpHandleBuildError choice => handleBuildError_then choice
   | OpSet key value => set key value ;;; ret tt
   end)%cmd.

(** The state an operation leaves, whether it returns or throws. *)
Definition final_state {A : Type} (c : completion A) : State :=
  match c with
  | Normal _ st => st
  | Thrown _ st => st
  end.

(** An operation that is not the generic setter on a pair member. *)
Definition writes_pairs_together (op : Operation) : bool :=
  match op with
  | OpSet key _ =>
      negb (String.eqb key "ldscript" || String.eqb key "ldscriptPath"
            || String.eqb key "startupFile" || String.eqb key "startupFilePath")
  | _ => true
  end.

(** States reached from [st0] by a sequence of operations from [allowed]. *)
Inductive reachable (h : Host) (allowed : Operation -> bool) (st0 : State)
  : State -> Prop :=
| reach_start : reachable h allowed st0 st0
| reach_step (st : State) (op : Operation) :
    reachable h allowed st0 st ->
    allowed op = true ->
    reachable h allowed st0 (final_state (run h op st)).

(* ===================================================================== *)
(** ** Makefile generator ([makefileGenerator.js])                        *)
(* ===================================================================== *)

(** The fields of the configuration the generator reads, at the types the
    data model declares for them ([None] is [null] or [undefined]). *)
Module ProjectConfig.
Record t : Type := mk {
  projectName : string;
  mcu : option string;
  sourceDirs : list string;
  includeDirs : list string;
  excludeFiles : option (list string);
  ldscript : option string;
  startupFile : option string
}.
End ProjectConfig.

Definition strings_of (items : list jsvalue) : option (list string) :=
  List.fold_right
    (fun v acc =>
       match v, acc with
       | JStr s, Some l => Some (s :: l)
       | _, _ => None
       end)
    (Some []) items.

(** A field that holds a string or is [null] or absent; [None] when it
    holds a value of another type. *)
Definition nullable_string (o : gmap string jsvalue) (key : string)
  : option (option string) :=
  match o !! key with
  | Some (JStr s) => Some (Some s)
  | Some JNull | None => Some None
  | _ => None
  end.

Definition string_array (o : gmap string jsvalue) (key : string) : option (list string) :=
  match o !! key with
  | Some (JArr items) => strings_of items
  | _ => None
  end.

(** The typed reading of a configuration object; [None] when a field the
    generator reads holds a value outside its declared type. *)
Definition typed_config (o : gmap string jsvalue) : option ProjectConfig.t :=
  match o !! "projectName", nullable_string o "mcu",
        string_array o "sourceDirs", string_array o "includeDirs",
        nullable_string o "ldscript", nullable_string o "startupFile" with
  | Some (JStr name), Some mcu, Some sources, Some includes, Some ld, Some startup =>
      match o !! "excludeFiles" with
      | Some (JArr items) =>
          match strings_of items with
          | Some excluded =>
              Some (ProjectConfig.mk name mcu sources includes (Some excluded) ld startup)
          | None => None
          end
      | Some JNull | None =>
          Some (ProjectConfig.mk name mcu sources includes None ld startup)
      | _ => None
      end
  | _, _, _, _, _, _ => None
  end.

Definition nl : string := String "010" EmptyString.
Definition tab : string := String "009" EmptyString.
Definition dq : string := String "034" EmptyString.

(** [projectConfig.sourceDirs.map(dir => `\t$(wildcard ${dir}/*.c)`).join(' \\\n')]. *)
Definition sourceLines (projectConfig : ProjectConfig.t) : string :=
  JS.join (" \" ++ nl)
          (List.map (fun dir => tab ++ "$(wildcard " ++ dir ++ "/*.c)")
                    (ProjectConfig.sourceDirs projectConfig)).

(** [projectConfig.includeDirs.map(dir => `\t-I${dir}`).join(' \\\n')]. *)
Definition includeLines (projectConfig : ProjectConfig.t) : string :=
  JS.join (" \" ++ nl)
          (List.map (fun dir => tab ++ "-I" ++ dir)
                    (ProjectConfig.includeDirs projectConfig)).

Definition excludeRule (projectConfig : ProjectConfig.t) : string :=
  match ProjectConfig.excludeFiles projectConfig with
  | Some (f :: fs) =>
      nl ++ "# Исключаемые файлы" ++ nl ++ "C_SOURCES := $(filter-out "
         ++ JS.join " " (List.map (fun f => "%" ++ f) (f :: fs)) ++ ", $(C_SOURCES))"
  | _ => ""
  end.

(** [generateContent(projectName, startupFile, ldscript, mcuParams,
    projectConfig)]: the template, one element per line of the template
    literal.  [now] is what [new Date().toLocaleString()] returns at the
    call. *)
Definition generateContent (now : string) (projectName startupFile ldscript : string)
    (mcuParams : MCUParams.t) (projectConfig : ProjectConfig.t) : string :=
  JS.join nl
    [ "################################################################################";
      "# Автоматически сгенерировано STM32 Tools";
      "# Проект: " ++ projectName;
      "# MCU: " ++ JS.or_else (ProjectConfig.mcu projectConfig) "STM32F407VG";
      "# Дата: " ++ now;
      "################################################################################";
      "";
      "TARGET = " ++ projectName;
      "DEBUG = 1";
      "OPT = -Og";
      "BUILD_DIR = build";
      "";
      "# Исходные файлы";
      "C_SOURCES = \";
      sourceLines projectConfig ++ excludeRule projectConfig;
      "";
      "# Стартап файл";
      "ASM_SOURCES = \";
      tab ++ startupFile ++ ".s";
      "";
      "# Инструменты";
      "PREFIX = arm-none-eabi-";
      "CC = $(PREFIX)gcc";
      "AS = $(PREFIX)gcc -x assembler-with-cpp";
      "CP = $(PREFIX)objcopy";
      "SZ = $(PREFIX)size";
      "";
      "# Параметры MCU";
      "CPU = " ++ MCUParams.cpu mcuParams;
      "FPU = " ++ MCUParams.fpu mcuParams;
      "FLOAT-ABI = " ++ MCUParams.floatAbi mcuParams;
      "MCU = $(CPU) -mthumb $(FPU) $(FLOAT-ABI)";
      "";
      "# Определения препроцессора";
      "C_DEFS = \";
      tab ++ "-DUSE_HAL_DRIVER \";
      tab ++ "-D" ++ MCUParams.define mcuParams;
      "";
      "# Пути include";
      "C_INCLUDES = \";
      includeLines projectConfig;
      "";
      "# Флаги компиляции";
      "ASFLAGS = $(MCU) $(AS_DEFS) $(AS_INCLUDES) $(OPT) -Wall -fdata-sections -ffunction-sections";
      "CFLAGS = $(MCU) $(C_DEFS) $(C_INCLUDES) $(OPT) -Wall -fdata-sections -ffunction-sections";
      "";
      "ifeq ($(DEBUG), 1)";
      "CFLAGS += -g -gdwarf-2";
      "endif";
      "";
      "CFLAGS += -MMD -MP -MF" ++ dq ++ "$(@:%.o=%.d)" ++ dq;
      "";
      "# Флаги линковки";
      "LDSCRIPT = " ++ ldscript;
      "LIBS = -lc -lm -lnosys ";
      "LDFLAGS = $(MCU) -specs=nano.specs -T$(LDSCRIPT) $(LIBS) -Wl,-Map=$(BUILD_DIR)/$(TARGET).map,--cref -Wl,--gc-sections";
      "";
      "# Основная цель";
      "all: $(BUILD_DIR)/$(TARGET).elf $(BUILD_DIR)/$(TARGET).hex $(BUILD_DIR)/$(TARGET).bin";
      "";
      "# Правила сборки";
      "OBJECTS = $(addprefix $(BUILD_DIR)/,$(notdir $(C_SOURCES:.c=.o)))";
      "vpath %.c $(sort $(dir $(C_SOURCES)))";
      "OBJECTS += $(addprefix $(BUILD_DIR)/,$(notdir $(ASM_SOURCES:.s=.o)))";
      "vpath %.s $(sort $(dir $(ASM_SOURCES)))";
      "";
      "$(BUILD_DIR)/%.o: %.c Makefile | $(BUILD_DIR) ";
      tab ++ "$(CC) -c $(CFLAGS) -Wa,-a,-ad,-alms=$(BUILD_DIR)/$(notdir $(<:.c=.lst)) $< -o $@";
      "";
      "$(BUILD_DIR)/%.o: %.s Makefile | $(BUILD_DIR)";
      tab ++ "$(AS) -c $(CFLAGS) $< -o $@";
      "";
      "$(BUILD_DIR)/$(TARGET).elf: $(OBJECTS) Makefile";
      tab ++ "$(CC) $(OBJECTS) $(LDFLAGS) -o $@";
      tab ++ "$(SZ) $@";
      "";
      "$(BUILD_DIR)/%.hex: $(BUILD_DIR)/%.elf | $(BUILD_DIR)";
      tab ++ "$(CP) -O ihex $< $@";
      "";
      "$(BUILD_DIR)/%.bin: $(BUILD_DIR)/%.elf | $(BUILD_DIR)";
      tab ++ "$(CP) -O binary -S $< $@";
      "";
      "$(BUILD_DIR):";
      tab ++ "mkdir -p $@";
      "";
      "# Очистка";
      "clean:";
      tab ++ "-rm -fR $(BUILD_DIR)";
      "";
      "# Прошивка";
      "flash: $(BUILD_DIR)/$(TARGET).bin";
      tab ++ "STM32_Programmer_CLI -c port=SWD -w " ++ dq ++ "$<" ++ dq ++ " -v -rst";
      "";
      "# Зависимости";
      "-include $(wildcard $(BUILD_DIR)/*.d)" ].

(** The two locals of [generate()]. *)
Definition generate_startupFile (projectConfig : ProjectConfig.t) : string :=
  let mcuParams := getMCUParams (ProjectConfig.mcu projectConfig)
                                (ProjectConfig.mcu projectConfig) in
  JS.or_else (ProjectConfig.startupFile projectConfig) (MCUParams.startupFile mcuParams).

Definition generate_ldscript (projectConfig : ProjectConfig.t) : string :=
  JS.or_else (ProjectConfig.ldscript projectConfig) "STM32F407XX_FLASH.ld".

(** The text [generate()] writes. *)
Definition makefileContent (now : string) (projectConfig : ProjectConfig.t) : string :=
  let mcuParams := getMCUParams (ProjectConfig.mcu projectConfig)
                                (ProjectConfig.mcu projectConfig) in
  generateContent now (ProjectConfig.projectName projectConfig)
                  (generate_startupFile projectConfig)
                  (generate_ldscript projectConfig)
                  mcuParams projectConfig.

(** The [Makefile] of the workspace and whether writing it succeeds. *)
Record MakefileDisk : Type := mkMakefileDisk {
  makefile : option string;
  makefile_writable : bool
}.

(** [generate()]. *)
Definition generate (workspacePath : option string) (projectConfig : ProjectConfig.t)
    (now : string) (d : MakefileDisk) : bool * MakefileDisk :=
  if negb (JS.truthy workspacePath) then (false, d)
  else if makefile_writable d
       then (true, mkMakefileDisk (Some (makefileContent now projectConfig)) true)
       else (false, d).

(** The specification's reading of the fallback test: a case-insensitive
    substring test. *)
Definition includes_ci (s needle : string) : bool :=
  JS.includes (JS.toLowerCase s) (JS.toLowerCase needle).

(** A host whose workspace holds two startup files outside the probed
    directories, the second one named after the define in its own case. *)
Definition mixed_case_host : Host :=
  {| basename := fun p => p;
     basename_ext := fun p _ => p;
     path_join := JS.join "/";
     path_relative := fun _ p => p;
     existsSync := fun _ => false;
     findFiles := fun pattern =>
       if String.eqb pattern "**/*startup*.s"
       then ["/work/boot/startup_generic.s"; "/work/Core/Startup/startup_STM32F407xx.s"]
       else [] |}.

(** A host whose workspace holds three startup files outside the probed
    directories: a generic one, then two named after the MCU. *)
Definition scattered_host : Host :=
  {| basename := fun p => p;
     basename_ext := fun p _ => p;
     path_join := JS.join "/";
     path_relative := fun _ p => p;
     existsSync := fun _ => false;
     findFiles := fun pattern =>
       if String.eqb pattern "**/*startup*.s" || String.eqb pattern "**/startup_*.s"
       then ["/work/boot/startup_generic.s"; "/work/boot/startup_stm32f407xx.s";
             "/work/legacy/startup_stm32f407.s"]
       else if String.eqb pattern "**/startup_stm32f4*.s"
            then ["/work/boot/startup_stm32f407xx.s"; "/work/legacy/startup_stm32f407.s"]
            else [] |}.

(* ===================================================================== *)
(** ** Freshness check of the Makefile                                    *)
(* ===================================================================== *)

(** [s.split('\n')]: the pieces of [s] between its line feeds.
    [parseIOCFile] splits a descriptor so, and the freshness check reads the
    build file line by line. *)
Fixpoint lines (s : string) : list string :=
  match s with
  | EmptyString => [EmptyString]
  | String c rest =>
      if Ascii.eqb c "010" then EmptyString :: lines rest
      else match lines rest with
           | l :: ls => String c l :: ls
           | [] => [String c EmptyString]
           end
  end.







(** Modelled from the spec: the result of the freshness check,
    [{upToDate, details?}], with the four fields of [details] that
    [BuildManager.checkBuildTools] prints. *)
Module Freshness.
Record report : Type := mkReport {
  currentStartup : option string;
  expectedStartup : string;
  currentLdscript : option string;
  expectedLdscript : string
}.
Record t : Type := mk {
  upToDate : bool;
  details : option report
}.
End Freshness.


(** No line feed in a string. *)
Definition no_newline (s : string) : bool :=
  all_chars (fun c => negb (Ascii.eqb c "010")) s.





(** The typed reading of the default configuration, and the same
    configuration once its linker script and startup file are resolved. *)
Definition default_projectConfig : ProjectConfig.t :=
  ProjectConfig.mk "STM32F407VGT6" (Some "STM32F407VGTx")
    ["Core/Src"; "Drivers/STM32F4xx_HAL_Driver/Src"]
    ["Core/Inc"; "Drivers/STM32F4xx_HAL_Driver/Inc"; "Drivers/CMSIS/Include";
     "Drivers/CMSIS/Device/ST/STM32F4xx/Include";
     "Drivers/STM32F4xx_HAL_Driver/Inc/Legacy"]
    (Some []) None None.



(** A command keeps a property: from a state of which it holds, it holds of
    the state the command leaves, returning or throwing. *)
Definition keeps {A : Type} (P : gmap string jsvalue -> bool) (c : Cmd A) : Prop :=
  forall st, holds P st -> holds P (final_state (c st)).

(** The keys of the two pairs. *)
Definition is_pair (name path : string) : Prop :=
  (name = "ldscript" /\ path = "ldscriptPath") \/
  (name = "startupFile" /\ path = "startupFilePath").

(** A host whose workspace holds one linker script and one startup file. *)
Definition sample_host : Host :=
  {| basename := fun p => if String.eqb p "/work/STM32F407VGTx_FLASH.ld"
                          then "STM32F407VGTx_FLASH.ld" else p;
     basename_ext := fun p _ => if String.eqb p "/work/Core/Startup/startup_stm32f407xx.s"
                                then "startup_stm32f407xx" else p;
     path_join := JS.join "/";
     path_relative := fun _ p => p;
     existsSync := fun p => String.eqb p "/work/Core/Startup/startup_stm32f407xx.s";
     findFiles := fun pattern =>
       if String.eqb pattern "**/*.ld" then ["/work/STM32F407VGTx_FLASH.ld"]
       else if String.eqb pattern "**/*startup*.s"
            then ["/work/Core/Startup/startup_stm32f407xx.s"]
            else [] |}.

(** A host whose workspace holds no file at all. *)
Definition empty_host : Host :=
  {| basename := fun p => p;
     basename_ext := fun p _ => p;
     path_join := JS.join "/";
     path_relative := fun _ p => p;
     existsSync := fun _ => false;
     findFiles := fun _ => [] |}.

(** A manager just constructed on a workspace without a configuration
    file. *)
Definition fresh_state : State :=
  mkState (mkManager (Some "/work") "linux" (Some (getDefaultConfig "linux")))
          (mkDisk Missing true).

(* ===================================================================== *)
(** ** The CubeMX descriptor ([.ioc]) of the workspace                    *)
(* ===================================================================== *)

(** The string methods [parseIOCFile] and [loadIOCConfig] call. *)
Module Text.

Definition bytes (codes : list nat) : string :=
  string_of_list_ascii (List.map ascii_of_nat codes).

(** The code points [String.prototype.trim] strips (WhiteSpace and
    LineTerminator of ECMAScript), in UTF-8: TAB, LF, VT, FF, CR, SP,
    U+00A0, U+1680, U+2000 to U+200A, U+2028, U+2029, U+202F, U+205F,
    U+3000 and U+FEFF. *)
Definition whiteSpace : list string :=
  [ bytes [9]; bytes [10]; bytes [11]; bytes [12]; bytes [13]; bytes [32];
    bytes [194; 160];
    bytes [225; 154; 128];
    bytes [226; 128; 128]; bytes [226; 128; 129]; bytes [226; 128; 130];
    bytes [226; 128; 131]; bytes [226; 128; 132]; bytes [226; 128; 133];
    bytes [226; 128; 134]; bytes [226; 128; 135]; bytes [226; 128; 136];
    bytes [226; 128; 137]; bytes [226; 128; 138];
    bytes [226; 128; 168]; bytes [226; 128; 169]; bytes [226; 128; 175];
    bytes [226; 129; 159];
    bytes [227; 128; 128];
    bytes [239; 187; 191] ].

Definition reverse (s : string) : string :=
  string_of_list_ascii (List.rev (list_ascii_of_string s)).

(** [s] without one of the [patterns] at its head, when it starts with
    one. *)
Definition leading (patterns : list string) (s : string) : option string :=
  match List.find (fun w => String.prefix w s) patterns with
  | Some w => Some (JS.drop (String.length w) s)
  | None => None
  end.

(** Patterns removed from the head of [s] for as long as there is one; at
    most [fuel] of them. *)
Fixpoint strip (patterns : list string) (fuel : nat) (s : string) : string :=
  match fuel with
  | O => s
  | S fuel' =>
      match leading patterns s with
      | Some rest => strip patterns fuel' rest
      | None => s
      end
  end.

(** [s.trimStart()], [s.trimEnd()] and [s.trim()]; a string of [n] bytes
    holds at most [n] code points. *)
Definition trimStart (s : string) : string := strip whiteSpace (String.length s) s.

Definition trimEnd (s : string) : string :=
  reverse (strip (List.map reverse whiteSpace) (String.length s) (reverse s)).

Definition trim (s : string) : string := trimStart (trimEnd s).

(** [s.indexOf(needle)]: the first position of [needle], [None] for -1. *)
Fixpoint indexOf (s needle : string) : option nat :=
  if String.prefix needle s then Some O
  else match s with
       | EmptyString => None
       | String _ rest => option_map S (indexOf rest needle)
       end.

(** [s.endsWith(suffix)]. *)
Fixpoint endsWith (s suffix : string) : bool :=
  if String.eqb s suffix then true
  else match s with
       | EmptyString => false
       | String _ rest => endsWith rest suffix
       end.

End Text.

(** [content.split('\n')]: the split at line feeds is [lines]. *)
Definition split_lines (content : string) : list string := lines content.

(** The [key] and the [value] of a line, when the loop of [parseIOCFile]
    reaches its assignment on that line. *)
Definition iocEntry (line : string) : option (string * string) :=
  let trimmed := Text.trim line in
  if negb (JS.truthy (Some trimmed)) || String.prefix "#" trimmed then None
  else
    match Text.indexOf trimmed "=" with
    | Some (S i) =>
        let eqIndex := S i in
        let key := Text.trim (String.substring 0 eqIndex trimmed) in
        let value := Text.trim (JS.drop (eqIndex + 1) trimmed) in
        Some (key, value)
    | _ => None
    end.

(** One turn of the loop: the descriptor after [line].  The assignment
    [config[key] = value] of a string to ['__proto__'] reaches the prototype
    setter, which ignores a value that is not an object. *)
Definition parseIOCLine (config : gmap string string) (line : string)
  : gmap string string :=
  match iocEntry line with
  | Some (key, value) =>
      if String.eqb key "__proto__" then config else <[ key := value ]> config
  | None => config
  end.

(** [parseIOCFile(content)]. *)
Definition parseIOCFile (content : string) : gmap string string :=
  List.fold_left parseIOCLine (split_lines content) ∅.

(** What [loadIOCConfig] asks of the file system: [readdirSync] and
    [readFileSync(_, 'utf8')]; [None] when the call throws. *)
Record Files : Type := mkFiles {
  readdirSync : string -> option (list string);
  readFileSync : string -> option string
}.

(** [if (this.iocConfig[source]) this.projectConfig[target] =
    this.iocConfig[source];] *)
Definition copyFromIOC (iocConfig : gmap string string) (source target : string)
  : Cmd unit :=
  match iocConfig !! source with
  | Some (String c rest) => assign target (JStr (String c rest))
  | _ => ret tt
  end.

(** [updateConfigFromIOC()], with [this.iocConfig] as its argument. *)
Definition updateConfigFromIOC (iocConfig : option (gmap string string)) : Cmd unit :=
  (m <- get_manager ;;
   match iocConfig, projectConfig m with
   | Some ioc, Some _ =>
       copyFromIOC ioc "Mcu.CPN" "mcu" ;;;
       copyFromIOC ioc "Mcu.Name" "mcuFamily" ;;;
       copyFromIOC ioc "ProjectManager.CompilerLinker" "compilerLinker" ;;;
       copyFromIOC ioc "ProjectManager.StackSize" "stackSize" ;;;
       copyFromIOC ioc "ProjectManager.HeapSize" "heapSize" ;;;
       copyFromIOC ioc "ProjectManager.ProjectName" "projectName" ;;;
       copyFromIOC ioc "RCC.SYSCLKFreq_VALUE" "sysClockFreq"
   | _, _ => ret tt
   end)%cmd.

(** [loadIOCConfig()], with [this.iocConfig] as an argument: the value
    returned and [this.iocConfig] afterwards.  Whatever the body throws is
    caught and gives [null]. *)
Definition loadIOCConfig (h : Host) (fs : Files) (iocConfig : option (gmap string string))
  : Cmd (option (gmap string string) * option (gmap string string)) :=
  (m <- get_manager ;;
   match workspacePath m with
   | Some (String w ws) =>
       let workspacePath := String w ws in
       match readdirSync fs workspacePath with
       | None => ret (None, iocConfig)
       | Some files =>
           match List.filter (fun f => Text.endsWith f ".ioc") files with
           | [] => ret (None, iocConfig)
           | iocFile :: _ =>
               match readFileSync fs (path_join h [workspacePath; iocFile]) with
               | None => ret (None, iocConfig)
               | Some content =>
                   let parsed := parseIOCFile content in
                   updateConfigFromIOC (Some parsed) ;;;
                   ret (Some parsed, Some parsed)
               end
           end
       end
   | _ => ret (None, iocConfig)
   end)%cmd.


(** [reloadIOCConfig()]: the value returned and [this.iocConfig]
    afterwards. *)
Definition reloadIOCConfig (h : Host) (fs : Files) (iocConfig : option (gmap string string))
  : Cmd (bool * option (gmap string string)) :=
  (r <- loadIOCConfig h fs iocConfig ;;
   saveConfig ;;;
   ret (match snd r with Some _ => true | None => false end, snd r))%cmd.

(* ===================================================================== *)
(** ** Build errors ([utils.execCommand], [BuildManager.handleBuildError]) *)
(* ===================================================================== *)

(** How the child process of [execCommand] ends: with its 'close' event and
    an exit code ([null] when a signal killed it), or with its 'error'
    event. *)
Inductive ChildEnd : Type :=
| Closed (code : option Z)
| Errored (message : string).

(** [`${code}`] for an exit code, a 32-bit integer or [null]. *)
Definition show_code (code : option Z) : string :=
  match code with
  | Some z => NilZero.string_of_int (Z.to_int z)
  | None => "null"
  end.

(** The promise of [execCommand(cmd, name, ...)]: [None] when it resolves,
    the message of the error it rejects with otherwise. *)
Definition execCommand (name : string) (child : ChildEnd) : option string :=
  match child with
  | Closed (Some 0%Z) => None
  | Closed code => Some (name ++ " failed with exit code " ++ show_code code)
  | Errored message => Some message
  end.

(** [BuildManager.executeBuild()]; [spawn cmd] is the end of the child
    process started for [cmd].  [None] when it returns [true], the message of
    the error it throws otherwise. *)
Definition executeBuild (spawn : string -> ChildEnd) : option string :=
  match execCommand "Сборка" (spawn "make -j4") with
  | None => None
  | Some _ => execCommand "Сборка (без параллелизма)" (spawn "make")
  end.

(** The branch of the [if] chain of [handleBuildError] a message takes. *)
Inductive BuildProblem : Type :=
| MakeMissing
| ToolchainMissing
| LinkerProblem
| StartupProblem
| OtherProblem.

Definition buildProblem (message : string) : BuildProblem :=
  if JS.includes message "make: command not found" then MakeMissing
  else if JS.includes message "arm-none-eabi" then ToolchainMissing
  else if JS.includes message ".ld" then LinkerProblem
  else if JS.includes message "startup" || JS.includes message ".s" then StartupProblem
  else OtherProblem.

(** The buttons of the error message. *)
Definition suggestedActions (problem : BuildProblem) : list string :=
  "Открыть вывод" ::
  match problem with
  | MakeMissing | ToolchainMissing => ["Проверить инструменты"]
  | LinkerProblem => ["Проверить скрипт линкера"]
  | StartupProblem => ["Проверить startup файл"]
  | OtherProblem => []
  end.

(** [handleBuildError(error)] with the callback of its message;
    [message] is [error.message] ([None] for [undefined], on which the
    fourth test of the chain calls [includes]), and [press] is the button the
    user presses among those offered.  The text of the linker problem
    interpolates [projectConfig.ldscript]. *)
Definition handleBuildError (message : option string)
    (press : list string -> option string) : Cmd unit :=
  match message with
  | None => throw "TypeError"
  | Some message =>
      let problem := buildProblem message in
      (match problem with
       | LinkerProblem => read "ldscript" ;;; ret tt
       | _ => ret tt
       end ;;;
       handleBuildError_then (press (suggestedActions problem)))%cmd
  end.

(** A dialog answers with one of the buttons it offers, or with nothing. *)
Definition presses_offered (press : list string -> option string) : Prop :=
  forall buttons choice, press buttons = Some choice -> In choice buttons.

(* ===================================================================== *)
(** ** Workspace settings ([ProjectManager.createSettingsConfig])         *)
(* ===================================================================== *)

(** [.vscode/settings.json]: what reading and parsing it gives, and whether
    writing it succeeds. *)
Record SettingsDisk : Type := mkSettingsDisk {
  settingsFile : ConfigFile;
  settings_writable : bool
}.

(** The object literal [stm32Settings]. *)
Definition stm32Settings : list (string * jsvalue) :=
  [ ("files.associations",
     JObj [ ("*.h", JStr "c");
            ("stm32f4xx_hal.h", JStr "c");
            ("stm32f4xx*.h", JStr "c");
            ("*.c", JStr "c");
            ("*.ld", JStr "ld") ]);
    ("C_Cpp.intelliSenseEngine", JStr "default");
    ("C_Cpp.default.configurationProvider", JStr "ms-vscode.cpptools") ].

(** [existingSettings] as the spread [{ ...existingSettings }] sees it: the
    own properties of the parsed file, none when the file is absent or
    reading or parsing it throws. *)
Definition existingSettings (f : ConfigFile) : gmap string jsvalue :=
  match f with
  | Parses v => spread ∅ (own_props v)
  | _ => ∅
  end.

(** [createSettingsConfig(vscodeDir)]: the disk afterwards, [None] when
    [writeFileSync] throws and the promise rejects. *)
Definition createSettingsConfig (d : SettingsDisk) : option SettingsDisk :=
  let mergedSettings := spread (existingSettings (settingsFile d)) stm32Settings in
  if settings_writable d
  then Some (mkSettingsDisk (Parses (json_reparse (object_value mergedSettings))) true)
  else None.

(* ===================================================================== *)
(** ** Vocabulary of the further properties                               *)
(* ===================================================================== *)

(** The descriptor keys [updateConfigFromIOC] copies, each with the field
    of the configuration it is copied to, in the order of the source. *)
Definition iocFields : list (string * string) :=
  [ ("Mcu.CPN", "mcu");
    ("Mcu.Name", "mcuFamily");
    ("ProjectManager.CompilerLinker", "compilerLinker");
    ("ProjectManager.StackSize", "stackSize");
    ("ProjectManager.HeapSize", "heapSize");
    ("ProjectManager.ProjectName", "projectName");
    ("RCC.SYSCLKFreq_VALUE", "sysClockFreq") ].

(** The configuration with one field, with all fields of a descriptor
    copied over it: a key the descriptor lacks or gives the empty string
    leaves its field alone. *)
Definition copyField (iocConfig : gmap string string) (acc : gmap string jsvalue)
    (field : string * string) : gmap string jsvalue :=
  match iocConfig !! fst field with
  | Some (String c rest) => <[ snd field := JStr (String c rest) ]> acc
  | _ => acc
  end.

Definition withIOC (iocConfig : gmap string string) (o : gmap string jsvalue)
  : gmap string jsvalue :=
  List.fold_left (copyField iocConfig) iocFields o.

(** The text with a carriage return in front of every line feed, and its
    lines: every line but the last ends with a carriage return. *)
Fixpoint crlf (content : string) : string :=
  match content with
  | EmptyString => EmptyString
  | String c rest =>
      if Ascii.eqb c "010" then String "013" (String "010" (crlf rest))
      else String c (crlf rest)
  end.

Fixpoint with_cr (ls : list string) : list string :=
  match ls with
  | [] => []
  | [l] => [l]
  | l :: rest => (l ++ String "013" "") :: with_cr rest
  end.

(** No white space at the head, at the end of a string. *)
Definition starts_clean (s : string) : Prop :=
  Text.leading Text.whiteSpace s = None.

Definition ends_clean (s : string) : Prop :=
  Text.leading (List.map Text.reverse Text.whiteSpace) (Text.reverse s) = None.

(** The string starts with a capital letter. *)
Definition starts_upper (s : string) : bool :=
  match s with
  | String c _ => is_upper c
  | EmptyString => false
  end.

(** The characters of a printed exit code. *)
Definition code_char (c : ascii) : bool :=
  is_digit c || Ascii.eqb c "-" || Ascii.eqb c "n" || Ascii.eqb c "u" || Ascii.eqb c "l".

(** Both pairs of the configuration are resolved: all four fields are
    truthy. *)
Definition resolved (o : gmap string jsvalue) : bool :=
  truthy_value (o !! "ldscript") && truthy_value (o !! "ldscriptPath")
  && truthy_value (o !! "startupFile") && truthy_value (o !! "startupFilePath").

(** A manager whose configuration names a linker script and a startup
    file. *)
Definition resolved_state : State :=
  mkState
    (mkManager (Some "/work") "linux"
       (Some (<[ "startupFilePath" := JStr "/work/Core/Startup/startup_stm32f407xx.s" ]>
                (<[ "startupFile" := JStr "startup_stm32f407xx" ]>
                   (<[ "ldscriptPath" := JStr "/work/STM32F407VGTx_FLASH.ld" ]>
                      (<[ "ldscript" := JStr "STM32F407VGTx_FLASH.ld" ]>
                         (getDefaultConfig "linux")))))))
    (mkDisk Missing true).

(** A workspace folder that holds the descriptor [project.ioc] of an
    STM32F103 project, after a backup file. *)
Definition sample_files : Files :=
  {| readdirSync := fun dir =>
       if String.eqb dir "/work" then Some ["Makefile"; "old.ioc.bak"; "project.ioc"]
       else None;
     readFileSync := fun p =>
       if String.eqb p "/work/project.ioc"
       then Some ("#MicroXplorer Configuration settings - do not modify" ++ nl
                  ++ "Mcu.CPN=STM32F103C8Tx" ++ nl
                  ++ "Mcu.Name=STM32F103C(8-B)Tx" ++ nl
                  ++ "ProjectManager.ProjectName=blinky" ++ nl
                  ++ "ProjectManager.StackSize=" ++ nl)
       else None |}.

(* ##################################################################### *)
(** * Part II: properties                                                 *)
(* ##################################################################### *)

(* ===================================================================== *)
(** ** The definitions on the scenarios of the specification              *)
(* ===================================================================== *)

Example lookup_STM32F407VGTx :
  getMCUParams None (Some "STM32F407VGTx")
  = MCUParams.mk "-mcpu=cortex-m4" "-mfpu=fpv4-sp-d16" "-mfloat-abi=hard"
                 "startup_stm32f407xx" "STM32F407xx" "f4".
Proof. reflexivity. Qed.

Example lookup_first_row_wins :
  MCUParams.define (getMCUParams None (Some "STM32F103-on-STM32F407")) = "STM32F407xx".
Proof. reflexivity. Qed.

Example lookup_unknown_is_default :
  getMCUParams None (Some "ATmega328P") = MCUTable.stm32f407.
Proof. reflexivity. Qed.

Example default_config_linux :
  getDefaultConfig "linux" !! "serialPort" = Some (JStr "/dev/ttyUSB*") /\
  getDefaultConfig "linux" !! "baudRate" = Some (num 115200).
Proof. split; reflexivity. Qed.

Example memory_sizes_STM32F407VGTx :
  getMemorySizes None (Some "STM32F407VGTx") = MemorySizes.mk "512K" "128K" "0K".
Proof. reflexivity. Qed.

Example expected_linker_name_STM32F407VGT6 :
  getExpectedLinkerName (Some "STM32F407VGT6") = "STM32F407VGT_FLASH.ld".
Proof. reflexivity. Qed.

Example expected_linker_name_without_variant :
  getExpectedLinkerName (Some "STM32G071RB") = "STM32G071RB_FLASH.ld".
Proof. reflexivity. Qed.

Example typed_default_config :
  typed_config (getDefaultConfig "linux") = Some default_projectConfig.
Proof. vm_compute. reflexivity. Qed.

Example exclude_rule_rendered :
  excludeRule (ProjectConfig.mk "app" None ["Core/Src"] [] (Some ["main_test.c"]) None None)
  = nl ++ "# Исключаемые файлы" ++ nl
       ++ "C_SOURCES := $(filter-out %main_test.c, $(C_SOURCES))".
Proof. reflexivity. Qed.

Example resolvers_on_sample_host :
  option_map LinkerResult.ldscriptPath (findLinkerScript sample_host (manager fresh_state))
  = Some "/work/STM32F407VGTx_FLASH.ld" /\
  option_map StartupResult.startupFilePath (findStartupFile sample_host (manager fresh_state))
  = Some "/work/Core/Startup/startup_stm32f407xx.s".
Proof. split; vm_compute; reflexivity. Qed.

(* ===================================================================== *)
(** ** Properties of the MCU table                                        *)
(* ===================================================================== *)

(** The series code of every parameter set is one of the lowercase codes. *)
Lemma getMCUParams_series (config_mcu mcuName : option string) :
  In (MCUParams.series (getMCUParams config_mcu mcuName))
     ["f4"; "f1"; "f3"; "f0"; "g0"; "l4"; "h7"].
Proof.
  unfold getMCUParams, mcuParams_where.
  repeat match goal with
         | |- context [if JS.includes ?s ?k then _ else _] =>
             destruct (JS.includes s k)
         end; simpl; tauto.
Qed.

(** C4.  For every non-empty MCU identifier, [getMCUParams] returns a full
    parameter record: that of the first table row whose substring occurs in
    the identifier, and the STM32F407 record when no row matches. *)
Theorem getMCUParams_first_match (config_mcu : option string) (mcuName : string) :
  mcuName <> "" ->
  getMCUParams config_mcu (Some mcuName) = MCUTable.first_match mcuName /\
  (List.find (fun row => JS.includes mcuName (fst row)) MCUTable.rows = None ->
   getMCUParams config_mcu (Some mcuName) = MCUTable.stm32f407).
Proof.
  intros Hne.
  assert (Heq : getMCUParams config_mcu (Some mcuName) = MCUTable.first_match mcuName).
  { destruct mcuName as [|c r]; [congruence |].
    unfold getMCUParams, mcuParams_where. cbv beta iota zeta.
    generalize (String c r) as name. intros name.
    unfold MCUTable.first_match, MCUTable.rows. simpl List.find.
    repeat match goal with
           | |- context [if JS.includes name ?k then _ else _] =>
               destruct (JS.includes name k); [reflexivity |]
           end.
    reflexivity. }
  split; [exact Heq |].
  intros Hnone. rewrite Heq. unfold MCUTable.first_match. now rewrite Hnone.
Qed.

Lemma getMCUParams_first_match_witness :
  getMCUParams None (Some "STM32F407VGTx") = MCUTable.first_match "STM32F407VGTx" /\
  (List.find (fun row => JS.includes "STM32F407VGTx" (fst row)) MCUTable.rows = None ->
   getMCUParams None (Some "STM32F407VGTx") = MCUTable.stm32f407).
Proof. apply (getMCUParams_first_match None "STM32F407VGTx"). discriminate. Defined.

(** C10.  Whatever the identifier (and whatever the configuration holds when
    the identifier is missing), the [ccmram] component is ['0K']: the series
    code of the looked-up parameters is one of the lowercase codes, and the
    test compares it with 'F4', 'F7' and 'H7'. *)
Theorem getMemorySizes_ccmram (config_mcu mcuName : option string) :
  MemorySizes.ccmram (getMemorySizes config_mcu mcuName) = "0K" /\
  forall name,
    In (MCUParams.series (getMCUParams config_mcu name))
       ["f4"; "f1"; "f3"; "f0"; "g0"; "l4"; "h7"].
Proof.
  split; [| intros name; apply getMCUParams_series].
  unfold getMemorySizes.
  set (name := match mcuName with Some (String c rest) => _ | _ => _ end).
  assert (Ht : JS.truthy (Some name) = true).
  { subst name. destruct mcuName as [[|c r]|]; simpl;
      try reflexivity; destruct config_mcu as [[|c' r']|]; reflexivity. }
  rewrite Ht. simpl negb. cbv iota.
  pose proof (getMCUParams_series config_mcu (Some name)) as Hs.
  simpl in Hs.
  destruct Hs as [H|[H|[H|[H|[H|[H|[H|[]]]]]]]]; rewrite <- H; reflexivity.
Qed.

(* ===================================================================== *)
(** ** Object spread                                                      *)
(* ===================================================================== *)

Lemma spread_cons (t : gmap string jsvalue) (kv : string * jsvalue) src :
  spread t (kv :: src) = spread (<[ fst kv := snd kv ]> t) src.
Proof. reflexivity. Qed.

Lemma spread_lookup_notin (src : list (string * jsvalue)) :
  forall (t : gmap string jsvalue) (k : string),
    ~ In k (List.map fst src) -> spread t src !! k = t !! k.
Proof.
  induction src as [|[k0 v0] src IH]; intros t k Hk; [reflexivity |].
  rewrite spread_cons, IH.
  - simpl. apply lookup_insert_ne. intros ->. apply Hk. now left.
  - intros Hin. apply Hk. now right.
Qed.

Lemma spread_lookup_in (src : list (string * jsvalue)) :
  forall (t : gmap string jsvalue) (k : string) (v : jsvalue),
    List.NoDup (List.map fst src) -> In (k, v) src -> spread t src !! k = Some v.
Proof.
  induction src as [|[k0 v0] src IH]; intros t k v Hnd Hin; [destruct Hin |].
  simpl in Hnd. apply List.NoDup_cons_iff in Hnd as [Hfresh Hnd].
  rewrite spread_cons. destruct Hin as [Heq | Hin].
  - inversion Heq; subst. rewrite spread_lookup_notin by exact Hfresh.
    simpl. apply lookup_insert_eq.
  - now apply IH.
Qed.

Lemma spread_keeps_keys (src : list (string * jsvalue)) :
  forall (t : gmap string jsvalue) (k : string),
    spread t src !! k = None -> t !! k = None.
Proof.
  induction src as [|[k0 v0] src IH]; intros t k Hk; [exact Hk |].
  rewrite spread_cons in Hk. apply IH in Hk. simpl in Hk.
  apply lookup_insert_None in Hk. tauto.
Qed.

(** Spreading the properties of an object [o] over [t] is the union that
    prefers [o]. *)
Lemma spread_map_to_list (o t : gmap string jsvalue) :
  spread t (map_to_list o) = o ∪ t.
Proof.
  apply map_eq. intros k.
  destruct (o !! k) as [v|] eqn:Hok.
  - rewrite (lookup_union_Some_l o t k v Hok).
    apply spread_lookup_in.
    + apply NoDup_ListNoDup. apply (NoDup_fst_map_to_list o).
    + apply list_elem_of_In. now apply elem_of_map_to_list.
  - rewrite lookup_union_r by exact Hok.
    apply spread_lookup_notin. intros Hin.
    apply in_map_iff in Hin as [[k' v'] [Hk Hin]]. simpl in Hk. subst k'.
    apply list_elem_of_In, elem_of_map_to_list in Hin. congruence.
Qed.

Lemma union_spread_absorb (t : gmap string jsvalue) src :
  spread t src ∪ t = spread t src.
Proof.
  apply map_eq. intros k.
  destruct (spread t src !! k) as [v|] eqn:Hk.
  - now apply lookup_union_Some_l.
  - rewrite lookup_union_r by exact Hk. now apply spread_keeps_keys in Hk.
Qed.

(* ===================================================================== *)
(** ** Serialisation                                                      *)
(* ===================================================================== *)

Lemma jsvalue_nested_ind (P : jsvalue -> Prop) :
  P JNull ->
  (forall b, P (JBool b)) ->
  (forall n, P (JNum n)) ->
  (forall s, P (JStr s)) ->
  (forall items, Forall P items -> P (JArr items)) ->
  (forall props, Forall (fun kv => P (snd kv)) props -> P (JObj props)) ->
  forall v, P v.
Proof.
  intros Hnull Hbool Hnum Hstr Harr Hobj.
  fix IH 1. intros [ | b | n | s | items | props].
  - exact Hnull.
  - apply Hbool.
  - apply Hnum.
  - apply Hstr.
  - apply Harr. induction items as [|x items IHitems]; constructor.
    + apply IH.
    + exact IHitems.
  - apply Hobj. induction props as [|[k x] props IHprops]; constructor.
    + apply IH.
    + exact IHprops.
Qed.

Lemma json_reparse_stable (v : jsvalue) :
  json_stable v = true -> json_reparse v = v.
Proof.
  induction v as [ | b | n | s | items IH | props IH] using jsvalue_nested_ind;
    simpl; intros Hst; try reflexivity.
  - destruct n as [[|]| | |]; simpl in Hst; try discriminate; reflexivity.
  - f_equal. induction IH as [|x items Hx _ IHitems]; [reflexivity |].
    simpl in Hst. apply andb_true_iff in Hst as [Hx' Hrest].
    simpl. now rewrite Hx, IHitems.
  - f_equal. induction IH as [|[k x] props Hx _ IHprops]; [reflexivity |].
    simpl in Hst. apply andb_true_iff in Hst as [Hx' Hrest].
    simpl in *. now rewrite Hx, IHprops.
Qed.

(* ===================================================================== *)
(** ** load and save                                                      *)
(* ===================================================================== *)

Lemma loadConfig_run (ws : option string) (platform : string)
      (o : option (gmap string jsvalue)) (d : Disk) :
  loadConfig (mkState (mkManager ws platform o) d)
  = Normal tt (mkState (mkManager ws platform (Some (loaded ws platform (configFile d)))) d).
Proof.
  unfold loadConfig, loaded, bind, get_manager, get_disk. simpl.
  destruct (JS.truthy ws); simpl; [| reflexivity].
  destruct d as [[| | v] w]; reflexivity.
Qed.

(** C5.  With a workspace whose configuration file parses to an object,
    [loadConfig] installs the defaults with exactly the override's keys
    replaced: a key the override lacks keeps its default, a key it has takes
    the override's value. *)
Theorem loadConfig_merge_precedence
    (ws : option string) (platform : string) (before : option (gmap string jsvalue))
    (override : list (string * jsvalue)) (w : bool) :
  JS.truthy ws = true ->
  List.NoDup (List.map fst override) ->
  exists cfg : gmap string jsvalue,
    loadConfig (mkState (mkManager ws platform before) (mkDisk (Parses (JObj override)) w))
    = Normal tt (mkState (mkManager ws platform (Some cfg))
                         (mkDisk (Parses (JObj override)) w)) /\
    (forall k, ~ In k (List.map fst override) ->
               cfg !! k = getDefaultConfig platform !! k) /\
    (forall k v, In (k, v) override -> cfg !! k = Some v).
Proof.
  intros Hws Hnd.
  exists (spread (getDefaultConfig platform) override).
  split; [| split].
  - rewrite loadConfig_run. unfold loaded. now rewrite Hws.
  - intros k Hk. now apply spread_lookup_notin.
  - intros k v Hin. now apply spread_lookup_in.
Qed.

Lemma loadConfig_merge_precedence_witness :
  exists cfg : gmap string jsvalue,
    loadConfig (mkState (mkManager (Some "/work") "linux" None)
                        (mkDisk (Parses (JObj [("mcu", JStr "STM32F103C8Tx")])) true))
    = Normal tt (mkState (mkManager (Some "/work") "linux" (Some cfg))
                         (mkDisk (Parses (JObj [("mcu", JStr "STM32F103C8Tx")])) true)) /\
    (forall k, ~ In k (List.map fst [("mcu", JStr "STM32F103C8Tx")]) ->
               cfg !! k = getDefaultConfig "linux" !! k) /\
    (forall k v, In (k, v) [("mcu", JStr "STM32F103C8Tx")] -> cfg !! k = Some v).
Proof.
  apply (loadConfig_merge_precedence (Some "/work") "linux" None
           [("mcu", JStr "STM32F103C8Tx")] true).
  - reflexivity.
  - simpl. constructor; [intros [] | constructor].
Defined.

(** C6.  When the configuration file exists but reading or parsing it
    throws, [loadConfig] completes normally and installs exactly the default
    configuration; the disk is left as it was. *)
Theorem loadConfig_malformed_gives_defaults
    (ws : option string) (platform : string) (before : option (gmap string jsvalue))
    (w : bool) :
  loadConfig (mkState (mkManager ws platform before) (mkDisk Unparsable w))
  = Normal tt (mkState (mkManager ws platform (Some (getDefaultConfig platform)))
                       (mkDisk Unparsable w)).
Proof.
  rewrite loadConfig_run. unfold loaded. simpl. now destruct (JS.truthy ws).
Qed.

Lemma saveConfig_run (ws : option string) (platform : string)
      (o : gmap string jsvalue) (f : ConfigFile) (w : bool) :
  saveConfig (mkState (mkManager ws platform (Some o)) (mkDisk f w))
  = if JS.truthy ws && w
    then Normal true
           (mkState (mkManager ws platform
                       (Some (spread (getDefaultConfig platform)
                                     (own_props (json_reparse (object_value o))))))
                    (mkDisk (Parses (json_reparse (object_value o))) w))
    else Normal false (mkState (mkManager ws platform (Some o)) (mkDisk f w)).
Proof.
  unfold saveConfig, bind, get_manager. simpl.
  destruct (JS.truthy ws) eqn:Hws; simpl; [| reflexivity].
  unfold try_catch, bind, stringify_and_write. simpl.
  destruct w; simpl; [| reflexivity].
  rewrite loadConfig_run. unfold loaded. rewrite Hws. reflexivity.
Qed.

Lemma object_value_stable (o : gmap string jsvalue) :
  json_stable (object_value o) = true ->
  json_reparse (object_value o) = object_value o.
Proof. apply json_reparse_stable. Qed.

(** The three steps complete normally, and the second load restores the
    configuration of the first when serialisation leaves it unchanged. *)
Lemma load_save_load_steps (st0 : State) :
  exists (st1 st2 st3 : State) (saved : bool) (cfg1 : gmap string jsvalue),
    loadConfig st0 = Normal tt st1 /\
    saveConfig st1 = Normal saved st2 /\
    loadConfig st2 = Normal tt st3 /\
    projectConfig (manager st1) = Some cfg1 /\
    (json_stable (object_value cfg1) = true ->
     projectConfig (manager st3) = Some cfg1).
Proof.
  destruct st0 as [[ws platform o] [f w]].
  set (cfg1 := loaded ws platform f).
  pose proof (loadConfig_run ws platform o (mkDisk f w)) as Hload1.
  pose proof (saveConfig_run ws platform cfg1 f w) as Hsave.
  destruct (JS.truthy ws && w) eqn:Hok.
  - eexists _, _, _, true, cfg1.
    split; [exact Hload1 |]. split; [exact Hsave |].
    rewrite loadConfig_run.
    split; [reflexivity |]. split; [reflexivity |].
    intros Hst. cbn [manager projectConfig disk configFile]. f_equal.
    apply andb_true_iff in Hok as [Hws _].
    unfold loaded at 1. rewrite Hws.
    rewrite (object_value_stable cfg1 Hst). unfold object_value. simpl own_props.
    rewrite spread_map_to_list.
    subst cfg1. unfold loaded. rewrite Hws.
    destruct f; try apply map_union_idemp. apply union_spread_absorb.
  - eexists _, _, _, false, cfg1.
    split; [exact Hload1 |]. split; [exact Hsave |].
    rewrite loadConfig_run.
    split; [reflexivity |]. split; [reflexivity |]. intros _. reflexivity.
Qed.

(** C7 (amended).  From any manager and disk, load then save then load
    completes normally with both configurations installed, and when every
    number of the first loaded configuration is finite and not negative
    zero, the second load yields the configuration of the first. *)
Theorem load_save_load_stable (st0 : State) :
  exists (cfg1 cfg3 : gmap string jsvalue) (st : State),
    load_save_load st0 = Normal (Some cfg1, Some cfg3) st /\
    (json_stable (object_value cfg1) = true -> cfg3 = cfg1).
Proof.
  destruct (load_save_load_steps st0)
    as (st1 & st2 & st3 & saved & cfg1 & H1 & H2 & H3 & Hcfg1 & Hstable).
  assert (Hcfg3 : exists cfg3, projectConfig (manager st3) = Some cfg3).
  { destruct st2 as [[ws platform o] d]. rewrite loadConfig_run in H3.
    inversion H3; subst. eexists; reflexivity. }
  destruct Hcfg3 as [cfg3 Hcfg3].
  exists cfg1, cfg3, st3. split.
  - unfold load_save_load, bind, get_manager, ret.
    rewrite H1, H2, H3, Hcfg1, Hcfg3. reflexivity.
  - intros Hst. specialize (Hstable Hst). congruence.
Qed.

Lemma load_save_load_first (st0 st : State) (cfg1 cfg3 : gmap string jsvalue) :
  load_save_load st0 = Normal (Some cfg1, Some cfg3) st ->
  cfg1 = loaded (workspacePath (manager st0)) (currentPlatform (manager st0))
                (configFile (disk st0)).
Proof.
  destruct st0 as [[ws platform o] [f w]].
  unfold load_save_load, bind, get_manager, ret.
  rewrite loadConfig_run. rewrite saveConfig_run.
  cbn [manager projectConfig disk configFile workspacePath currentPlatform].
  destruct (JS.truthy ws && w); rewrite loadConfig_run; intros H; now inversion H.
Qed.

Lemma loaded_9600_stable :
  json_stable
    (object_value (loaded (Some "/work") "linux" (Parses (JObj [("baudRate", num 9600)]))))
  = true.
Proof. vm_compute. reflexivity. Qed.

Lemma load_save_load_stable_witness :
  exists (cfg1 cfg3 : gmap string jsvalue) (st : State),
    load_save_load (mkState (mkManager (Some "/work") "linux" None)
                            (mkDisk (Parses (JObj [("baudRate", num 9600)])) true))
    = Normal (Some cfg1, Some cfg3) st /\
    cfg3 = cfg1.
Proof.
  destruct (load_save_load_stable
              (mkState (mkManager (Some "/work") "linux" None)
                       (mkDisk (Parses (JObj [("baudRate", num 9600)])) true)))
    as (cfg1 & cfg3 & st & Hrun & Hstable).
  exists cfg1, cfg3, st. split; [exact Hrun |].
  apply Hstable.
  rewrite (load_save_load_first _ _ _ _ Hrun). exact loaded_9600_stable.
Defined.

(** C7 as stated fails on a number beyond the double range: a file holding
    [{"baudRate": 1e999}] loads with [baudRate] infinite, is saved with
    [baudRate] printed as [null], and loads again with [baudRate] null. *)
Lemma load_save_load_overflow_differs :
  exists (cfg1 cfg3 : gmap string jsvalue) (st : State),
    load_save_load
      (mkState (mkManager (Some "/work") "linux" None)
               (mkDisk (Parses (JObj [("baudRate", JNum (S754_infinity false))])) true))
    = Normal (Some cfg1, Some cfg3) st /\
    cfg1 !! "baudRate" = Some (JNum (S754_infinity false)) /\
    cfg3 !! "baudRate" = Some JNull /\
    cfg3 <> cfg1.
Proof.
  set (cfg1 := loaded (Some "/work") "linux"
                 (Parses (JObj [("baudRate", JNum (S754_infinity false))]))).
  set (cfg3 := spread (getDefaultConfig "linux")
                 (own_props (json_reparse (object_value cfg1)))).
  assert (H1 : cfg1 !! "baudRate" = Some (JNum (S754_infinity false)))
    by (vm_compute; reflexivity).
  assert (H3 : cfg3 !! "baudRate" = Some JNull) by (vm_compute; reflexivity).
  exists cfg1, cfg3. eexists. split; [| split; [exact H1 | split; [exact H3 |]]].
  - unfold load_save_load, bind, get_manager, ret.
    rewrite loadConfig_run. rewrite saveConfig_run.
    cbn [manager projectConfig disk configFile JS.truthy andb].
    rewrite loadConfig_run. reflexivity.
  - intros Heq. rewrite Heq, H1 in H3. discriminate H3.
Qed.

(* ===================================================================== *)
(** ** The pairing invariant                                              *)
(* ===================================================================== *)

Lemma defaults_pairs_ok (platform : string) :
  pairs_ok (getDefaultConfig platform) = true.
Proof. reflexivity. Qed.

Lemma paired_insert_other (o : gmap string jsvalue) (name path k : string) (v : jsvalue) :
  k <> name -> k <> path -> paired (<[ k := v ]> o) name path = paired o name path.
Proof.
  intros Hn Hp. unfold paired. now rewrite !lookup_insert_ne by assumption.
Qed.

Lemma paired_insert_strings (o : gmap string jsvalue) (name path n p : string) :
  name <> path ->
  paired (<[ path := JStr p ]> (<[ name := JStr n ]> o)) name path = true.
Proof.
  intros Hne. unfold paired.
  rewrite lookup_insert_ne by congruence.
  now rewrite !lookup_insert_eq.
Qed.

Lemma paired_insert_nulls (o : gmap string jsvalue) (name path : string) :
  name <> path ->
  paired (<[ path := JNull ]> (<[ name := JNull ]> o)) name path = true.
Proof.
  intros Hne. unfold paired.
  rewrite lookup_insert_ne by congruence.
  now rewrite !lookup_insert_eq.
Qed.

Lemma reload_lookup (t o : gmap string jsvalue) (k : string) (v : jsvalue) :
  o !! k = Some v ->
  spread t (own_props (json_reparse (object_value o))) !! k = Some (json_reparse v).
Proof.
  intros Hk. unfold object_value. simpl.
  apply spread_lookup_in.
  - rewrite List.map_map. simpl.
    apply NoDup_ListNoDup. apply (NoDup_fst_map_to_list o).
  - apply in_map_iff. exists (k, v). split; [reflexivity |].
    apply list_elem_of_In. now apply elem_of_map_to_list.
Qed.

Lemma reload_paired (t o : gmap string jsvalue) (name path : string) :
  paired o name path = true ->
  paired (spread t (own_props (json_reparse (object_value o)))) name path = true.
Proof.
  unfold paired at 1.
  destruct (o !! name) as [vn|] eqn:Hn; [| discriminate].
  destruct (o !! path) as [vp|] eqn:Hp; [| now destruct vn].
  intros Hok. unfold paired.
  rewrite (reload_lookup t o name vn Hn), (reload_lookup t o path vp Hp).
  destruct vn, vp; try discriminate; reflexivity.
Qed.

Lemma reload_pairs_ok (t o : gmap string jsvalue) :
  pairs_ok o = true ->
  pairs_ok (spread t (own_props (json_reparse (object_value o)))) = true.
Proof.
  unfold pairs_ok. intros [H1 H2]%andb_true_iff.
  now rewrite !reload_paired.
Qed.

Section Keeps.

Variable P : gmap string jsvalue -> bool.

Lemma keeps_ret {A : Type} (a : A) : keeps P (ret a).
Proof. intros st Hst. exact Hst. Qed.

Lemma keeps_throw {A : Type} (e : string) : keeps P (@throw A e).
Proof. intros st Hst. exact Hst. Qed.

Lemma keeps_get_manager : keeps P get_manager.
Proof. intros st Hst. exact Hst. Qed.

Lemma keeps_bind {A B : Type} (c : Cmd A) (k : A -> Cmd B) :
  keeps P c -> (forall a, keeps P (k a)) -> keeps P (bind c k).
Proof.
  intros Hc Hk st Hst. unfold bind.
  specialize (Hc st Hst). destruct (c st) as [a st' | e st']; simpl in *.
  - now apply Hk.
  - exact Hc.
Qed.

Lemma keeps_try_catch {A : Type} (body : Cmd A) (handler : string -> Cmd A) :
  keeps P body -> (forall e, keeps P (handler e)) -> keeps P (try_catch body handler).
Proof.
  intros Hb Hh st Hst. unfold try_catch.
  specialize (Hb st Hst). destruct (body st) as [a st' | e st']; simpl in *.
  - exact Hb.
  - now apply Hh.
Qed.

Lemma keeps_read (key : string) : keeps P (read key).
Proof.
  intros st Hst. unfold read, bind, get_manager.
  now destruct (projectConfig (manager st)).
Qed.

(** A command that replaces the configuration [o] by [f o] keeps [P] when
    [f] does. *)
Lemma keeps_update {A : Type} (c : Cmd A) (f : gmap string jsvalue -> gmap string jsvalue) :
  (forall o, P o = true -> P (f o) = true) ->
  (forall st,
      match projectConfig (manager st) with
      | Some o =>
          final_state (c st)
          = mkState (mkManager (workspacePath (manager st)) (currentPlatform (manager st))
                               (Some (f o)))
                    (disk st)
      | None => final_state (c st) = st
      end) ->
  keeps P c.
Proof.
  intros Hf Hc st [Hmem Hdisk]. specialize (Hc st).
  destruct (projectConfig (manager st)) as [o|] eqn:Ho.
  - rewrite Hc. split; simpl.
    + intros o' [= <-]. apply Hf. now apply Hmem.
    + exact Hdisk.
  - rewrite Hc. split; [intros o' Ho'; congruence | exact Hdisk].
Qed.

Lemma keeps_assign (key : string) (v : jsvalue) :
  (forall o, P o = true -> P (<[ key := v ]> o) = true) -> keeps P (assign key v).
Proof.
  intros Hf. apply (keeps_update _ (fun o => <[ key := v ]> o) Hf).
  intros [[ws platform [o|]] d]; reflexivity.
Qed.

Lemma keeps_assign2 (k1 k2 : string) (v1 v2 : jsvalue) :
  (forall o, P o = true -> P (<[ k2 := v2 ]> (<[ k1 := v1 ]> o)) = true) ->
  keeps P (assign2 k1 v1 k2 v2).
Proof.
  intros Hf. apply (keeps_update _ (fun o => <[ k2 := v2 ]> (<[ k1 := v1 ]> o)) Hf).
  intros [[ws platform [o|]] d]; reflexivity.
Qed.

Lemma keeps_loadConfig : keeps P loadConfig.
Proof.
  intros [[ws platform o] d] [Hmem Hdisk]. rewrite loadConfig_run.
  split; simpl in *.
  - intros o' [= <-]. exact Hdisk.
  - exact Hdisk.
Qed.

Hypothesis P_reload :
  forall t o, P o = true ->
              P (spread t (own_props (json_reparse (object_value o)))) = true.

Lemma keeps_saveConfig : keeps P saveConfig.
Proof.
  intros [[ws platform [o|]] [f w]] [Hmem Hdisk].
  - rewrite saveConfig_run. destruct (JS.truthy ws && w) eqn:Hok.
    + apply andb_true_iff in Hok as [Hws _].
      assert (Hre : P (spread (getDefaultConfig platform)
                         (own_props (json_reparse (object_value o)))) = true).
      { apply P_reload. now apply Hmem. }
      split; simpl.
      * intros o' [= <-]. exact Hre.
      * unfold loaded. rewrite Hws. exact Hre.
    + now split.
  - unfold saveConfig, bind, get_manager. simpl. destruct (JS.truthy ws); now split.
Qed.

End Keeps.

(** Walks a command built from binds and branches; [leaf] closes the
    primitive commands. *)
Ltac keep_with leaf :=
  repeat match goal with
    | |- keeps _ (bind _ _) => apply keeps_bind; [| intros ?]
    | |- keeps _ (try_catch _ _) => apply keeps_try_catch; [| intros ?]
    | |- keeps _ (ret _) => apply keeps_ret
    | |- keeps _ (throw _) => apply keeps_throw
    | |- keeps _ get_manager => apply keeps_get_manager
    | |- keeps _ (read _) => apply keeps_read
    | |- keeps _ loadConfig => apply keeps_loadConfig
    | |- keeps _ (match ?x with _ => _ end) => destruct x eqn:?
    | |- keeps _ _ => solve [leaf]
    end.

(** *** Pairing *)

Lemma pairs_ok_insert_pair (o : gmap string jsvalue) (name path : string) (v1 v2 : jsvalue) :
  is_pair name path ->
  paired (<[ path := v2 ]> (<[ name := v1 ]> o)) name path = true ->
  pairs_ok o = true ->
  pairs_ok (<[ path := v2 ]> (<[ name := v1 ]> o)) = true.
Proof.
  intros [[-> ->] | [-> ->]] Hnew [H1 H2]%andb_true_iff; unfold pairs_ok;
    rewrite Hnew; rewrite !paired_insert_other by discriminate;
    rewrite ?H1, ?H2; reflexivity.
Qed.

Lemma is_pair_distinct (name path : string) : is_pair name path -> name <> path.
Proof. intros [[-> ->] | [-> ->]]; discriminate. Qed.

Lemma pairing_assign2_strings (name path n p : string) :
  is_pair name path -> keeps pairs_ok (assign2 name (JStr n) path (JStr p)).
Proof.
  intros Hpair. apply keeps_assign2. intros o.
  apply pairs_ok_insert_pair; [exact Hpair |].
  apply paired_insert_strings. now apply is_pair_distinct.
Qed.

Lemma pairing_assign2_nulls (name path : string) :
  is_pair name path -> keeps pairs_ok (assign2 name JNull path JNull).
Proof.
  intros Hpair. apply keeps_assign2. intros o.
  apply pairs_ok_insert_pair; [exact Hpair |].
  apply paired_insert_nulls. now apply is_pair_distinct.
Qed.

Lemma pairing_assign_other (key : string) (v : jsvalue) :
  writes_pairs_together (OpSet key v) = true -> keeps pairs_ok (assign key v).
Proof.
  intros Hkey. simpl in Hkey.
  apply negb_true_iff in Hkey.
  repeat (apply orb_false_iff in Hkey as [Hkey ?]).
  repeat match goal with
         | H : String.eqb _ _ = false |- _ => apply String.eqb_neq in H
         end.
  apply keeps_assign.
  intros o Ho. unfold pairs_ok. now rewrite !paired_insert_other by assumption.
Qed.

Lemma pairing_saveConfig : keeps pairs_ok saveConfig.
Proof. apply keeps_saveConfig. apply reload_pairs_ok. Qed.

Lemma pairing_set_defaults (platform : string) :
  keeps pairs_ok (set_projectConfig (getDefaultConfig platform)).
Proof.
  intros [[ws p o] d] [Hmem Hdisk]. split; simpl in *.
  - intros o' [= <-]. apply defaults_pairs_ok.
  - exact Hdisk.
Qed.

Lemma pairing_set (key : string) (v : jsvalue) :
  writes_pairs_together (OpSet key v) = true -> keeps pairs_ok (set key v).
Proof.
  intros Hkey st Hst. unfold set, bind, get_manager.
  destruct (projectConfig (manager st)) as [o|] eqn:Ho; [| exact Hst].
  pose proof (pairing_assign_other key v Hkey st Hst) as Hassign.
  unfold assign, bind, get_manager in Hassign. rewrite Ho in Hassign.
  destruct (String.eqb key "__proto__"), (o !! key); unfold ret; simpl in *;
    first [exact Hassign | exact Hst].
Qed.

Ltac pair_keys := first [left; split; reflexivity | right; split; reflexivity].

Ltac pairing_leaf :=
  first
    [ apply pairing_saveConfig
    | apply pairing_set_defaults
    | apply pairing_assign2_strings; pair_keys
    | apply pairing_assign2_nulls; pair_keys
    | apply pairing_assign_other; reflexivity ].

Ltac pairing := keep_with pairing_leaf.

Lemma pairing_resetToDefaults : keeps pairs_ok resetToDefaults.
Proof. unfold resetToDefaults. pairing. Qed.

Lemma pairing_initializeProjectConfig (h : Host) :
  keeps pairs_ok (initializeProjectConfig h).
Proof. unfold initializeProjectConfig, store_linker, store_startup. pairing. Qed.

Lemma pairing_selectLinkerScript (h : Host) (pick : option string) :
  keeps pairs_ok (selectLinkerScript h pick).
Proof. unfold selectLinkerScript. pairing. Qed.

Lemma pairing_selectStartupFile (h : Host) (pick : option string) :
  keeps pairs_ok (selectStartupFile h pick).
Proof. unfold selectStartupFile. pairing. Qed.

Lemma pairing_handleMissingLinker (h : Host) (choice pick : option string) :
  keeps pairs_ok (handleMissingLinker h choice pick).
Proof.
  unfold handleMissingLinker, store_linker.
  keep_with ltac:(first [apply pairing_selectLinkerScript | pairing_leaf]).
Qed.

Lemma pairing_handleMissingStartup (h : Host) (choice pick : option string) :
  keeps pairs_ok (handleMissingStartup h choice pick).
Proof.
  unfold handleMissingStartup, store_startup.
  keep_with ltac:(first [apply pairing_selectStartupFile | pairing_leaf]).
Qed.

Lemma pairing_checkProjectFiles (h : Host) (dlg : Dialogs) :
  keeps pairs_ok (checkProjectFiles h dlg).
Proof.
  unfold checkProjectFiles, store_linker, store_startup.
  keep_with ltac:(first [ apply pairing_handleMissingLinker
                        | apply pairing_handleMissingStartup
                        | pairing_leaf ]).
Qed.

Lemma pairing_verifyProjectFiles (h : Host) (dlg : Dialogs) :
  keeps pairs_ok (verifyProjectFiles h dlg).
Proof. unfold verifyProjectFiles, store_linker, store_startup. pairing. Qed.

Lemma pairing_handleBuildError_then (choice : option string) :
  keeps pairs_ok (handleBuildError_then choice).
Proof. unfold handleBuildError_then. pairing. Qed.

Lemma pairing_run (h : Host) (op : Operation) :
  writes_pairs_together op = true -> keeps pairs_ok (run h op).
Proof.
  intros Hop. destruct op; unfold run;
    try (apply keeps_bind; [| intros ?; apply keeps_ret]).
  - apply keeps_loadConfig.
  - apply pairing_saveConfig.
  - apply pairing_resetToDefaults.
  - apply pairing_initializeProjectConfig.
  - apply pairing_checkProjectFiles.
  - apply pairing_verifyProjectFiles.
  - apply pairing_handleMissingLinker.
  - apply pairing_handleMissingStartup.
  - apply pairing_selectLinkerScript.
  - apply pairing_selectStartupFile.
  - apply pairing_handleBuildError_then.
  - now apply pairing_set.
Qed.

(** C9 (amended).  From a state in which both pairs are consistent (in
    memory and in the file on disk), every sequence of operations that does
    not call the generic setter on a member of a pair leads to a state in
    which both pairs are consistent: [ldscript] and [ldscriptPath] are both
    null or both strings, and so are [startupFile] and [startupFilePath]. *)
Theorem pairing_invariant (h : Host) (st0 st : State) :
  state_ok st0 ->
  reachable h writes_pairs_together st0 st ->
  state_ok st.
Proof.
  intros H0 Hreach. induction Hreach as [| st op Hreach IH Hop].
  - exact H0.
  - now apply pairing_run.
Qed.

Lemma pairing_invariant_witness :
  state_ok (final_state (run sample_host OpInitializeProjectConfig fresh_state)).
Proof.
  apply (pairing_invariant sample_host fresh_state).
  - split; [intros o [= <-]; reflexivity | reflexivity].
  - apply reach_step; [apply reach_start | reflexivity].
Defined.

(** C9 as stated fails: the generic setter writes one member of a pair and
    leaves the other.  After [set('ldscript', 'app.ld')] on a fresh default
    configuration, [ldscript] is a string and [ldscriptPath] is null. *)
Lemma set_breaks_pairing :
  exists (st : State) (o : gmap string jsvalue),
    reachable empty_host (fun _ => true) fresh_state st /\
    projectConfig (manager st) = Some o /\
    o !! "ldscript" = Some (JStr "app.ld") /\
    o !! "ldscriptPath" = Some JNull /\
    pairs_ok o = false.
Proof.
  exists (final_state (run empty_host (OpSet "ldscript" (JStr "app.ld")) fresh_state)).
  eexists. split; [| split; [reflexivity | split; [| split]]].
  - apply reach_step; [apply reach_start | reflexivity].
  - reflexivity.
  - reflexivity.
  - reflexivity.
Qed.

(* ===================================================================== *)
(** ** Strings                                                            *)
(* ===================================================================== *)

Lemma str_app_cons (c : ascii) (a b : string) : String c a ++ b = String c (a ++ b).
Proof. reflexivity. Qed.

Lemma str_app_nil_l (a : string) : "" ++ a = a.
Proof. reflexivity. Qed.

Lemma str_app_assoc (a b c : string) : (a ++ b) ++ c = a ++ (b ++ c).
Proof.
  induction a as [|x a IH]; [reflexivity |].
  rewrite !str_app_cons. now rewrite IH.
Qed.

Lemma str_app_nil_r (a : string) : a ++ "" = a.
Proof.
  induction a as [|x a IH]; [reflexivity |].
  rewrite str_app_cons. now rewrite IH.
Qed.

Lemma str_length_app (a b : string) :
  String.length (a ++ b) = (String.length a + String.length b)%nat.
Proof.
  induction a as [|x a IH]; [reflexivity |].
  rewrite str_app_cons. simpl. now rewrite IH.
Qed.

Lemma str_app_inv_head (a x y : string) : a ++ x = a ++ y -> x = y.
Proof.
  induction a as [|c a IH]; intros H; [exact H |].
  rewrite !str_app_cons in H. injection H. exact IH.
Qed.

Lemma str_app_inv_tail (r x y : string) : x ++ r = y ++ r -> x = y.
Proof.
  revert y. induction x as [|c x IH]; intros [|d y] H.
  - reflexivity.
  - apply (f_equal String.length) in H.
    rewrite str_app_nil_l, str_length_app in H. simpl in H. lia.
  - apply (f_equal String.length) in H.
    rewrite str_app_nil_l, str_length_app in H. simpl in H. lia.
  - rewrite !str_app_cons in H. injection H as -> H. f_equal. now apply IH.
Qed.

(* ===================================================================== *)
(** ** The rendered text and the clock                                    *)
(* ===================================================================== *)

(** The text is a fixed frame around the clock reading: two renderings of
    the same arguments that agree agree on the clock reading. *)
Lemma generateContent_now_inj (now1 now2 projectName startupFile ldscript : string)
      (mcuParams : MCUParams.t) (projectConfig : ProjectConfig.t) :
  generateContent now1 projectName startupFile ldscript mcuParams projectConfig
  = generateContent now2 projectName startupFile ldscript mcuParams projectConfig ->
  now1 = now2.
Proof.
  unfold generateContent, JS.join. cbn [String.concat]. intros H.
  do 8 apply str_app_inv_head in H.
  rewrite !str_app_assoc in H.
  apply str_app_inv_head in H.
  now apply str_app_inv_tail in H.
Qed.

(** C1 (amended).  [generateContent] is a function of its five arguments and
    of the clock reading it stamps into the header: two calls with equal
    arguments return the same text exactly when [toLocaleString()] returned
    the same string at both calls. *)
Theorem generateContent_equal_iff_same_clock
    (now1 now2 projectName startupFile ldscript : string)
    (mcuParams : MCUParams.t) (projectConfig : ProjectConfig.t) :
  generateContent now1 projectName startupFile ldscript mcuParams projectConfig
  = generateContent now2 projectName startupFile ldscript mcuParams projectConfig
  <-> now1 = now2.
Proof.
  split.
  - apply generateContent_now_inj.
  - now intros ->.
Qed.

(** C1 as stated fails: the same arguments rendered one second apart give
    two different texts. *)
Lemma generateContent_differs_across_calls :
  generateContent "11/2/2026, 10:00:00 AM" "STM32F407VGT6" "startup_stm32f407xx"
                  "STM32F407XX_FLASH.ld" MCUTable.stm32f407
                  (ProjectConfig.mk "STM32F407VGT6" (Some "STM32F407VGTx")
                                    ["Core/Src"] ["Core/Inc"] (Some []) None None)
  <> generateContent "11/2/2026, 10:00:01 AM" "STM32F407VGT6" "startup_stm32f407xx"
                     "STM32F407XX_FLASH.ld" MCUTable.stm32f407
                     (ProjectConfig.mk "STM32F407VGT6" (Some "STM32F407VGTx")
                                       ["Core/Src"] ["Core/Inc"] (Some []) None None).
Proof.
  intros H. apply generateContent_now_inj in H. discriminate H.
Qed.

(* ===================================================================== *)
(** ** The startup-file fallback                                          *)
(* ===================================================================== *)

Lemma find_all_false {A : Type} (p : A -> bool) (l : list A) :
  (forall x, In x l -> p x = false) -> List.find p l = None.
Proof.
  induction l as [|x l IH]; intros H; [reflexivity |].
  simpl. rewrite (H x) by now left. apply IH. intros y Hy. apply H. now right.
Qed.

Lemma find_first {A : Type} (p : A -> bool) (l : list A) (x : A) :
  List.find p l = Some x ->
  exists before after,
    l = (before ++ x :: after)%list /\ p x = true /\ forall y, In y before -> p y = false.
Proof.
  induction l as [|y l IH]; intros H; [discriminate |].
  simpl in H. destruct (p y) eqn:Hy.
  - injection H as ->. exists [], l. repeat split; [exact Hy | intros z []].
  - destruct (IH H) as (before & after & -> & Hx & Hbefore).
    exists (y :: before), after. repeat split; [exact Hx |].
    intros z [<- | Hz]; [exact Hy | now apply Hbefore].
Qed.

Lemma mcuParams_where_tokens (includes : string -> bool) :
  JS.includes "" (MCUParams.startupFile (mcuParams_where includes))
  || JS.includes "" (JS.replace_first "xx" ""
                       (JS.toLowerCase (MCUParams.define (mcuParams_where includes))))
  = false.
Proof.
  unfold mcuParams_where.
  repeat match goal with
         | |- context [if includes ?k then _ else _] => destruct (includes k)
         end; reflexivity.
Qed.

(** Neither token of a row is empty: the empty path passes no test. *)
Lemma getMCUParams_of_tokens (mcu : option jsvalue) (mcuParams : MCUParams.t) :
  getMCUParams_of mcu = Some mcuParams ->
  JS.includes "" (MCUParams.startupFile mcuParams)
  || JS.includes "" (JS.replace_first "xx" "" (JS.toLowerCase (MCUParams.define mcuParams)))
  = false.
Proof.
  unfold getMCUParams_of, getMCUParams.
  destruct (negb (truthy_value mcu)); [| destruct mcu as [[]|]];
    intros H; try discriminate H; injection H as <-; apply mcuParams_where_tokens.
Qed.

(** C8 (amended).  When the [mcu] of the configuration is a truthy number,
    boolean or object, [findStartupFile] returns [null].  Otherwise, when
    none of the probed paths exists, the fallback returns, among the
    discovered files, the first one whose path contains (case-sensitively)
    the startup-file token or the lower-cased define with its first 'xx'
    removed; when no discovered file passes that test it returns the first
    discovered file, and [null] when none was discovered. *)
Theorem findStartupFile_fallback_choice
    (h : Host) (m : ConfigManager) (ws : string) (config : gmap string jsvalue) :
  workspacePath m = Some ws -> ws <> "" -> projectConfig m = Some config ->
  match getMCUParams_of (config !! "mcu") with
  | None => findStartupFile h m = None
  | Some mcuParams =>
      (forall p, In p (startupPaths h ws mcuParams) -> existsSync h p = false) ->
      let token := MCUParams.startupFile mcuParams in
      let define := JS.replace_first "xx" "" (JS.toLowerCase (MCUParams.define mcuParams)) in
      match allStartupFiles h mcuParams with
      | [] => findStartupFile h m = None
      | first :: rest =>
          exists chosen,
            findStartupFile h m = Some (startupResult h ws chosen) /\
            ((exists before after,
                 first :: rest = (before ++ chosen :: after)%list /\
                 JS.includes chosen token || JS.includes chosen define = true /\
                 forall f, In f before ->
                           JS.includes f token || JS.includes f define = false)
             \/ (chosen = first /\
                 forall f, In f (first :: rest) ->
                           JS.includes f token || JS.includes f define = false))
      end
  end.
Proof.
  intros Hws Hne Hcfg.
  unfold findStartupFile. rewrite Hws, Hcfg.
  destruct ws as [|w ws']; [congruence |].
  destruct (getMCUParams_of (config !! "mcu")) as [mcuParams|] eqn:Hparams;
    [| reflexivity].
  cbv beta iota zeta. intros Hprobe.
  rewrite (find_all_false _ _ Hprobe).
  destruct (allStartupFiles h mcuParams) as [|first rest]; [reflexivity |].
  set (passes := fun f : string =>
         JS.includes f (MCUParams.startupFile mcuParams)
         || JS.includes f (JS.replace_first "xx" ""
                             (JS.toLowerCase (MCUParams.define mcuParams)))).
  destruct (List.find passes (first :: rest)) as [f|] eqn:Hfind.
  - destruct (find_first _ _ _ Hfind) as (before & after & Hsplit & Hf & Hbefore).
    assert (Hnonempty : JS.or_else (Some f) first = f).
    { destruct f as [|c f']; [| reflexivity].
      unfold passes in Hf.
      rewrite (getMCUParams_of_tokens _ _ Hparams) in Hf. discriminate. }
    exists f. rewrite Hnonempty. split; [reflexivity |].
    left. exists before, after. repeat split; assumption.
  - exists first. split; [reflexivity |]. right. split; [reflexivity |].
    intros f Hin. exact (find_none passes _ Hfind f Hin).
Qed.

Lemma findStartupFile_fallback_choice_witness :
  option_map StartupResult.startupFilePath
             (findStartupFile scattered_host (manager fresh_state))
  = Some "/work/boot/startup_stm32f407xx.s" /\
  option_map StartupResult.startupFilePath
             (findStartupFile mixed_case_host (manager fresh_state))
  = Some "/work/boot/startup_generic.s" /\
  findStartupFile scattered_host
    (mkManager (Some "/work") "linux"
               (Some (<[ "mcu" := num 5 ]> (getDefaultConfig "linux"))))
  = None.
Proof.
  assert (Hne : "/work" <> "") by discriminate.
  assert (Hmcu : getMCUParams_of (getDefaultConfig "linux" !! "mcu")
                 = Some MCUTable.stm32f407) by (vm_compute; reflexivity).
  split; [| split].
  - pose proof (findStartupFile_fallback_choice scattered_host (manager fresh_state)
                  "/work" (getDefaultConfig "linux") eq_refl Hne eq_refl) as H.
    rewrite Hmcu in H. specialize (H (fun p _ => eq_refl)). cbv zeta in H.
    assert (Hfiles : allStartupFiles scattered_host MCUTable.stm32f407
                     = ["/work/boot/startup_generic.s";
                        "/work/boot/startup_stm32f407xx.s";
                        "/work/legacy/startup_stm32f407.s"])
      by (vm_compute; reflexivity).
    rewrite Hfiles in H.
    destruct H as (chosen & -> & [(before & after & Hsplit & Hchosen & Hbefore)
                                 | (_ & Hnone)]).
    + destruct before as [|b1 [|b2 before]]; injection Hsplit; intros; subst.
      * vm_compute in Hchosen. discriminate Hchosen.
      * reflexivity.
      * specialize (Hbefore "/work/boot/startup_stm32f407xx.s"
                            (or_intror (or_introl eq_refl))).
        vm_compute in Hbefore. discriminate Hbefore.
    + specialize (Hnone "/work/boot/startup_stm32f407xx.s"
                        (or_intror (or_introl eq_refl))).
      vm_compute in Hnone. discriminate Hnone.
  - pose proof (findStartupFile_fallback_choice mixed_case_host (manager fresh_state)
                  "/work" (getDefaultConfig "linux") eq_refl Hne eq_refl) as H.
    rewrite Hmcu in H. specialize (H (fun p _ => eq_refl)). cbv zeta in H.
    assert (Hfiles : allStartupFiles mixed_case_host MCUTable.stm32f407
                     = ["/work/boot/startup_generic.s";
                        "/work/Core/Startup/startup_STM32F407xx.s"])
      by (vm_compute; reflexivity).
    rewrite Hfiles in H.
    destruct H as (chosen & -> & [(before & after & Hsplit & Hchosen & _)
                                 | (-> & _)]); [| reflexivity].
    destruct before as [|b1 [|b2 before]]; injection Hsplit; intros; subst.
    + vm_compute in Hchosen. discriminate Hchosen.
    + vm_compute in Hchosen. discriminate Hchosen.
    + now destruct before.
  - set (config := <[ "mcu" := num 5 ]> (getDefaultConfig "linux")).
    pose proof (findStartupFile_fallback_choice scattered_host
                  (mkManager (Some "/work") "linux" (Some config))
                  "/work" config eq_refl Hne eq_refl) as H.
    assert (Hnum : getMCUParams_of (config !! "mcu") = None)
      by (vm_compute; reflexivity).
    rewrite Hnum in H. exact H.
Defined.

(** C8 as stated fails: the test is case-sensitive against lower-cased
    tokens.  With MCU STM32F407VGTx and the discovered files
    [startup_generic.s] and [startup_STM32F407xx.s], the second contains the
    define [STM32F407xx], yet the fallback returns the first, which contains
    neither token in any case.  Only the case is at fault: next to the same
    generic file, [startup_stm32f407xx.s] is the one returned. *)
Lemma findStartupFile_misses_define_token :
  (forall p, In p (startupPaths mixed_case_host "/work" MCUTable.stm32f407) ->
             existsSync mixed_case_host p = false) /\
  allStartupFiles mixed_case_host MCUTable.stm32f407
  = ["/work/boot/startup_generic.s"; "/work/Core/Startup/startup_STM32F407xx.s"] /\
  JS.includes "/work/Core/Startup/startup_STM32F407xx.s"
              (MCUParams.define MCUTable.stm32f407) = true /\
  includes_ci "/work/Core/Startup/startup_STM32F407xx.s"
              (MCUParams.define MCUTable.stm32f407) = true /\
  option_map StartupResult.startupFilePath
             (findStartupFile mixed_case_host (manager fresh_state))
  = Some "/work/boot/startup_generic.s" /\
  includes_ci "/work/boot/startup_generic.s"
              (MCUParams.startupFile MCUTable.stm32f407) = false /\
  includes_ci "/work/boot/startup_generic.s"
              (MCUParams.define MCUTable.stm32f407) = false /\
  option_map StartupResult.startupFilePath
             (findStartupFile scattered_host (manager fresh_state))
  = Some "/work/boot/startup_stm32f407xx.s".
Proof.
  split; [intros p _; reflexivity |].
  repeat split; vm_compute; reflexivity.
Qed.

(* ===================================================================== *)
(** ** A search without linker scripts                                    *)
(* ===================================================================== *)

Lemma foundLinkerFiles_nil (h : Host) :
  (forall pattern, In pattern linkerPatterns -> findFiles h pattern = []) ->
  foundLinkerFiles h = [].
Proof.
  intros Hnone. unfold foundLinkerFiles, linkerPatterns. simpl.
  rewrite !Hnone by (simpl; tauto). reflexivity.
Qed.

Lemma findLinkerScript_no_files (h : Host) (m : ConfigManager) :
  foundLinkerFiles h = [] -> findLinkerScript h m = None.
Proof.
  intros Hnil. unfold findLinkerScript. rewrite Hnil.
  now destruct (workspacePath m) as [[|w ws]|].
Qed.

Lemma linker_unresolved_insert_other (o : gmap string jsvalue) (k : string) (v : jsvalue) :
  k <> "ldscript" -> k <> "ldscriptPath" ->
  linker_unresolved (<[ k := v ]> o) = linker_unresolved o.
Proof.
  intros H1 H2. unfold linker_unresolved. now rewrite !lookup_insert_ne by assumption.
Qed.

Lemma linker_unresolved_reload (t o : gmap string jsvalue) :
  linker_unresolved o = true ->
  linker_unresolved (spread t (own_props (json_reparse (object_value o)))) = true.
Proof.
  unfold linker_unresolved at 1.
  destruct (o !! "ldscript") as [[]|] eqn:H1; try discriminate.
  destruct (o !! "ldscriptPath") as [[]|] eqn:H2; try discriminate.
  intros _. unfold linker_unresolved.
  now rewrite (reload_lookup t o _ _ H1), (reload_lookup t o _ _ H2).
Qed.

Lemma unresolved_saveConfig : keeps linker_unresolved saveConfig.
Proof. apply keeps_saveConfig. apply linker_unresolved_reload. Qed.

Lemma unresolved_set_defaults (platform : string) :
  keeps linker_unresolved (set_projectConfig (getDefaultConfig platform)).
Proof.
  intros [[ws p o] d] [Hmem Hdisk]. split; simpl in *.
  - intros o' [= <-]. reflexivity.
  - exact Hdisk.
Qed.

Lemma unresolved_assign2_startup (v1 v2 : jsvalue) :
  keeps linker_unresolved (assign2 "startupFile" v1 "startupFilePath" v2).
Proof.
  apply keeps_assign2. intros o Ho.
  now rewrite !linker_unresolved_insert_other by discriminate.
Qed.

Lemma unresolved_assign2_nulls :
  keeps linker_unresolved (assign2 "ldscript" JNull "ldscriptPath" JNull).
Proof.
  apply keeps_assign2. intros o _. unfold linker_unresolved.
  rewrite lookup_insert_ne by discriminate. now rewrite !lookup_insert_eq.
Qed.

Lemma unresolved_assign_other (key : string) (v : jsvalue) :
  writes_pairs_together (OpSet key v) = true -> keeps linker_unresolved (assign key v).
Proof.
  intros Hkey. simpl in Hkey.
  apply negb_true_iff in Hkey.
  repeat (apply orb_false_iff in Hkey as [Hkey ?]).
  repeat match goal with
         | H : String.eqb _ _ = false |- _ => apply String.eqb_neq in H
         end.
  apply keeps_assign.
  intros o Ho. now rewrite linker_unresolved_insert_other by assumption.
Qed.

Lemma unresolved_set (key : string) (v : jsvalue) :
  writes_pairs_together (OpSet key v) = true -> keeps linker_unresolved (set key v).
Proof.
  intros Hkey st Hst. unfold set, bind, get_manager.
  destruct (projectConfig (manager st)) as [o|] eqn:Ho; [| exact Hst].
  pose proof (unresolved_assign_other key v Hkey st Hst) as Hassign.
  unfold assign, bind, get_manager in Hassign. rewrite Ho in Hassign.
  destruct (String.eqb key "__proto__"), (o !! key); unfold ret; simpl in *;
    first [exact Hassign | exact Hst].
Qed.

Ltac unresolved_leaf :=
  first
    [ apply unresolved_saveConfig
    | apply unresolved_set_defaults
    | apply unresolved_assign2_startup
    | apply unresolved_assign2_nulls
    | apply unresolved_assign_other; reflexivity ].

Section NoLinkerFiles.

Variable h : Host.
Hypothesis no_files : forall pattern, In pattern linkerPatterns -> findFiles h pattern = [].

Lemma no_linker_result (m : ConfigManager) : findLinkerScript h m = None.
Proof. apply findLinkerScript_no_files. now apply foundLinkerFiles_nil. Qed.

Lemma no_ld_files : findFiles h "**/*.ld" = [].
Proof. apply no_files. simpl. tauto. Qed.

(** Closes the branches in which a linker search would have succeeded. *)
Ltac no_linker_leaf :=
  first
    [ unresolved_leaf
    | match goal with
      | H : findLinkerScript h _ = Some _ |- _ =>
          rewrite no_linker_result in H; discriminate H
      | H : findFiles h "**/*.ld" = _ :: _ |- _ =>
          rewrite no_ld_files in H; discriminate H
      end ].

Ltac unresolved := keep_with no_linker_leaf.

Lemma unresolved_initializeProjectConfig :
  keeps linker_unresolved (initializeProjectConfig h).
Proof. unfold initializeProjectConfig, store_startup. unresolved. Qed.

Lemma unresolved_selectLinkerScript (pick : option string) :
  keeps linker_unresolved (selectLinkerScript h pick).
Proof. unfold selectLinkerScript. unresolved. Qed.

Lemma unresolved_selectStartupFile (pick : option string) :
  keeps linker_unresolved (selectStartupFile h pick).
Proof. unfold selectStartupFile. unresolved. Qed.

Lemma unresolved_handleMissingLinker (choice pick : option string) :
  keeps linker_unresolved (handleMissingLinker h choice pick).
Proof.
  unfold handleMissingLinker.
  keep_with ltac:(first [apply unresolved_selectLinkerScript | no_linker_leaf]).
Qed.

Lemma unresolved_handleMissingStartup (choice pick : option string) :
  keeps linker_unresolved (handleMissingStartup h choice pick).
Proof.
  unfold handleMissingStartup, store_startup.
  keep_with ltac:(first [apply unresolved_selectStartupFile | no_linker_leaf]).
Qed.

Lemma unresolved_checkProjectFiles (dlg : Dialogs) :
  keeps linker_unresolved (checkProjectFiles h dlg).
Proof.
  unfold checkProjectFiles, store_startup.
  keep_with ltac:(first [ apply unresolved_handleMissingLinker
                        | apply unresolved_handleMissingStartup
                        | no_linker_leaf ]).
Qed.

Lemma unresolved_verifyProjectFiles (dlg : Dialogs) :
  keeps linker_unresolved (verifyProjectFiles h dlg).
Proof. unfold verifyProjectFiles, store_startup. unresolved. Qed.

Lemma unresolved_handleBuildError_then (choice : option string) :
  keeps linker_unresolved (handleBuildError_then choice).
Proof. unfold handleBuildError_then. unresolved. Qed.

Lemma unresolved_resetToDefaults : keeps linker_unresolved resetToDefaults.
Proof. unfold resetToDefaults. unresolved. Qed.

Lemma unresolved_run (op : Operation) :
  writes_pairs_together op = true -> keeps linker_unresolved (run h op).
Proof.
  intros Hop. destruct op; unfold run;
    try (apply keeps_bind; [| intros ?; apply keeps_ret]).
  - apply keeps_loadConfig.
  - apply unresolved_saveConfig.
  - apply unresolved_resetToDefaults.
  - apply unresolved_initializeProjectConfig.
  - apply unresolved_checkProjectFiles.
  - apply unresolved_verifyProjectFiles.
  - apply unresolved_handleMissingLinker.
  - apply unresolved_handleMissingStartup.
  - apply unresolved_selectLinkerScript.
  - apply unresolved_selectStartupFile.
  - apply unresolved_handleBuildError_then.
  - now apply unresolved_set.
Qed.

End NoLinkerFiles.

(** C3 (amended).  When the search for linker-script patterns yields no
    file, [findLinkerScript] returns [null].  From a state whose linker pair
    is null both in memory and in the configuration that a load of the
    persisted file would install, every configuration operation other than
    the generic setter on a pair member leaves the pair null in both,
    whether it returns or throws: none stores a name or a path.  The
    Makefile generator is the one place that substitutes a name: for a null
    (or empty) [ldscript] it renders the fixed ['STM32F407XX_FLASH.ld']. *)
Theorem no_linker_files_resolve_to_null (h : Host) :
  (forall pattern, In pattern linkerPatterns -> findFiles h pattern = []) ->
  (forall m, findLinkerScript h m = None) /\
  (forall op st,
      writes_pairs_together op = true ->
      holds linker_unresolved st ->
      holds linker_unresolved (final_state (run h op st))) /\
  (forall projectConfig,
      JS.truthy (ProjectConfig.ldscript projectConfig) = false ->
      generate_ldscript projectConfig = "STM32F407XX_FLASH.ld").
Proof.
  intros Hnone. split; [| split].
  - intros m. now apply no_linker_result.
  - intros op st Hop Hst. now apply (unresolved_run h Hnone op Hop st).
  - intros pc Hld. unfold generate_ldscript.
    now destruct (ProjectConfig.ldscript pc) as [[|c s]|].
Qed.

Lemma no_linker_files_resolve_to_null_witness :
  (forall m, findLinkerScript empty_host m = None) /\
  (forall op st,
      writes_pairs_together op = true ->
      holds linker_unresolved st ->
      holds linker_unresolved (final_state (run empty_host op st))) /\
  (forall projectConfig,
      JS.truthy (ProjectConfig.ldscript projectConfig) = false ->
      generate_ldscript projectConfig = "STM32F407XX_FLASH.ld").
Proof.
  apply (no_linker_files_resolve_to_null empty_host).
  intros pattern _. reflexivity.
Defined.

(** Why the persisted file is part of the premise: [loadConfig] installs
    the pair the file holds.  With a null pair in memory and a file that
    still names [old.ld], a load brings that name back; it is the persisted
    name, not one made up. *)
Lemma loadConfig_installs_persisted_linker :
  let persisted :=
    JObj [("ldscript", JStr "old.ld"); ("ldscriptPath", JStr "/work/old.ld")] in
  let st := mkState (mkManager (Some "/work") "linux" (Some (getDefaultConfig "linux")))
                    (mkDisk (Parses persisted) false) in
  linker_unresolved (getDefaultConfig "linux") = true /\
  exists o,
    projectConfig (manager (final_state (run empty_host OpLoadConfig st))) = Some o /\
    o !! "ldscript" = Some (JStr "old.ld") /\
    o !! "ldscriptPath" = Some (JStr "/work/old.ld").
Proof.
  split; [vm_compute; reflexivity |].
  eexists. split; [reflexivity |]. split; vm_compute; reflexivity.
Qed.

(** C3 as stated fails in its second half.  In a workspace without any
    linker script the resolver returns [null] and [initializeProjectConfig]
    leaves [ldscript] null, yet [generate] writes a Makefile whose linker
    script is ['STM32F407XX_FLASH.ld'], a name no search produced. *)
Lemma generate_fabricates_linker_name :
  findLinkerScript empty_host (manager fresh_state) = None /\
  exists (st : State) (o : gmap string jsvalue) (pc : ProjectConfig.t) (text : string),
    initializeProjectConfig empty_host fresh_state = Normal true st /\
    projectConfig (manager st) = Some o /\
    o !! "ldscript" = Some JNull /\
    typed_config o = Some pc /\
    generate (workspacePath (manager st)) pc "11/2/2026, 10:00:00 AM"
             (mkMakefileDisk None true)
    = (true, mkMakefileDisk (Some text) true) /\
    JS.includes text (nl ++ "LDSCRIPT = STM32F407XX_FLASH.ld" ++ nl) = true.
Proof.
  split; [reflexivity |].
  set (initialized := <[ "configInitialized" := JBool true ]> (getDefaultConfig "linux")).
  set (o := spread (getDefaultConfig "linux")
                   (own_props (json_reparse (object_value initialized)))).
  set (pc := default_projectConfig).
  exists (mkState (mkManager (Some "/work") "linux" (Some o))
                  (mkDisk (Parses (json_reparse (object_value initialized))) true)),
         o, pc, (makefileContent "11/2/2026, 10:00:00 AM" pc).
  split; [reflexivity |].
  split; [reflexivity |].
  split; [vm_compute; reflexivity |].
  split; [vm_compute; reflexivity |].
  split; [reflexivity |].
  vm_compute. reflexivity.
Qed.

(* ===================================================================== *)
(** ** Lines of a rendered Makefile                                       *)
(* ===================================================================== *)

Lemma lines_cons (c : ascii) (rest : string) :
  lines (String c rest)
  = if Ascii.eqb c "010" then "" :: lines rest
    else match lines rest with
         | l :: ls => String c l :: ls
         | [] => [String c ""]
         end.
Proof. reflexivity. Qed.

Lemma lines_inhabited (s : string) : exists l ls, lines s = l :: ls.
Proof.
  induction s as [|c s (l & ls & IH)]; [now exists "", [] |].
  rewrite lines_cons, IH. destruct (Ascii.eqb c "010"); eauto.
Qed.

Lemma no_newline_cons (c : ascii) (s : string) :
  no_newline (String c s) = negb (Ascii.eqb c "010") && no_newline s.
Proof. reflexivity. Qed.

Lemma no_newline_app (a b : string) :
  no_newline (a ++ b) = no_newline a && no_newline b.
Proof.
  induction a as [|c a IH]; [reflexivity |].
  rewrite str_app_cons, !no_newline_cons, IH. now rewrite andb_assoc.
Qed.

(** A string without line feed in front of a text joins its first line. *)
Lemma lines_app_single (a b : string) :
  no_newline a = true ->
  lines (a ++ b)
  = match lines b with
    | l :: ls => (a ++ l) :: ls
    | [] => [a]
    end.
Proof.
  induction a as [|c a IH]; intros Ha.
  - rewrite str_app_nil_l. destruct (lines_inhabited b) as (l & ls & ->). reflexivity.
  - rewrite no_newline_cons in Ha. apply andb_true_iff in Ha as [Hc Ha].
    rewrite str_app_cons, lines_cons. apply negb_true_iff in Hc. rewrite Hc.
    rewrite (IH Ha). destruct (lines_inhabited b) as (l & ls & ->). reflexivity.
Qed.

Lemma lines_single (a : string) : no_newline a = true -> lines a = [a].
Proof.
  intros Ha. rewrite <- (str_app_nil_r a) at 1.
  rewrite (lines_app_single a "" Ha). simpl. now rewrite str_app_nil_r.
Qed.

(** The lines of a text cut at a line feed are the lines of both parts. *)
Lemma lines_app_nl (a b : string) :
  lines (a ++ nl ++ b) = (lines a ++ lines b)%list.
Proof.
  induction a as [|c a IH]; [reflexivity |].
  rewrite str_app_cons, !lines_cons, IH.
  destruct (Ascii.eqb c "010"); [reflexivity |].
  destruct (lines_inhabited a) as (l & ls & ->). reflexivity.
Qed.


(** *** Scanning the lines *)






(** *** Plain lines *)





Lemma prefix_app (p s : string) : String.prefix p (p ++ s) = true.
Proof.
  induction p as [|c p IH]; [now destruct s |].
  rewrite str_app_cons. simpl. now destruct (ascii_dec c c).
Qed.

Lemma drop_app (p s : string) : JS.drop (String.length p) (p ++ s) = s.
Proof.
  induction p as [|c p IH]; [reflexivity |].
  rewrite str_app_cons. exact IH.
Qed.










(** Proves that a template line has no line feed from the hypotheses on
    its interpolated parts. *)
Ltac single_line :=
  rewrite ?no_newline_app;
  repeat match goal with
         | H : no_newline _ = true |- _ => rewrite H
         end;
  reflexivity.

Ltac split_lines :=
  repeat match goal with
         | |- context [lines ?e] => rewrite (lines_single e) by single_line
         end.

Section RenderedText.

Variables now projectName startupFile ldscript : string.
Variable mcuParams : MCUParams.t.
Variable projectConfig : ProjectConfig.t.

Hypothesis now_line : no_newline now = true.
Hypothesis name_line : no_newline projectName = true.
Hypothesis startup_line : no_newline startupFile = true.
Hypothesis ldscript_line : no_newline ldscript = true.
Hypothesis mcu_line :
  no_newline (JS.or_else (ProjectConfig.mcu projectConfig) "STM32F407VG") = true.
Hypothesis cpu_line : no_newline (MCUParams.cpu mcuParams) = true.
Hypothesis fpu_line : no_newline (MCUParams.fpu mcuParams) = true.
Hypothesis floatAbi_line : no_newline (MCUParams.floatAbi mcuParams) = true.
Hypothesis define_line : no_newline (MCUParams.define mcuParams) = true.
Hypothesis sources_line :
  forallb no_newline (ProjectConfig.sourceDirs projectConfig) = true.
Hypothesis includes_line :
  forallb no_newline (ProjectConfig.includeDirs projectConfig) = true.
Hypothesis excludes_line :
  forallb no_newline (default [] (ProjectConfig.excludeFiles projectConfig)) = true.



End RenderedText.

(* ===================================================================== *)
(** ** Freshness of a rendered Makefile                                   *)
(* ===================================================================== *)



(** *** Tokens of a rendered text *)

Lemma includes_unfold (s needle : string) :
  JS.includes s needle
  = if String.prefix needle s then true
    else match s with
         | EmptyString => false
         | String _ rest => JS.includes rest needle
         end.
Proof. now destruct s. Qed.

Lemma includes_app_r (a b needle : string) :
  JS.includes b needle = true -> JS.includes (a ++ b) needle = true.
Proof.
  intros H. induction a as [|c a IH]; [now rewrite str_app_nil_l |].
  rewrite str_app_cons, includes_unfold.
  now destruct (String.prefix needle (String c (a ++ b))).
Qed.

Lemma includes_prefix (needle rest : string) :
  JS.includes (needle ++ rest) needle = true.
Proof. rewrite includes_unfold. now rewrite prefix_app. Qed.

Lemma prefix_app_l (w a b : string) :
  String.prefix w a = true -> String.prefix w (a ++ b) = true.
Proof.
  revert a. induction w as [|n w IH]; intros a H; [now destruct (a ++ b) |].
  destruct a as [|c a]; [discriminate |].
  rewrite str_app_cons. cbn [String.prefix] in *.
  destruct (ascii_dec n c); [now apply IH | discriminate].
Qed.

Lemma includes_app_l (a b needle : string) :
  JS.includes a needle = true -> JS.includes (a ++ b) needle = true.
Proof.
  induction a as [|c a IH]; intros H.
  - rewrite includes_unfold in H. destruct needle; [| discriminate].
    apply includes_prefix.
  - rewrite includes_unfold in H. rewrite str_app_cons, includes_unfold.
    destruct (String.prefix needle (String c a)) eqn:Hpre.
    + change (String c (a ++ b)) with (String c a ++ b).
      now rewrite (prefix_app_l _ _ b Hpre).
    + destruct (String.prefix needle (String c (a ++ b))); [reflexivity | now apply IH].
Qed.






(* ===================================================================== *)
(** ** Prefixes and substrings                                            *)
(* ===================================================================== *)

Lemma prefix_nil (s : string) : String.prefix "" s = true.
Proof. now destruct s. Qed.

Lemma prefix_char (a b : ascii) (s : string) :
  String.prefix (String a "") (String b s) = Ascii.eqb a b.
Proof.
  cbn [String.prefix]. destruct (ascii_dec a b) as [-> | Hne].
  - now rewrite prefix_nil, Ascii.eqb_refl.
  - symmetry. now apply Ascii.eqb_neq.
Qed.

Lemma prefix_split (w s : string) :
  String.prefix w s = true -> s = w ++ JS.drop (String.length w) s.
Proof.
  revert s. induction w as [|a w IH]; intros s H.
  - now rewrite str_app_nil_l.
  - destruct s as [|b s]; [discriminate |]. simpl in H.
    destruct (ascii_dec a b) as [<- |]; [| discriminate].
    rewrite str_app_cons. simpl. f_equal. now apply IH.
Qed.

(** A prefix of [a ++ b] is a prefix of [a], or runs over the whole of [a]
    and into [b]. *)
Lemma prefix_app_cases (w a b : string) :
  String.prefix w (a ++ b) = true ->
  String.prefix w a = true \/ exists w', w = a ++ w' /\ String.prefix w' b = true.
Proof.
  revert w. induction a as [|c a IH]; intros w H.
  - right. exists w. now rewrite str_app_nil_l in *.
  - destruct w as [|d w]; [left; reflexivity |].
    rewrite str_app_cons in H. simpl in H.
    destruct (ascii_dec d c) as [-> |]; [| discriminate].
    destruct (IH w H) as [Hw | (w' & -> & Hw')].
    + left. simpl. now destruct (ascii_dec c c).
    + right. exists w'. now rewrite str_app_cons.
Qed.

Lemma includes_head (c : ascii) (s : string) :
  JS.includes (String c s) (String c "") = true.
Proof. rewrite includes_unfold, prefix_char. now rewrite Ascii.eqb_refl. Qed.

Lemma includes_split (s needle : string) :
  JS.includes s needle = true -> exists a b, s = a ++ needle ++ b.
Proof.
  induction s as [|c s IH]; intros H; rewrite includes_unfold in H.
  - destruct needle; [| discriminate]. now exists "", "".
  - destruct (String.prefix needle (String c s)) eqn:Hpre.
    + exists "", (JS.drop (String.length needle) (String c s)).
      rewrite str_app_nil_l. now apply prefix_split.
    + destruct (IH H) as (a & b & ->). exists (String c a), b. now rewrite str_app_cons.
Qed.

(** Every character of a needle occurs where the needle does. *)
Lemma includes_char_of_needle (s needle : string) (c : ascii) :
  JS.includes needle (String c "") = true ->
  JS.includes s (String c "") = false ->
  JS.includes s needle = false.
Proof.
  intros Hc Hs. destruct (JS.includes s needle) eqn:H; [| reflexivity].
  apply includes_split in H as (a & b & ->).
  rewrite includes_app_r in Hs; [discriminate |]. now apply includes_app_l.
Qed.

Lemma includes_first_char (s : string) (c : ascii) (rest : string) :
  JS.includes s (String c rest) = true -> JS.includes s (String c "") = true.
Proof.
  intros H. destruct (JS.includes s (String c "")) eqn:Hc; [reflexivity |].
  rewrite (includes_char_of_needle s (String c rest) c) in H;
    [discriminate | apply includes_head | exact Hc].
Qed.

Lemma includes_char_app (a b : string) (c : ascii) :
  JS.includes (a ++ b) (String c "")
  = JS.includes a (String c "") || JS.includes b (String c "").
Proof.
  induction a as [|x a IH].
  - rewrite str_app_nil_l. reflexivity.
  - rewrite str_app_cons, !(includes_unfold (String x _)), !prefix_char, IH.
    now destruct (Ascii.eqb c x).
Qed.

Lemma all_chars_app (p : ascii -> bool) (a b : string) :
  all_chars p (a ++ b) = all_chars p a && all_chars p b.
Proof.
  induction a as [|c a IH]; [reflexivity |].
  rewrite str_app_cons. cbn [all_chars]. now rewrite IH, andb_assoc.
Qed.

Lemma all_chars_excludes (p : ascii -> bool) (s : string) (c : ascii) :
  all_chars p s = true -> p c = false -> JS.includes s (String c "") = false.
Proof.
  intros Hs Hc. induction s as [|x s IH]; [reflexivity |].
  cbn [all_chars] in Hs. apply andb_true_iff in Hs as [Hx Hs].
  rewrite includes_unfold, prefix_char.
  destruct (Ascii.eqb c x) eqn:Heq; [| now apply IH].
  apply Ascii.eqb_eq in Heq. congruence.
Qed.

Lemma substring_app (a b : string) : String.substring 0 (String.length a) (a ++ b) = a.
Proof.
  induction a as [|c a IH]; [now destruct b |].
  rewrite str_app_cons. simpl. now rewrite IH.
Qed.

Lemma drop_app_cons (p : string) (c : ascii) (rest : string) :
  JS.drop (String.length p + 1) (p ++ String c rest) = rest.
Proof.
  induction p as [|a p IH]; [reflexivity |].
  rewrite str_app_cons. exact IH.
Qed.


(* ===================================================================== *)
(** ** The MCU table, continued                                           *)
(* ===================================================================== *)

Ltac mcu_rows :=
  unfold getMCUParams, mcuParams_where;
  repeat match goal with
         | |- context [if JS.includes ?s ?k then _ else _] => destruct (JS.includes s k)
         end.

(** X1.  Whatever the identifier, the startup file of the parameters
    [getMCUParams] returns is named after their preprocessor define:
    ['startup_'] followed by the define in lower case. *)
Theorem getMCUParams_startup_follows_define (config_mcu mcuName : option string) :
  MCUParams.startupFile (getMCUParams config_mcu mcuName)
  = "startup_" ++ JS.toLowerCase (MCUParams.define (getMCUParams config_mcu mcuName)).
Proof. mcu_rows; reflexivity. Qed.

(** X2.  The floating-point flags of every parameter set agree with its
    core: a Cortex-M0, M0+ or M3 part has neither an FPU flag nor a float
    ABI; a Cortex-M4 or M7 part has an [-mfpu=] flag and the hard float
    ABI. *)
Theorem getMCUParams_float_flags_agree (config_mcu mcuName : option string) :
  let p := getMCUParams config_mcu mcuName in
  (MCUParams.fpu p = "" /\ MCUParams.floatAbi p = "" /\
   In (MCUParams.cpu p) ["-mcpu=cortex-m0"; "-mcpu=cortex-m0plus"; "-mcpu=cortex-m3"])
  \/
  (JS.includes (MCUParams.fpu p) "-mfpu=" = true /\
   MCUParams.floatAbi p = "-mfloat-abi=hard" /\
   In (MCUParams.cpu p) ["-mcpu=cortex-m4"; "-mcpu=cortex-m7"]).
Proof.
  cbv zeta. mcu_rows; cbn [MCUParams.fpu MCUParams.floatAbi MCUParams.cpu];
    first [ left; repeat split; simpl; tauto
          | right; repeat split; simpl; tauto ].
Qed.

Lemma lower_ascii_not_upper (c : ascii) : is_upper (JS.lower_ascii c) = false.
Proof.
  unfold JS.lower_ascii, is_upper.
  pose proof (nat_ascii_bounded c) as Hb.
  destruct ((65 <=? nat_of_ascii c)%nat && (nat_of_ascii c <=? 90)%nat) eqn:Hup.
  - apply andb_true_iff in Hup as [H1 H2].
    apply Nat.leb_le in H1, H2.
    rewrite nat_ascii_embedding by lia.
    apply andb_false_iff. right. apply Nat.leb_gt. lia.
  - exact Hup.
Qed.

Lemma toLowerCase_no_upper (s : string) (c : ascii) :
  is_upper c = true -> JS.includes (JS.toLowerCase s) (String c "") = false.
Proof.
  intros Hc. induction s as [|a s IH]; [reflexivity |].
  cbn [JS.toLowerCase]. rewrite includes_unfold, prefix_char.
  destruct (Ascii.eqb c (JS.lower_ascii a)) eqn:Heq; [| exact IH].
  apply Ascii.eqb_eq in Heq. subst c. now rewrite lower_ascii_not_upper in Hc.
Qed.

Lemma toLowerCase_excludes (s : string) (c : ascii) (rest : string) :
  is_upper c = true -> JS.includes (JS.toLowerCase s) (String c rest) = false.
Proof.
  intros Hc. destruct (JS.includes (JS.toLowerCase s) (String c rest)) eqn:H;
    [| reflexivity].
  apply includes_first_char in H. now rewrite toLowerCase_no_upper in H.
Qed.

(** X3.  The lookup is case-sensitive: an identifier written in lower case
    matches no row, whatever part it names, and gets the STM32F407
    parameters. *)
Theorem getMCUParams_lowercase_name_is_default
    (config_mcu : option string) (mcuName : string) :
  mcuName <> "" ->
  getMCUParams config_mcu (Some (JS.toLowerCase mcuName)) = MCUTable.stm32f407.
Proof.
  intros Hne. destruct mcuName as [|c r]; [congruence |].
  unfold getMCUParams, mcuParams_where. cbn [JS.toLowerCase].
  change (String (JS.lower_ascii c) (JS.toLowerCase r)) with (JS.toLowerCase (String c r)).
  cbv zeta. rewrite !toLowerCase_excludes by reflexivity. reflexivity.
Qed.

Lemma getMCUParams_lowercase_name_is_default_witness :
  getMCUParams None (Some (JS.toLowerCase "STM32F103C8T6")) = MCUTable.stm32f407.
Proof.
  apply (getMCUParams_lowercase_name_is_default None "STM32F103C8T6"). discriminate.
Defined.


(* ===================================================================== *)
(** ** The expected name of the linker script                             *)
(* ===================================================================== *)

Lemma upper_not_digit (c : ascii) : is_upper c = true -> is_digit c = false.
Proof.
  unfold is_upper, is_digit. intros [H1 H2]%andb_true_iff.
  apply Nat.leb_le in H1. apply andb_false_iff. right. apply Nat.leb_gt. lia.
Qed.

Lemma strip_trailing_digits_cons (c : ascii) (s : string) :
  strip_trailing_digits (String c s)
  = if is_digit c && all_chars is_digit s then "" else String c (strip_trailing_digits s).
Proof. reflexivity. Qed.

(** The trailing digits are those after the last character that is not a
    digit. *)
Lemma strip_trailing_digits_app (a : string) (u : ascii) (b : string) :
  is_digit u = false ->
  strip_trailing_digits (a ++ String u b) = a ++ String u (strip_trailing_digits b).
Proof.
  intros Hu. induction a as [|c a IH].
  - rewrite !str_app_nil_l, strip_trailing_digits_cons. now rewrite Hu.
  - rewrite !str_app_cons, strip_trailing_digits_cons, IH.
    rewrite all_chars_app. cbn [all_chars]. rewrite Hu.
    now rewrite andb_false_r, andb_false_r.
Qed.

Lemma strip_trailing_digits_capitals (caps rest : string) :
  all_chars is_upper caps = true ->
  strip_trailing_digits (caps ++ rest) = caps ++ strip_trailing_digits rest.
Proof.
  induction caps as [|c caps IH]; intros Hcaps; [reflexivity |].
  cbn [all_chars] in Hcaps. apply andb_true_iff in Hcaps as [Hc Hcaps].
  rewrite str_app_cons, strip_trailing_digits_cons, (upper_not_digit c Hc).
  cbn [andb]. now rewrite IH, str_app_cons.
Qed.

Lemma strip_trailing_digits_head (s : string) :
  starts_upper s = false -> starts_upper (strip_trailing_digits s) = false.
Proof.
  destruct s as [|c s]; [reflexivity |].
  rewrite strip_trailing_digits_cons.
  destruct (is_digit c && all_chars is_digit s); [reflexivity | exact (fun H => H)].
Qed.

Lemma span_app (p : ascii -> bool) (a b : string) :
  all_chars p a = true ->
  match b with String c _ => p c = false | EmptyString => True end ->
  span p (a ++ b) = (a, b).
Proof.
  intros Ha Hb. induction a as [|c a IH].
  - rewrite str_app_nil_l. destruct b as [|c b]; [reflexivity |].
    cbn [span]. now rewrite Hb.
  - cbn [all_chars] in Ha. apply andb_true_iff in Ha as [Hc Ha].
    rewrite str_app_cons. cbn [span]. now rewrite Hc, (IH Ha).
Qed.

Lemma getExpectedLinkerName_unfold (c : ascii) (r : string) :
  getExpectedLinkerName (Some (String c r))
  = match match_variant (strip_trailing_digits (String c r)) with
    | Some (String g group) => "STM32" ++ String g group ++ "_FLASH.ld"
    | _ => replace_dotdot (String c r ++ "_FLASH.ld")
    end.
Proof. reflexivity. Qed.

(** X4.  For an identifier of the form [STM32F], digits, capitals and a
    rest that does not start with a capital, the expected linker script is
    named after the part up to its capitals: [STM32F407VGT6] and
    [STM32F407VGTx] both give [STM32F407VGT_FLASH.ld]. *)
Theorem getExpectedLinkerName_of_F_part (digits capitals rest : string) :
  digits <> "" -> all_chars is_digit digits = true ->
  capitals <> "" -> all_chars is_upper capitals = true ->
  starts_upper rest = false ->
  getExpectedLinkerName (Some ("STM32F" ++ digits ++ capitals ++ rest))
  = "STM32F" ++ digits ++ capitals ++ "_FLASH.ld".
Proof.
  intros Hd Hdigits Hc Hcaps Hrest.
  set (rest' := strip_trailing_digits rest).
  assert (Hrest' : starts_upper rest' = false) by now apply strip_trailing_digits_head.
  assert (Hbase : strip_trailing_digits ("STM32F" ++ digits ++ capitals ++ rest)
                  = "STM32F" ++ digits ++ capitals ++ rest').
  { destruct capitals as [|k caps]; [congruence |].
    cbn [all_chars] in Hcaps. apply andb_true_iff in Hcaps as [Hk Hcaps].
    rewrite <- (str_app_assoc "STM32F" digits), (str_app_cons k caps rest).
    rewrite strip_trailing_digits_app by now apply upper_not_digit.
    rewrite strip_trailing_digits_capitals by exact Hcaps.
    now rewrite str_app_assoc, !str_app_cons. }
  assert (Hhere : variant_here ("STM32F" ++ digits ++ capitals ++ rest')
                  = Some ("F" ++ digits ++ capitals)).
  { unfold variant_here. rewrite prefix_app.
    change 6%nat with (String.length "STM32F"). rewrite drop_app.
    rewrite (span_app is_digit digits (capitals ++ rest') Hdigits).
    - rewrite (span_app is_upper capitals rest' Hcaps).
      + destruct digits; [congruence |]. destruct capitals; [congruence |]. reflexivity.
      + destruct rest'; [exact I | exact Hrest'].
    - destruct capitals as [|k caps]; [congruence |].
      rewrite str_app_cons. cbn [all_chars] in Hcaps.
      apply andb_true_iff in Hcaps as [Hk _]. now apply upper_not_digit. }
  assert (Hmatch : match_variant ("STM32F" ++ digits ++ capitals ++ rest')
                   = Some (String "F" (digits ++ capitals))).
  { change ("STM32F" ++ digits ++ capitals ++ rest')
      with (String "S" ("TM32F" ++ digits ++ capitals ++ rest')).
    cbn [match_variant].
    change (String "S" ("TM32F" ++ digits ++ capitals ++ rest'))
      with ("STM32F" ++ digits ++ capitals ++ rest').
    now rewrite Hhere. }
  assert (Hname : "STM32F" ++ digits ++ capitals ++ rest
                  = String "S" ("TM32F" ++ digits ++ capitals ++ rest)) by reflexivity.
  rewrite Hname at 1. rewrite getExpectedLinkerName_unfold, <- Hname.
  rewrite Hbase, Hmatch.
  now rewrite (str_app_cons "F" (digits ++ capitals) "_FLASH.ld"), str_app_assoc.
Qed.

Lemma getExpectedLinkerName_of_F_part_witness :
  getExpectedLinkerName (Some ("STM32F" ++ "407" ++ "VGT" ++ "x"))
  = "STM32F" ++ "407" ++ "VGT" ++ "_FLASH.ld".
Proof.
  apply (getExpectedLinkerName_of_F_part "407" "VGT" "x");
    first [discriminate | reflexivity].
Defined.


(* ===================================================================== *)
(** ** What the resolvers select                                          *)
(* ===================================================================== *)



Lemma find_app_first {A : Type} (p : A -> bool) (before after : list A) (x : A) :
  (forall y, In y before -> p y = false) -> p x = true ->
  List.find p (before ++ x :: after)%list = Some x.
Proof.
  intros Hb Hx. induction before as [|y before IH]; simpl.
  - now rewrite Hx.
  - rewrite (Hb y) by now left. apply IH. intros z Hz. apply Hb. now right.
Qed.



(** X6.  A startup file at one of the five conventional places wins over
    whatever the workspace search would find: [findStartupFile] returns the
    first probed path that exists, in the order workspace root, [Startup],
    [startups], [Core/Startup], CMSIS templates. *)
Theorem findStartupFile_probe_wins
    (h : Host) (m : ConfigManager) (ws : string) (config : gmap string jsvalue)
    (mcuParams : MCUParams.t) (before after : list string) (p : string) :
  workspacePath m = Some ws -> ws <> "" -> projectConfig m = Some config ->
  getMCUParams_of (config !! "mcu") = Some mcuParams ->
  startupPaths h ws mcuParams = (before ++ p :: after)%list ->
  (forall q, In q before -> existsSync h q = false) ->
  existsSync h p = true ->
  findStartupFile h m = Some (startupResult h ws p).
Proof.
  intros Hws Hne Hcfg Hparams Hpaths Hbefore Hp.
  unfold findStartupFile. rewrite Hws, Hcfg, Hparams.
  destruct ws as [|w ws']; [congruence |].
  cbv zeta. rewrite Hpaths, (find_app_first _ _ _ _ Hbefore Hp). reflexivity.
Qed.

Lemma findStartupFile_probe_wins_witness :
  findStartupFile sample_host (manager fresh_state)
  = Some (startupResult sample_host "/work" "/work/Core/Startup/startup_stm32f407xx.s").
Proof.
  apply (findStartupFile_probe_wins sample_host (manager fresh_state) "/work"
           (getDefaultConfig "linux") MCUTable.stm32f407
           ["/work/startup_stm32f407xx.s"; "/work/Startup/startup_stm32f407xx.s";
            "/work/startups/startup_stm32f407xx.s"]
           ["/work/Drivers/CMSIS/Device/ST/STM32F4xx/Source/Templates/gcc/startup_stm32f407xx.s"]
           "/work/Core/Startup/startup_stm32f407xx.s").
  - reflexivity.
  - discriminate.
  - reflexivity.
  - vm_compute. reflexivity.
  - vm_compute. reflexivity.
  - intros q [<- | [<- | [<- | []]]]; reflexivity.
  - reflexivity.
Defined.


(* ===================================================================== *)
(** ** Reset, and the checks of the project files                         *)
(* ===================================================================== *)

Lemma defaults_stable (platform : string) :
  json_reparse (object_value (getDefaultConfig platform))
  = object_value (getDefaultConfig platform).
Proof. apply object_value_stable. vm_compute. reflexivity. Qed.

Lemma defaults_reload (ws : option string) (platform : string) :
  loaded ws platform (Parses (object_value (getDefaultConfig platform)))
  = getDefaultConfig platform.
Proof.
  unfold loaded. destruct (JS.truthy ws); [| reflexivity].
  unfold object_value. cbn [own_props].
  rewrite spread_map_to_list. apply map_union_idemp.
Qed.

(** X7.  [resetToDefaults] installs the defaults in memory and never
    throws.  With a workspace and a writable file it returns [true] and the
    file then holds the defaults, which a later load reads back unchanged;
    otherwise it returns [false] and leaves the file as it was, so that the
    next load brings the old settings back. *)
Theorem resetToDefaults_outcome
    (ws : option string) (platform : string) (o : option (gmap string jsvalue))
    (f : ConfigFile) (w : bool) :
  let defaults := getDefaultConfig platform in
  resetToDefaults (mkState (mkManager ws platform o) (mkDisk f w))
  = (if JS.truthy ws && w
     then Normal true (mkState (mkManager ws platform (Some defaults))
                               (mkDisk (Parses (object_value defaults)) w))
     else Normal false (mkState (mkManager ws platform (Some defaults)) (mkDisk f w)))
  /\ loaded ws platform (Parses (object_value defaults)) = defaults.
Proof.
  cbv zeta. split; [| apply defaults_reload].
  unfold resetToDefaults, bind, get_manager, set_projectConfig.
  cbn [manager workspacePath currentPlatform disk].
  rewrite saveConfig_run. destruct (JS.truthy ws && w) eqn:Hok; [| reflexivity].
  rewrite defaults_stable.
  apply andb_true_iff in Hok as [Hws _].
  pose proof (defaults_reload ws platform) as Hre. unfold loaded in Hre.
  rewrite Hws in Hre. now rewrite Hre.
Qed.

(** *** What a save and reload does to a field *)

Lemma reload_lookup_None (t o : gmap string jsvalue) (k : string) :
  o !! k = None ->
  spread t (own_props (json_reparse (object_value o))) !! k = t !! k.
Proof.
  intros Hk. unfold object_value. cbn [json_reparse own_props].
  apply spread_lookup_notin. rewrite List.map_map. cbn [fst].
  intros Hin. apply in_map_iff in Hin as ([k' v] & Hk' & Hin). cbn [fst] in Hk'. subst k'.
  apply list_elem_of_In, elem_of_map_to_list in Hin. congruence.
Qed.

Lemma reparse_falsy (v : jsvalue) :
  truthy_value (Some v) = false -> truthy_value (Some (json_reparse v)) = false.
Proof. destruct v as [ | b | [ | | | ] | s | items | props]; simpl; congruence. Qed.

Lemma reload_falsy (t o : gmap string jsvalue) (k : string) :
  truthy_value (o !! k) = false -> truthy_value (t !! k) = false ->
  truthy_value (spread t (own_props (json_reparse (object_value o))) !! k) = false.
Proof.
  intros Ho Ht. destruct (o !! k) as [v|] eqn:Hk.
  - rewrite (reload_lookup t o k v Hk). now apply reparse_falsy.
  - now rewrite reload_lookup_None.
Qed.

Lemma reload_string (t o : gmap string jsvalue) (k s : string) :
  o !! k = Some (JStr s) ->
  spread t (own_props (json_reparse (object_value o))) !! k = Some (JStr s).
Proof. intros Hk. now rewrite (reload_lookup t o k _ Hk). Qed.

(** X8.  On a configuration whose linker and startup pairs are resolved,
    the check before a build and the check of the project setup return
    [true] and change nothing, in memory or on disk: no search, no dialog,
    no write. *)
Theorem resolved_files_are_kept (h : Host) (dlg : Dialogs) (st : State)
    (config : gmap string jsvalue) :
  projectConfig (manager st) = Some config ->
  resolved config = true ->
  checkProjectFiles h dlg st = Normal true st /\
  verifyProjectFiles h dlg st = Normal true st.
Proof.
  intros Hcfg Hres. unfold resolved in Hres.
  apply andb_prop in Hres as [Hres H4]. apply andb_prop in Hres as [Hres H3].
  apply andb_prop in Hres as [H1 H2].
  unfold checkProjectFiles, verifyProjectFiles, bind, get_manager.
  rewrite Hcfg, H1, H2, H3, H4. simpl. split; reflexivity.
Qed.

Lemma resolved_files_are_kept_witness :
  checkProjectFiles empty_host (mkDialogs None None None None) resolved_state
  = Normal true resolved_state /\
  verifyProjectFiles empty_host (mkDialogs None None None None) resolved_state
  = Normal true resolved_state.
Proof.
  apply (resolved_files_are_kept empty_host (mkDialogs None None None None) resolved_state
           (<[ "startupFilePath" := JStr "/work/Core/Startup/startup_stm32f407xx.s" ]>
              (<[ "startupFile" := JStr "startup_stm32f407xx" ]>
                 (<[ "ldscriptPath" := JStr "/work/STM32F407VGTx_FLASH.ld" ]>
                    (<[ "ldscript" := JStr "STM32F407VGTx_FLASH.ld" ]>
                       (getDefaultConfig "linux")))))); reflexivity.
Defined.

(** X9.  [checkProjectFiles] on a configuration with neither pair
    resolved, in a workspace where both resolvers find a file and the
    configuration file is writable: the linker pair is stored and saved, but
    the startup file that was found is not.  The save reloads the
    configuration into a new object; the startup pair is then written to
    the old object, and the second save writes the new one.  The call
    returns [true] with [startupFile] still unset, in memory and on disk. *)
Theorem checkProjectFiles_drops_found_startup
    (h : Host) (dlg : Dialogs) (ws : option string) (platform : string)
    (config : gmap string jsvalue) (f : ConfigFile)
    (ld : LinkerResult.t) (su : StartupResult.t) :
  let withLinker :=
    <[ "ldscriptPath" := JStr (LinkerResult.ldscriptPath ld) ]>
      (<[ "ldscript" := JStr (LinkerResult.ldscript ld) ]> config) in
  let reloaded := loaded ws platform (Parses (json_reparse (object_value withLinker))) in
  JS.truthy ws = true ->
  truthy_value (config !! "ldscript") && truthy_value (config !! "ldscriptPath") = false ->
  truthy_value (config !! "startupFile") = false ->
  findLinkerScript h (mkManager ws platform (Some config)) = Some ld ->
  findStartupFile h (mkManager ws platform (Some reloaded)) = Some su ->
  exists cfg v,
    checkProjectFiles h dlg (mkState (mkManager ws platform (Some config)) (mkDisk f true))
    = Normal true (mkState (mkManager ws platform (Some cfg)) (mkDisk (Parses v) true)) /\
    cfg = loaded ws platform (Parses v) /\
    cfg !! "ldscript" = Some (JStr (LinkerResult.ldscript ld)) /\
    cfg !! "ldscriptPath" = Some (JStr (LinkerResult.ldscriptPath ld)) /\
    truthy_value (cfg !! "startupFile") = false.
Proof.
  intros withLinker reloaded Hws Hlinker Hstartup Hld Hsu.
  assert (Hcond : negb (truthy_value (config !! "ldscript"))
                  || negb (truthy_value (config !! "ldscriptPath")) = true).
  { rewrite <- negb_andb. now rewrite Hlinker. }
  assert (Hreloaded : reloaded
            = spread (getDefaultConfig platform)
                     (own_props (json_reparse (object_value withLinker)))).
  { unfold reloaded, loaded. now rewrite Hws. }
  exists (loaded ws platform (Parses (json_reparse (object_value reloaded)))),
         (json_reparse (object_value reloaded)).
  split; [| split; [reflexivity |]].
  - unfold checkProjectFiles, bind, get_manager.
    cbn [manager projectConfig]. rewrite Hcond, Hld, Hstartup. cbn [negb orb].
    unfold store_linker, assign2, assign, bind, get_manager, set_projectConfig.
    cbn [manager projectConfig workspacePath currentPlatform disk].
    fold withLinker. rewrite saveConfig_run, Hws. cbn [andb negb ret].
    rewrite <- Hreloaded. cbn [manager]. rewrite Hsu. cbn [ret].
    rewrite saveConfig_run, Hws. cbn [andb]. unfold loaded. rewrite Hws. reflexivity.
  - unfold loaded. rewrite Hws. cbn [own_props].
    assert (H1 : reloaded !! "ldscript" = Some (JStr (LinkerResult.ldscript ld))).
    { rewrite Hreloaded. apply reload_string. unfold withLinker.
      rewrite lookup_insert_ne by discriminate. apply lookup_insert_eq. }
    assert (H2 : reloaded !! "ldscriptPath" = Some (JStr (LinkerResult.ldscriptPath ld))).
    { rewrite Hreloaded. apply reload_string. unfold withLinker. apply lookup_insert_eq. }
    assert (H3 : truthy_value (reloaded !! "startupFile") = false).
    { rewrite Hreloaded. apply reload_falsy; [| reflexivity]. unfold withLinker.
      now rewrite !lookup_insert_ne by discriminate. }
    split; [now apply reload_string |]. split; [now apply reload_string |].
    apply reload_falsy; [exact H3 | reflexivity].
Qed.

Lemma checkProjectFiles_drops_found_startup_witness :
  findStartupFile sample_host (manager fresh_state) <> None /\
  exists cfg v,
    checkProjectFiles sample_host (mkDialogs None None None None) fresh_state
    = Normal true (mkState (mkManager (Some "/work") "linux" (Some cfg))
                           (mkDisk (Parses v) true)) /\
    cfg = loaded (Some "/work") "linux" (Parses v) /\
    cfg !! "ldscript" = Some (JStr "STM32F407VGTx_FLASH.ld") /\
    cfg !! "ldscriptPath" = Some (JStr "/work/STM32F407VGTx_FLASH.ld") /\
    truthy_value (cfg !! "startupFile") = false.
Proof.
  split; [discriminate |].
  apply (checkProjectFiles_drops_found_startup sample_host (mkDialogs None None None None)
           (Some "/work") "linux" (getDefaultConfig "linux") Missing
           (LinkerResult.mk "STM32F407VGTx_FLASH.ld" "/work/STM32F407VGTx_FLASH.ld"
                            "/work/STM32F407VGTx_FLASH.ld")
           (StartupResult.mk "startup_stm32f407xx" "/work/Core/Startup/startup_stm32f407xx.s"
                             "/work/Core/Startup/startup_stm32f407xx.s"));
    vm_compute; reflexivity.
Defined.

(** X10.  [verifyProjectFiles], in the same situation, stores both pairs
    in the configuration in memory and does not touch the disk. *)
Theorem verifyProjectFiles_stores_both_pairs
    (h : Host) (dlg : Dialogs) (ws : option string) (platform : string)
    (config : gmap string jsvalue) (d : Disk)
    (ld : LinkerResult.t) (su : StartupResult.t) :
  let withLinker :=
    <[ "ldscriptPath" := JStr (LinkerResult.ldscriptPath ld) ]>
      (<[ "ldscript" := JStr (LinkerResult.ldscript ld) ]> config) in
  truthy_value (config !! "ldscript") && truthy_value (config !! "ldscriptPath") = false ->
  truthy_value (config !! "startupFile") = false ->
  findLinkerScript h (mkManager ws platform (Some config)) = Some ld ->
  findStartupFile h (mkManager ws platform (Some withLinker)) = Some su ->
  verifyProjectFiles h dlg (mkState (mkManager ws platform (Some config)) d)
  = Normal true
      (mkState (mkManager ws platform
                  (Some (<[ "startupFilePath" := JStr (StartupResult.startupFilePath su) ]>
                           (<[ "startupFile" := JStr (StartupResult.startupFile su) ]>
                              withLinker))))
               d).
Proof.
  intros withLinker Hlinker Hstartup Hld Hsu.
  assert (Hcond : negb (truthy_value (config !! "ldscript"))
                  || negb (truthy_value (config !! "ldscriptPath")) = true).
  { rewrite <- negb_andb. now rewrite Hlinker. }
  unfold verifyProjectFiles, store_linker, store_startup, assign2, assign, set_projectConfig.
  unfold bind, get_manager, ret.
  repeat (cbn [manager projectConfig workspacePath currentPlatform disk negb orb];
          rewrite ?Hcond, ?Hld, ?Hstartup).
  fold withLinker. rewrite Hsu.
  reflexivity.
Qed.

Lemma verifyProjectFiles_stores_both_pairs_witness :
  exists cfg,
    verifyProjectFiles sample_host (mkDialogs None None None None) fresh_state
    = Normal true (mkState (mkManager (Some "/work") "linux" (Some cfg))
                           (mkDisk Missing true)) /\
    cfg !! "ldscript" = Some (JStr "STM32F407VGTx_FLASH.ld") /\
    cfg !! "startupFile" = Some (JStr "startup_stm32f407xx").
Proof.
  eexists. split.
  - apply (verifyProjectFiles_stores_both_pairs sample_host (mkDialogs None None None None)
             (Some "/work") "linux" (getDefaultConfig "linux") (mkDisk Missing true)
             (LinkerResult.mk "STM32F407VGTx_FLASH.ld" "/work/STM32F407VGTx_FLASH.ld"
                              "/work/STM32F407VGTx_FLASH.ld")
             (StartupResult.mk "startup_stm32f407xx"
                               "/work/Core/Startup/startup_stm32f407xx.s"
                               "/work/Core/Startup/startup_stm32f407xx.s"));
      vm_compute; reflexivity.
  - split; vm_compute; reflexivity.
Defined.

(** X11.  [initializeProjectConfig] never replaces a path that is already
    set: with [ldscriptPath] and [startupFilePath] truthy it searches
    nothing, marks the configuration initialised, saves it, and every
    string-valued field keeps its value, whatever the workspace holds. *)
Theorem initializeProjectConfig_keeps_resolved_paths
    (h : Host) (ws : option string) (platform : string) (config : gmap string jsvalue)
    (f : ConfigFile) (w : bool) :
  JS.truthy ws = true ->
  truthy_value (config !! "ldscriptPath") = true ->
  truthy_value (config !! "startupFilePath") = true ->
  exists cfg d,
    initializeProjectConfig h (mkState (mkManager ws platform (Some config)) (mkDisk f w))
    = Normal w (mkState (mkManager ws platform (Some cfg)) d) /\
    cfg !! "configInitialized" = Some (JBool true) /\
    forall k s, config !! k = Some (JStr s) -> k <> "configInitialized" ->
                cfg !! k = Some (JStr s).
Proof.
  intros Hws Hld Hsu.
  unfold initializeProjectConfig, read, assign, set_projectConfig.
  unfold bind, get_manager, ret.
  repeat (cbn [manager workspacePath projectConfig currentPlatform disk negb];
          rewrite ?Hws, ?Hld, ?Hsu).
  rewrite saveConfig_run, Hws. cbn [andb]. destruct w.
  - eexists _, _. split; [reflexivity |]. split.
    + now rewrite (reload_lookup _ _ "configInitialized" (JBool true))
        by apply lookup_insert_eq.
    + intros k s Hk Hne. apply reload_string. now rewrite lookup_insert_ne by congruence.
  - eexists _, _. split; [reflexivity |]. split; [apply lookup_insert_eq |].
    intros k s Hk Hne. now rewrite lookup_insert_ne by congruence.
Qed.

Lemma initializeProjectConfig_keeps_resolved_paths_witness :
  exists cfg d,
    initializeProjectConfig empty_host
      (mkState (mkManager (Some "/work") "linux"
                  (Some (<[ "startupFilePath" := JStr "/work/boot.s" ]>
                           (<[ "ldscriptPath" := JStr "/work/app.ld" ]>
                              (getDefaultConfig "linux")))))
               (mkDisk Missing true))
    = Normal true (mkState (mkManager (Some "/work") "linux" (Some cfg)) d) /\
    cfg !! "configInitialized" = Some (JBool true) /\
    forall k s,
      <[ "startupFilePath" := JStr "/work/boot.s" ]>
        (<[ "ldscriptPath" := JStr "/work/app.ld" ]> (getDefaultConfig "linux")) !! k
      = Some (JStr s) ->
      k <> "configInitialized" -> cfg !! k = Some (JStr s).
Proof.
  apply (initializeProjectConfig_keeps_resolved_paths empty_host (Some "/work") "linux"
           (<[ "startupFilePath" := JStr "/work/boot.s" ]>
              (<[ "ldscriptPath" := JStr "/work/app.ld" ]> (getDefaultConfig "linux")))
           Missing true); reflexivity.
Defined.


(* ===================================================================== *)
(** ** White space and [trim]                                             *)
(* ===================================================================== *)

(** *** Reversal *)

Lemma list_ascii_app (a b : string) :
  list_ascii_of_string (a ++ b)
  = (list_ascii_of_string a ++ list_ascii_of_string b)%list.
Proof.
  induction a as [|c a IH]; [reflexivity |].
  rewrite str_app_cons. simpl. now rewrite IH.
Qed.

Lemma string_of_list_app (l1 l2 : list ascii) :
  string_of_list_ascii (l1 ++ l2)%list
  = string_of_list_ascii l1 ++ string_of_list_ascii l2.
Proof.
  induction l1 as [|c l1 IH]; [reflexivity |].
  simpl. now rewrite IH, str_app_cons.
Qed.

Lemma reverse_app (a b : string) :
  Text.reverse (a ++ b) = Text.reverse b ++ Text.reverse a.
Proof.
  unfold Text.reverse. now rewrite list_ascii_app, List.rev_app_distr, string_of_list_app.
Qed.

Lemma reverse_involutive (s : string) : Text.reverse (Text.reverse s) = s.
Proof.
  unfold Text.reverse.
  now rewrite list_ascii_of_string_of_list_ascii, List.rev_involutive,
    string_of_list_ascii_of_string.
Qed.

Lemma reverse_length (s : string) : String.length (Text.reverse s) = String.length s.
Proof.
  induction s as [|c s IH]; [reflexivity |].
  change (String c s) with (String c "" ++ s).
  rewrite reverse_app, !str_length_app, IH. simpl. lia.
Qed.

Lemma reverse_nil (s : string) : Text.reverse s = "" -> s = "".
Proof.
  intros H. apply (f_equal String.length) in H. rewrite reverse_length in H.
  now destruct s.
Qed.

(** *** Stripping patterns *)

Section Strip.

Variable patterns : list string.

Lemma leading_Some (s rest : string) :
  Text.leading patterns s = Some rest ->
  exists w, In w patterns /\ s = w ++ rest.
Proof.
  unfold Text.leading.
  destruct (List.find _ patterns) as [w|] eqn:Hfind; [| discriminate].
  intros [= <-]. apply find_some in Hfind as [Hin Hpre].
  exists w. split; [exact Hin | now apply prefix_split].
Qed.

Lemma leading_None (s : string) :
  Text.leading patterns s = None ->
  forall w, In w patterns -> String.prefix w s = false.
Proof.
  unfold Text.leading.
  destruct (List.find _ patterns) as [w|] eqn:Hfind; [discriminate |].
  intros _ w Hw. exact (find_none _ _ Hfind w Hw).
Qed.

Lemma leading_None_intro (s : string) :
  (forall w, In w patterns -> String.prefix w s = false) ->
  Text.leading patterns s = None.
Proof.
  intros H. unfold Text.leading. now rewrite (find_all_false _ _ H).
Qed.

(** What is stripped is a prefix. *)
Lemma strip_split (fuel : nat) (s : string) :
  exists pre, s = pre ++ Text.strip patterns fuel s.
Proof.
  revert s. induction fuel as [|fuel IH]; intros s.
  - exists "". now rewrite str_app_nil_l.
  - simpl. destruct (Text.leading patterns s) as [rest|] eqn:Hlead.
    + destruct (leading_Some _ _ Hlead) as (w & _ & ->).
      destruct (IH rest) as (pre & Hpre).
      exists (w ++ pre). now rewrite str_app_assoc, <- Hpre.
    + exists "". now rewrite str_app_nil_l.
Qed.

Lemma strip_fixed (fuel : nat) (s : string) :
  Text.leading patterns s = None -> Text.strip patterns fuel s = s.
Proof. intros H. destruct fuel; simpl; [| rewrite H]; reflexivity. Qed.

Hypothesis patterns_inhabited : forall w, In w patterns -> w <> "".

Lemma leading_nil : Text.leading patterns "" = None.
Proof.
  apply leading_None_intro. intros w Hw.
  destruct w as [|c w]; [now apply patterns_inhabited in Hw | reflexivity].
Qed.

(** With fuel for every byte, nothing is left to strip. *)
Lemma strip_done (fuel : nat) (s : string) :
  (String.length s <= fuel)%nat ->
  Text.leading patterns (Text.strip patterns fuel s) = None.
Proof.
  revert s. induction fuel as [|fuel IH]; intros s Hlen.
  - destruct s; [apply leading_nil | simpl in Hlen; lia].
  - simpl. destruct (Text.leading patterns s) as [rest|] eqn:Hlead; [| exact Hlead].
    apply IH. destruct (leading_Some _ _ Hlead) as (w & Hw & ->).
    rewrite str_length_app in Hlen.
    destruct w as [|c w]; [now apply patterns_inhabited in Hw |]. simpl in Hlen. lia.
Qed.

(** A string stripped to nothing ended with a pattern. *)
Lemma strip_all (fuel : nat) (s : string) :
  Text.strip patterns fuel s = "" ->
  s = "" \/ exists pre w, In w patterns /\ s = pre ++ w.
Proof.
  revert s. induction fuel as [|fuel IH]; intros s H; [now left |].
  simpl in H. destruct (Text.leading patterns s) as [rest|] eqn:Hlead; [| now left].
  right. destruct (leading_Some _ _ Hlead) as (w & Hw & ->).
  destruct (IH rest H) as [-> | (pre & w' & Hw' & ->)].
  - exists "", w. now rewrite str_app_nil_r, str_app_nil_l.
  - exists (w ++ pre), w'. now rewrite str_app_assoc.
Qed.

End Strip.

(** *** [trim] *)

Lemma whiteSpace_inhabited (w : string) : In w Text.whiteSpace -> w <> "".
Proof.
  intros Hw ->. revert Hw. unfold Text.whiteSpace. simpl.
  intuition discriminate.
Qed.

Lemma reversed_whiteSpace_inhabited (w : string) :
  In w (List.map Text.reverse Text.whiteSpace) -> w <> "".
Proof.
  intros Hw ->. apply in_map_iff in Hw as (w & Hrev & Hw).
  apply reverse_nil in Hrev. now apply whiteSpace_inhabited in Hw.
Qed.

Lemma trimStart_clean (s : string) : starts_clean (Text.trimStart s).
Proof. apply strip_done; [apply whiteSpace_inhabited | lia]. Qed.

Lemma trimStart_split (s : string) : exists pre, s = pre ++ Text.trimStart s.
Proof. apply strip_split. Qed.

Lemma trimEnd_clean (s : string) : ends_clean (Text.trimEnd s).
Proof.
  unfold ends_clean, Text.trimEnd. rewrite reverse_involutive.
  apply strip_done; [apply reversed_whiteSpace_inhabited | rewrite reverse_length; lia].
Qed.

Lemma trimEnd_split (s : string) : exists post, s = Text.trimEnd s ++ post.
Proof.
  unfold Text.trimEnd.
  destruct (strip_split (List.map Text.reverse Text.whiteSpace) (String.length s)
              (Text.reverse s)) as (pre & Hpre).
  exists (Text.reverse pre).
  rewrite <- reverse_app, <- Hpre. now rewrite reverse_involutive.
Qed.

Lemma trimStart_fixed (s : string) : starts_clean s -> Text.trimStart s = s.
Proof. apply strip_fixed. Qed.

Lemma trimEnd_fixed (s : string) : ends_clean s -> Text.trimEnd s = s.
Proof.
  intros H. unfold Text.trimEnd. rewrite strip_fixed by exact H.
  apply reverse_involutive.
Qed.

Lemma starts_clean_prefix (t post : string) : starts_clean (t ++ post) -> starts_clean t.
Proof.
  intros H. apply leading_None_intro. intros w Hw.
  destruct (String.prefix w t) eqn:Hpre; [| reflexivity].
  rewrite <- (leading_None _ _ H w Hw). symmetry. now apply prefix_app_l.
Qed.

Lemma ends_clean_suffix (pre t : string) : ends_clean (pre ++ t) -> ends_clean t.
Proof.
  unfold ends_clean. rewrite reverse_app. intros H.
  apply leading_None_intro. intros w Hw.
  destruct (String.prefix w (Text.reverse t)) eqn:Hpre; [| reflexivity].
  rewrite <- (leading_None _ _ H w Hw). symmetry. now apply prefix_app_l.
Qed.

Lemma trim_clean (s : string) : starts_clean (Text.trim s) /\ ends_clean (Text.trim s).
Proof.
  unfold Text.trim. split; [apply trimStart_clean |].
  destruct (trimStart_split (Text.trimEnd s)) as (pre & Hpre).
  apply (ends_clean_suffix pre). rewrite <- Hpre. apply trimEnd_clean.
Qed.

Lemma trim_fixed (s : string) : starts_clean s -> ends_clean s -> Text.trim s = s.
Proof.
  intros Hs He. unfold Text.trim. rewrite (trimEnd_fixed s He). now apply trimStart_fixed.
Qed.

Lemma trim_idempotent (s : string) : Text.trim (Text.trim s) = Text.trim s.
Proof. destruct (trim_clean s). now apply trim_fixed. Qed.

Lemma trim_fixed_clean (s : string) : Text.trim s = s -> starts_clean s /\ ends_clean s.
Proof. intros <-. apply trim_clean. Qed.

Lemma trim_split (s : string) : exists pre post, s = pre ++ Text.trim s ++ post.
Proof.
  unfold Text.trim.
  destruct (trimEnd_split s) as (post & Hpost).
  destruct (trimStart_split (Text.trimEnd s)) as (pre & Hpre).
  exists pre, post. rewrite <- str_app_assoc, <- Hpre. exact Hpost.
Qed.

(** A string trimmed to nothing consists of white space: it is empty or
    starts with a white-space code point. *)
Lemma trimEnd_nil (s : string) :
  Text.trimEnd s = "" -> s = "" \/ ~ starts_clean s.
Proof.
  unfold Text.trimEnd. intros H. apply reverse_nil in H.
  apply strip_all in H as [H | (pre & w & Hw & H)].
  - left. now apply reverse_nil.
  - right. apply in_map_iff in Hw as (w0 & <- & Hw0).
    apply (f_equal Text.reverse) in H.
    rewrite reverse_involutive, reverse_app, reverse_involutive in H. subst s.
    intros Hclean. pose proof (leading_None _ _ Hclean w0 Hw0) as Hno.
    now rewrite prefix_app in Hno.
Qed.

(** A carriage return at the end of a line is trimmed away. *)
Lemma trim_cr (l : string) : Text.trim (l ++ String "013" "") = Text.trim l.
Proof.
  unfold Text.trim. f_equal. unfold Text.trimEnd.
  rewrite reverse_app, str_length_app, Nat.add_1_r.
  change (Text.reverse (String "013" "")) with (String "013" "").
  rewrite str_app_cons, str_app_nil_l.
  generalize (Text.reverse l) as r, (String.length l) as n. intros r n.
  f_equal. destruct r; reflexivity.
Qed.


(* ===================================================================== *)
(** ** The lines of a descriptor                                          *)
(* ===================================================================== *)

(** The first occurrence of a character cuts the string in two. *)
Lemma indexOf_split (c : ascii) (s : string) (n : nat) :
  Text.indexOf s (String c "") = Some n ->
  exists p rest,
    s = p ++ String c rest /\ String.length p = n /\
    JS.includes p (String c "") = false.
Proof.
  revert n. induction s as [|a s IH]; intros n H; [discriminate |].
  simpl in H. destruct (ascii_dec c a) as [<- | Hne].
  - rewrite prefix_nil in H. injection H as <-.
    exists "", s. now rewrite str_app_nil_l.
  - destruct (Text.indexOf s (String c "")) as [m|] eqn:Hm; [| discriminate].
    injection H as <-. destruct (IH m eq_refl) as (p & rest & -> & <- & Hp).
    exists (String a p), rest. rewrite str_app_cons. repeat split.
    rewrite includes_unfold. simpl. now destruct (ascii_dec c a).
Qed.

Lemma indexOf_app (c : ascii) (p rest : string) :
  JS.includes p (String c "") = false ->
  Text.indexOf (p ++ String c rest) (String c "") = Some (String.length p).
Proof.
  induction p as [|a p IH]; intros Hp.
  - rewrite str_app_nil_l. simpl. destruct (ascii_dec c c); [| congruence].
    now rewrite prefix_nil.
  - rewrite includes_unfold in Hp. simpl in Hp. rewrite str_app_cons. simpl.
    destruct (ascii_dec c a); [now rewrite prefix_nil in Hp |].
    now rewrite (IH Hp).
Qed.

(** A clean string followed by a character that occurs in no pattern is
    still clean. *)
Lemma leading_app_None (patterns : list string) (c : ascii) (a b : string) :
  (forall w, In w patterns -> JS.includes w (String c "") = false) ->
  Text.leading patterns a = None ->
  Text.leading patterns (a ++ String c b) = None.
Proof.
  intros Hc Ha. apply leading_None_intro. intros w Hw.
  destruct (String.prefix w (a ++ String c b)) eqn:Hpre; [| reflexivity].
  pose proof (leading_None _ _ Ha w Hw) as Hno.
  apply prefix_app_cases in Hpre as [Hpre | (w' & -> & Hpre)]; [congruence |].
  destruct w' as [|d w'].
  - rewrite str_app_nil_r in Hno.
    rewrite <- (str_app_nil_r a) in Hno at 2. now rewrite prefix_app in Hno.
  - simpl in Hpre. destruct (ascii_dec d c) as [-> |]; [| discriminate].
    specialize (Hc _ Hw). rewrite includes_app_r in Hc; [discriminate |].
    apply includes_head.
Qed.

Lemma whiteSpace_no_equals (w : string) :
  In w Text.whiteSpace -> JS.includes w "=" = false.
Proof.
  intros Hw.
  assert (H : forallb (fun w => negb (JS.includes w "=")) Text.whiteSpace = true)
    by reflexivity.
  rewrite forallb_forall in H. apply negb_true_iff. now apply H.
Qed.

Lemma reversed_whiteSpace_no_equals (w : string) :
  In w (List.map Text.reverse Text.whiteSpace) -> JS.includes w "=" = false.
Proof.
  intros Hw.
  assert (H : forallb (fun w => negb (JS.includes w "="))
                      (List.map Text.reverse Text.whiteSpace) = true)
    by reflexivity.
  rewrite forallb_forall in H. apply negb_true_iff. now apply H.
Qed.

(** A trimmed key, an equals sign and a trimmed value make a trimmed
    line. *)
Lemma trim_entry (k v : string) :
  Text.trim k = k -> Text.trim v = v -> Text.trim (k ++ "=" ++ v) = k ++ "=" ++ v.
Proof.
  intros Hk Hv.
  apply trim_fixed_clean in Hk as [Hk _]. apply trim_fixed_clean in Hv as [_ Hv].
  apply trim_fixed.
  - apply leading_app_None; [apply whiteSpace_no_equals | exact Hk].
  - unfold ends_clean. rewrite !reverse_app.
    change (Text.reverse "=") with "=". rewrite str_app_assoc.
    apply leading_app_None; [apply reversed_whiteSpace_no_equals | exact Hv].
Qed.

(** A line with an entry, once trimmed, is a non-empty part without equals
    sign, an equals sign and a rest; the key and the value are the two
    parts, trimmed. *)
Lemma iocEntry_Some (line k v : string) :
  iocEntry line = Some (k, v) ->
  exists p rest,
    Text.trim line = p ++ String "=" rest /\ p <> "" /\
    JS.includes p "=" = false /\ String.prefix "#" (Text.trim line) = false /\
    k = Text.trim p /\ v = Text.trim rest.
Proof.
  unfold iocEntry. cbv zeta.
  destruct (negb (JS.truthy (Some (Text.trim line))) || String.prefix "#" (Text.trim line))
    eqn:Hskip; [discriminate |].
  apply orb_false_iff in Hskip as [_ Hhash].
  destruct (Text.indexOf (Text.trim line) "=") as [[|i]|] eqn:Hindex; try discriminate.
  destruct (indexOf_split _ _ _ Hindex) as (p & rest & Ht & Hlen & Hp).
  rewrite Ht, <- Hlen, substring_app, drop_app_cons.
  intros [= <- <-]. exists p, rest. rewrite <- Ht.
  repeat split; try assumption. intros ->. discriminate.
Qed.

Lemma iocEntry_clean (line k v : string) :
  iocEntry line = Some (k, v) ->
  k <> "" /\ Text.trim k = k /\ Text.trim v = v /\
  JS.includes k "=" = false /\ String.prefix "#" k = false.
Proof.
  intros (p & rest & Ht & Hpne & Hp & Hhash & -> & ->)%iocEntry_Some.
  destruct (trim_clean line) as [Hstart _].
  assert (Hpclean : starts_clean p).
  { apply (starts_clean_prefix p (String "=" rest)). now rewrite <- Ht. }
  assert (Hkey : Text.trim p = Text.trimEnd p).
  { unfold Text.trim. apply trimStart_fixed.
    destruct (trimEnd_split p) as (post & Hpost).
    apply (starts_clean_prefix _ post). now rewrite <- Hpost. }
  assert (Hne : Text.trimEnd p <> "").
  { intros Hnil. apply trimEnd_nil in Hnil as [-> | Hnil]; [congruence | tauto]. }
  split; [now rewrite Hkey |].
  split; [apply trim_idempotent |].
  split; [apply trim_idempotent |].
  split.
  - destruct (trim_split p) as (pre & post & Hsplit).
    destruct (JS.includes (Text.trim p) "=") eqn:Hin; [| reflexivity].
    rewrite Hsplit in Hp. rewrite includes_app_r in Hp; [discriminate |].
    now apply includes_app_l.
  - rewrite Hkey. destruct (trimEnd_split p) as (post & Hpost).
    destruct (Text.trimEnd p) as [|c key]; [congruence |].
    rewrite Ht, Hpost in Hhash. rewrite !str_app_cons in Hhash.
    now rewrite prefix_char in *.
Qed.

Lemma iocEntry_no_newline (line k v : string) :
  no_newline line = true -> iocEntry line = Some (k, v) ->
  no_newline k = true /\ no_newline v = true.
Proof.
  intros Hline (p & rest & Ht & _ & _ & _ & -> & ->)%iocEntry_Some.
  destruct (trim_split line) as (pre & post & Hsplit).
  rewrite Hsplit, Ht, !no_newline_app, no_newline_cons in Hline.
  apply andb_true_iff in Hline as [_ Hline]. apply andb_true_iff in Hline as [Hline _].
  apply andb_true_iff in Hline as [Hp Hrest]. apply andb_true_iff in Hrest as [_ Hrest].
  split.
  - destruct (trim_split p) as (a & b & Hk). rewrite Hk, !no_newline_app in Hp.
    apply andb_true_iff in Hp as [_ Hp]. now apply andb_true_iff in Hp as [Hp _].
  - destruct (trim_split rest) as (a & b & Hv). rewrite Hv, !no_newline_app in Hrest.
    apply andb_true_iff in Hrest as [_ Hrest]. now apply andb_true_iff in Hrest as [Hrest _].
Qed.

Lemma iocEntry_entry (k v : string) :
  k <> "" -> Text.trim k = k -> Text.trim v = v ->
  JS.includes k "=" = false -> String.prefix "#" k = false ->
  iocEntry (k ++ "=" ++ v) = Some (k, v).
Proof.
  intros Hne Hk Hv Heq Hhash. unfold iocEntry. cbv zeta.
  rewrite (trim_entry k v Hk Hv).
  destruct k as [|c k']; [congruence |].
  assert (Hskip : negb (JS.truthy (Some (String c k' ++ "=" ++ v)))
                  || String.prefix "#" (String c k' ++ "=" ++ v) = false).
  { rewrite str_app_cons. rewrite prefix_char in *. now rewrite Hhash. }
  rewrite Hskip.
  change ("=" ++ v) with (String "=" v).
  rewrite (indexOf_app "=" (String c k') v Heq).
  cbn [String.length].
  change (S (String.length k')) with (String.length (String c k')).
  now rewrite substring_app, drop_app_cons, Hk, Hv.
Qed.

Lemma parseIOCLine_union (config : gmap string string) (line : string) :
  parseIOCLine config line = parseIOCLine ∅ line ∪ config.
Proof.
  unfold parseIOCLine. destruct (iocEntry line) as [[k v]|].
  - destruct (String.eqb k "__proto__").
    + now rewrite (left_id_L ∅ (∪)).
    + now rewrite insert_empty, <- insert_union_singleton_l.
  - now rewrite (left_id_L ∅ (∪)).
Qed.

(** The lines parsed onto a descriptor override it. *)
Lemma parseIOCLines_union (ls : list string) (config : gmap string string) :
  List.fold_left parseIOCLine ls config = List.fold_left parseIOCLine ls ∅ ∪ config.
Proof.
  revert config. induction ls as [|l ls IH]; intros config.
  - simpl. now rewrite (left_id_L ∅ (∪)).
  - simpl. rewrite (IH (parseIOCLine config l)), (IH (parseIOCLine ∅ l)).
    rewrite (parseIOCLine_union config l). now rewrite (assoc_L (∪)).
Qed.

Lemma parseIOCFile_app_nl (a b : string) :
  parseIOCFile (a ++ nl ++ b) = parseIOCFile b ∪ parseIOCFile a.
Proof.
  unfold parseIOCFile, split_lines.
  rewrite lines_app_nl, List.fold_left_app. apply parseIOCLines_union.
Qed.

(** What holds of the entry of every line holds of every entry of the
    descriptor. *)
Lemma parseIOCLines_entries (P : string -> string -> Prop) (ls : list string) :
  (forall line k v,
      In line ls -> iocEntry line = Some (k, v) -> k <> "__proto__" -> P k v) ->
  forall config : gmap string string,
    (forall k v, config !! k = Some v -> P k v) ->
    forall k v, List.fold_left parseIOCLine ls config !! k = Some v -> P k v.
Proof.
  induction ls as [|l ls IH]; intros Hentry config Hconfig; [exact Hconfig |].
  simpl. apply IH; [intros line k v Hin; apply Hentry; now right |].
  intros k v. unfold parseIOCLine.
  destruct (iocEntry l) as [[k0 v0]|] eqn:Hl; [| apply Hconfig].
  destruct (String.eqb k0 "__proto__") eqn:Hproto; [apply Hconfig |].
  apply String.eqb_neq in Hproto.
  destruct (decide (k = k0)) as [-> | Hne].
  - rewrite lookup_insert_eq. intros [= <-]. apply (Hentry l); [now left | |]; assumption.
  - rewrite lookup_insert_ne by congruence. apply Hconfig.
Qed.

Lemma parseIOCFile_line (k v : string) :
  k <> "" -> k <> "__proto__" -> Text.trim k = k -> Text.trim v = v ->
  JS.includes k "=" = false -> String.prefix "#" k = false ->
  no_newline k = true -> no_newline v = true ->
  parseIOCFile (k ++ "=" ++ v) = {[ k := v ]}.
Proof.
  intros Hne Hproto Hk Hv Heq Hhash Hnk Hnv.
  unfold parseIOCFile, split_lines. rewrite lines_single.
  - simpl. unfold parseIOCLine. rewrite iocEntry_entry by assumption.
    apply String.eqb_neq in Hproto. rewrite Hproto. apply insert_empty.
  - rewrite !no_newline_app, Hnk, Hnv. reflexivity.
Qed.

Lemma lines_no_newline (s : string) : Forall (fun l => no_newline l = true) (lines s).
Proof.
  induction s as [|c s IH]; [repeat constructor |].
  rewrite lines_cons. destruct (Ascii.eqb c "010") eqn:Hc.
  - constructor; [reflexivity | exact IH].
  - destruct (lines_inhabited s) as (l & ls & Hs). rewrite Hs in *.
    inversion IH as [|? ? Hl Hls]; subst.
    constructor; [| exact Hls]. rewrite no_newline_cons, Hc, Hl. reflexivity.
Qed.

(** X12.  Every entry of a parsed descriptor is well formed: its key is
    not empty, is not ['__proto__'], does not start with ['#'] and holds no
    ['=']; neither the key nor the value has white space around it or a line
    feed in it. *)
Theorem parseIOCFile_entries_clean (content k v : string) :
  parseIOCFile content !! k = Some v ->
  k <> "" /\ k <> "__proto__" /\ String.prefix "#" k = false /\
  JS.includes k "=" = false /\
  Text.trim k = k /\ Text.trim v = v /\
  no_newline k = true /\ no_newline v = true.
Proof.
  unfold parseIOCFile, split_lines.
  apply (parseIOCLines_entries
           (fun k v => k <> "" /\ k <> "__proto__" /\ String.prefix "#" k = false /\
                       JS.includes k "=" = false /\ Text.trim k = k /\ Text.trim v = v /\
                       no_newline k = true /\ no_newline v = true)).
  - intros line k0 v0 Hin Hentry Hproto.
    destruct (iocEntry_clean _ _ _ Hentry) as (Hne & Hk & Hv & Heq & Hhash).
    pose proof (lines_no_newline content) as Hlines.
    rewrite Forall_forall in Hlines.
    destruct (iocEntry_no_newline line k0 v0) as [Hnk Hnv];
      [apply Hlines; now apply list_elem_of_In | exact Hentry |].
    repeat split; assumption.
  - intros k0 v0 Hk0. now rewrite lookup_empty in Hk0.
Qed.

Lemma parseIOCFile_entries_clean_witness :
  "Mcu.CPN" <> "" /\ "Mcu.CPN" <> "__proto__" /\ String.prefix "#" "Mcu.CPN" = false /\
  JS.includes "Mcu.CPN" "=" = false /\
  Text.trim "Mcu.CPN" = "Mcu.CPN" /\ Text.trim "STM32F103C8Tx" = "STM32F103C8Tx" /\
  no_newline "Mcu.CPN" = true /\ no_newline "STM32F103C8Tx" = true.
Proof.
  apply (parseIOCFile_entries_clean
           ("# CubeMX" ++ nl ++ " Mcu.CPN = STM32F103C8Tx " ++ nl ++ "Mcu.Family=STM32F1")).
  vm_compute. reflexivity.
Defined.

(** X13.  Parsing a text followed by a line feed and a second text gives
    the entries of the second text over those of the first: for a key both
    define, the later line wins. *)
Theorem parseIOCFile_later_lines_win (a b : string) :
  parseIOCFile (a ++ nl ++ b) = parseIOCFile b ∪ parseIOCFile a /\
  forall k,
    parseIOCFile (a ++ nl ++ b) !! k
    = match parseIOCFile b !! k with
      | Some v => Some v
      | None => parseIOCFile a !! k
      end.
Proof.
  split; [apply parseIOCFile_app_nl |].
  intros k. rewrite parseIOCFile_app_nl.
  destruct (parseIOCFile b !! k) as [v|] eqn:Hb.
  - now apply lookup_union_Some_l.
  - now apply lookup_union_r.
Qed.

(** X14.  A well-formed entry is read back as written: after any text, the
    line [key=value] makes the descriptor hold [value] at [key] (only the
    first ['='] separates, so the value may hold further ones) and leaves
    every other key as the text before defines it. *)
Theorem parseIOCFile_reads_entry (content k v : string) :
  k <> "" -> k <> "__proto__" -> String.prefix "#" k = false ->
  JS.includes k "=" = false ->
  Text.trim k = k -> Text.trim v = v ->
  no_newline k = true -> no_newline v = true ->
  parseIOCFile (content ++ nl ++ k ++ "=" ++ v) !! k = Some v /\
  forall k', k' <> k ->
    parseIOCFile (content ++ nl ++ k ++ "=" ++ v) !! k' = parseIOCFile content !! k'.
Proof.
  intros Hne Hproto Hhash Heq Hk Hv Hnk Hnv.
  rewrite parseIOCFile_app_nl, parseIOCFile_line by assumption.
  split.
  - apply lookup_union_Some_l, lookup_singleton_eq.
  - intros k' Hk'. apply lookup_union_r. now apply lookup_singleton_ne.
Qed.

Lemma parseIOCFile_reads_entry_witness :
  parseIOCFile ("Mcu.CPN=STM32F407VGTx" ++ nl ++ "Mcu.CPN" ++ "=" ++ "STM32F103C8Tx = x")
    !! "Mcu.CPN" = Some "STM32F103C8Tx = x" /\
  forall k', k' <> "Mcu.CPN" ->
    parseIOCFile ("Mcu.CPN=STM32F407VGTx" ++ nl ++ "Mcu.CPN" ++ "=" ++ "STM32F103C8Tx = x") !! k'
    = parseIOCFile "Mcu.CPN=STM32F407VGTx" !! k'.
Proof.
  apply (parseIOCFile_reads_entry "Mcu.CPN=STM32F407VGTx" "Mcu.CPN" "STM32F103C8Tx = x");
    first [discriminate | reflexivity].
Defined.

Lemma lines_crlf (s : string) : lines (crlf s) = with_cr (lines s).
Proof.
  induction s as [|c s IH]; [reflexivity |].
  cbn [crlf]. rewrite lines_cons. destruct (Ascii.eqb c "010") eqn:Hc.
  - change (lines (String "013" (String "010" (crlf s))))
      with (String "013" "" :: lines (crlf s)).
    rewrite IH. destruct (lines_inhabited s) as (l & ls & ->). reflexivity.
  - rewrite lines_cons, Hc, IH.
    destruct (lines_inhabited s) as (l & ls & ->).
    destruct ls as [|l' ls]; reflexivity.
Qed.

Lemma parseIOCLine_cr (config : gmap string string) (l : string) :
  parseIOCLine config (l ++ String "013" "") = parseIOCLine config l.
Proof. unfold parseIOCLine, iocEntry. now rewrite trim_cr. Qed.

Lemma parseIOCLines_with_cr (ls : list string) (config : gmap string string) :
  List.fold_left parseIOCLine (with_cr ls) config = List.fold_left parseIOCLine ls config.
Proof.
  revert config. induction ls as [|l [|l' ls] IH]; intros config; try reflexivity.
  change (with_cr (l :: l' :: ls)) with ((l ++ String "013" "") :: with_cr (l' :: ls)).
  cbn [List.fold_left]. now rewrite parseIOCLine_cr, IH.
Qed.

(** X15.  The parser does not depend on the line ends: the descriptor of
    a text with CR LF line ends is the descriptor of the text with LF line
    ends. *)
Theorem parseIOCFile_crlf (content : string) :
  parseIOCFile (crlf content) = parseIOCFile content.
Proof.
  unfold parseIOCFile, split_lines. rewrite lines_crlf. apply parseIOCLines_with_cr.
Qed.


(* ===================================================================== *)
(** ** The descriptor and the configuration                               *)
(* ===================================================================== *)

Lemma copyFromIOC_run (ioc : gmap string string) (source target : string)
      (ws : option string) (platform : string) (o : gmap string jsvalue) (d : Disk) :
  copyFromIOC ioc source target (mkState (mkManager ws platform (Some o)) d)
  = Normal tt
      (mkState (mkManager ws platform
                  (Some match ioc !! source with
                        | Some (String c rest) => <[ target := JStr (String c rest) ]> o
                        | _ => o
                        end))
               d).
Proof. unfold copyFromIOC. now destruct (ioc !! source) as [[|c rest]|]. Qed.

Lemma updateConfigFromIOC_run (ioc : gmap string string)
      (ws : option string) (platform : string) (o : gmap string jsvalue) (d : Disk) :
  updateConfigFromIOC (Some ioc) (mkState (mkManager ws platform (Some o)) d)
  = Normal tt (mkState (mkManager ws platform (Some (withIOC ioc o))) d).
Proof.
  unfold updateConfigFromIOC, bind, get_manager.
  cbn [manager projectConfig].
  now rewrite !copyFromIOC_run.
Qed.

Lemma filter_first {A : Type} (p : A -> bool) (l : list A) (x : A) (rest : list A) :
  List.filter p l = x :: rest ->
  exists before after,
    l = (before ++ x :: after)%list /\ p x = true /\ forall y, In y before -> p y = false.
Proof.
  induction l as [|y l IH]; intros H; [discriminate |].
  simpl in H. destruct (p y) eqn:Hy.
  - injection H as -> _. exists [], l. repeat split; [exact Hy | intros z []].
  - destruct (IH H) as (before & after & -> & Hx & Hbefore).
    exists (y :: before), after. repeat split; [exact Hx |].
    intros z [<- | Hz]; [exact Hy | now apply Hbefore].
Qed.

(** [loadIOCConfig] by cases. *)
Lemma loadIOCConfig_cases (h : Host) (fs : Files) (ioc : option (gmap string string))
      (ws : option string) (platform : string) (o : option (gmap string jsvalue)) (d : Disk) :
  let st := mkState (mkManager ws platform o) d in
  loadIOCConfig h fs ioc st = Normal (None, ioc) st \/
  exists dir before iocFile after content,
    ws = Some dir /\ dir <> "" /\
    readdirSync fs dir = Some (before ++ iocFile :: after)%list /\
    (forall f, In f before -> Text.endsWith f ".ioc" = false) /\
    Text.endsWith iocFile ".ioc" = true /\
    readFileSync fs (path_join h [dir; iocFile]) = Some content /\
    loadIOCConfig h fs ioc st
    = Normal (Some (parseIOCFile content), Some (parseIOCFile content))
        (mkState (mkManager ws platform (option_map (withIOC (parseIOCFile content)) o)) d).
Proof.
  intros st. subst st. unfold loadIOCConfig, bind, get_manager.
  cbn [manager workspacePath].
  destruct ws as [[|w dir]|]; [now left | | now left].
  destruct (readdirSync fs (String w dir)) as [files|] eqn:Hdir; [| now left].
  destruct (List.filter _ files) as [|iocFile rest] eqn:Hfilter; [now left |].
  destruct (readFileSync fs _) as [content|] eqn:Hread; [| now left].
  right. destruct (filter_first _ _ _ _ Hfilter) as (before & after & -> & Hioc & Hbefore).
  exists (String w dir), before, iocFile, after, content.
  repeat split; try assumption; try discriminate.
  destruct o as [o|].
  - now rewrite updateConfigFromIOC_run.
  - reflexivity.
Qed.

Lemma copyFields_other (ioc : gmap string string) (fields : list (string * string)) :
  forall (o : gmap string jsvalue) (k : string),
    ~ In k (List.map snd fields) ->
    List.fold_left (copyField ioc) fields o !! k = o !! k.
Proof.
  induction fields as [|[source target] fields IH]; intros o k Hk; [reflexivity |].
  cbn [List.fold_left]. rewrite IH by (intros Hin; apply Hk; now right).
  unfold copyField. cbn [fst snd].
  destruct (ioc !! source) as [[|c rest]|]; try reflexivity.
  apply lookup_insert_ne. intros ->. apply Hk. now left.
Qed.



Lemma withIOC_other (ioc : gmap string string) (o : gmap string jsvalue) (k : string) :
  ~ In k (List.map snd iocFields) -> withIOC ioc o !! k = o !! k.
Proof. apply (copyFields_other ioc iocFields). Qed.


Lemma withIOC_pairs_ok (ioc : gmap string string) (o : gmap string jsvalue) :
  pairs_ok (withIOC ioc o) = pairs_ok o.
Proof.
  unfold pairs_ok, paired.
  rewrite !withIOC_other; [reflexivity | | | |]; cbv [iocFields List.map snd In];
    intuition discriminate.
Qed.

Lemma pairing_loadIOCConfig (h : Host) (fs : Files) (ioc : option (gmap string string)) :
  keeps pairs_ok (loadIOCConfig h fs ioc).
Proof.
  intros [[ws platform o] d] Hst.
  destruct (loadIOCConfig_cases h fs ioc ws platform o d)
    as [-> | (dir & before & iocFile & after & content & _ & _ & _ & _ & _ & _ & ->)];
    [exact Hst |].
  destruct Hst as [Hmem Hdisk]. split; [| exact Hdisk].
  cbn [final_state manager projectConfig]. intros o' Ho'.
  destruct o as [o|]; [| discriminate]. injection Ho' as <-.
  rewrite withIOC_pairs_ok. now apply Hmem.
Qed.

(** X16.  [loadIOCConfig] never throws.  Either it returns [null] and
    changes nothing, neither the configuration nor the descriptor held; or
    it returns the parse of the first entry of the directory listing whose
    name ends with ['.ioc'], holds it as the descriptor, has copied its
    fields over the configuration in memory and has left the disk alone. *)
Theorem loadIOCConfig_first_descriptor
    (h : Host) (fs : Files) (ioc : option (gmap string string)) (st : State) :
  loadIOCConfig h fs ioc st = Normal (None, ioc) st \/
  exists dir before iocFile after content st',
    workspacePath (manager st) = Some dir /\ dir <> "" /\
    readdirSync fs dir = Some (before ++ iocFile :: after)%list /\
    (forall f, In f before -> Text.endsWith f ".ioc" = false) /\
    Text.endsWith iocFile ".ioc" = true /\
    readFileSync fs (path_join h [dir; iocFile]) = Some content /\
    loadIOCConfig h fs ioc st
    = Normal (Some (parseIOCFile content), Some (parseIOCFile content)) st' /\
    projectConfig (manager st')
    = option_map (withIOC (parseIOCFile content)) (projectConfig (manager st)) /\
    disk st' = disk st.
Proof.
  destruct st as [[ws platform o] d].
  destruct (loadIOCConfig_cases h fs ioc ws platform o d)
    as [H | (dir & before & iocFile & after & content & Hws & Hne & Hdir & Hb & Hi & Hr & H)];
    [now left | right].
  exists dir, before, iocFile, after, content,
    (mkState (mkManager ws platform (option_map (withIOC (parseIOCFile content)) o)) d).
  cbn [manager workspacePath projectConfig disk].
  repeat split; first [assumption | reflexivity].
Qed.



(** X18.  Loading or reloading the descriptor keeps the pairing of the
    linker and startup fields: from a state in which both pairs are
    consistent, [loadIOCConfig] and [reloadIOCConfig] lead to such a state. *)
Theorem descriptor_load_keeps_pairing
    (h : Host) (fs : Files) (ioc : option (gmap string string)) (st : State) :
  state_ok st ->
  state_ok (final_state (loadIOCConfig h fs ioc st)) /\
  state_ok (final_state (reloadIOCConfig h fs ioc st)).
Proof.
  intros Hst. split; [now apply pairing_loadIOCConfig |].
  revert st Hst. change (keeps pairs_ok (reloadIOCConfig h fs ioc)).
  unfold reloadIOCConfig.
  keep_with ltac:(first [apply pairing_loadIOCConfig | pairing_leaf]).
Qed.

Lemma descriptor_load_keeps_pairing_witness :
  state_ok (final_state (loadIOCConfig sample_host sample_files None fresh_state)) /\
  state_ok (final_state (reloadIOCConfig sample_host sample_files None fresh_state)).
Proof.
  apply (descriptor_load_keeps_pairing sample_host sample_files None fresh_state).
  split; [intros o [= <-]; reflexivity | reflexivity].
Defined.

Lemma saveConfig_returns (st : State) : exists b st', saveConfig st = Normal b st'.
Proof.
  destruct st as [[ws platform [o|]] [f w]].
  - rewrite saveConfig_run. destruct (JS.truthy ws && w); eauto.
  - unfold saveConfig, bind, get_manager. simpl. destruct (JS.truthy ws); eauto.
Qed.

(** X19.  Once a descriptor is held, [reloadIOCConfig] returns [true]
    whatever the file system does: also when the [.ioc] file is gone or
    cannot be read, in which case the descriptor held before is kept. *)
Theorem reloadIOCConfig_reports_held_descriptor
    (h : Host) (fs : Files) (held : gmap string string) (st : State) :
  exists ioc' st', reloadIOCConfig h fs (Some held) st = Normal (true, Some ioc') st' /\
  (loadIOCConfig h fs (Some held) st = Normal (None, Some held) st -> ioc' = held).
Proof.
  destruct st as [[ws platform o] d]. unfold reloadIOCConfig, bind.
  destruct (loadIOCConfig_cases h fs (Some held) ws platform o d)
    as [H | (dir & before & iocFile & after & content & _ & _ & _ & _ & _ & _ & H)];
    rewrite H.
  - destruct (saveConfig_returns (mkState (mkManager ws platform o) d)) as (b & st' & ->).
    exists held, st'. split; reflexivity.
  - match goal with |- context [saveConfig ?s] =>
      destruct (saveConfig_returns s) as (b & st' & ->) end.
    exists (parseIOCFile content), st'. split; [reflexivity |]. discriminate.
Qed.


(* ===================================================================== *)
(** ** Build errors                                                       *)
(* ===================================================================== *)

Lemma string_of_uint_digits (d : Decimal.uint) :
  all_chars code_char (NilEmpty.string_of_uint d) = true.
Proof. induction d; simpl; try rewrite IHd; reflexivity. Qed.

Lemma show_code_chars (code : option Z) : all_chars code_char (show_code code) = true.
Proof.
  destruct code as [z|]; [| reflexivity]. unfold show_code, NilZero.string_of_int.
  destruct (Z.to_int z) as [d | d]; unfold NilZero.string_of_uint.
  - destruct d; try reflexivity; apply (string_of_uint_digits (_ d)).
  - cbn [all_chars]. destruct d; try reflexivity; apply (string_of_uint_digits (_ d)).
Qed.

Lemma exit_message_problem (code : option Z) :
  buildProblem ("Сборка (без параллелизма) failed with exit code " ++ show_code code)
  = OtherProblem.
Proof.
  assert (Hno : forall c, code_char c = false ->
            JS.includes "Сборка (без параллелизма) failed with exit code "
                        (String c "") = false ->
            JS.includes ("Сборка (без параллелизма) failed with exit code "
                         ++ show_code code) (String c "") = false).
  { intros c Hc Hprefix. rewrite includes_char_app, Hprefix.
    apply (all_chars_excludes code_char); [apply show_code_chars | exact Hc]. }
  unfold buildProblem.
  rewrite (includes_char_of_needle _ "make: command not found" "m")
    by first [reflexivity | apply Hno; reflexivity].
  rewrite (includes_char_of_needle _ "arm-none-eabi" "r")
    by first [reflexivity | apply Hno; reflexivity].
  rewrite (includes_char_of_needle _ ".ld" ".")
    by first [reflexivity | apply Hno; reflexivity].
  rewrite (includes_char_of_needle _ "startup" "p")
    by first [reflexivity | apply Hno; reflexivity].
  rewrite (includes_char_of_needle _ ".s" ".")
    by first [reflexivity | apply Hno; reflexivity].
  reflexivity.
Qed.

(** X20.  When [make] ends with an exit code, whatever went wrong, the
    error [executeBuild] throws reads ['... failed with exit code N'], and
    [handleBuildError] classifies it as none of its known problems: the
    message offers ['Открыть вывод'] only, the buttons that reset the linker
    or the startup pair are not offered, and the configuration is left as it
    was. *)
Theorem failed_make_offers_no_reset
    (spawn : string -> ChildEnd) (press : list string -> option string)
    (code : option Z) (message : string) (st : State) :
  spawn "make" = Closed code ->
  executeBuild spawn = Some message ->
  presses_offered press ->
  message = "Сборка (без параллелизма) failed with exit code " ++ show_code code /\
  suggestedActions (buildProblem message) = ["Открыть вывод"] /\
  handleBuildError (Some message) press st = Normal tt st.
Proof.
  intros Hmake Hbuild Hpress.
  assert (Hmessage : message
            = "Сборка (без параллелизма) failed with exit code " ++ show_code code).
  { unfold executeBuild in Hbuild. rewrite Hmake in Hbuild.
    destruct (execCommand "Сборка" (spawn "make -j4")); [| discriminate].
    unfold execCommand in Hbuild.
    destruct code as [[| p | p]|]; now inversion Hbuild. }
  split; [exact Hmessage |]. subst message.
  unfold handleBuildError. cbv zeta. rewrite exit_message_problem.
  split; [reflexivity |].
  unfold bind, ret. change (suggestedActions OtherProblem) with ["Открыть вывод"].
  destruct (press ["Открыть вывод"]) as [choice|] eqn:Hchoice; [| reflexivity].
  apply Hpress in Hchoice. destruct Hchoice as [<- | []]. reflexivity.
Qed.

Lemma failed_make_offers_no_reset_witness :
  suggestedActions
    (buildProblem ("Сборка (без параллелизма) failed with exit code " ++ show_code (Some 2%Z)))
  = ["Открыть вывод"] /\
  handleBuildError
    (Some ("Сборка (без параллелизма) failed with exit code " ++ show_code (Some 2%Z)))
    (@List.head string) fresh_state
  = Normal tt fresh_state.
Proof.
  apply (failed_make_offers_no_reset (fun _ => Closed (Some 2%Z)) (@List.head string)
           (Some 2%Z)
           ("Сборка (без параллелизма) failed with exit code " ++ show_code (Some 2%Z))
           fresh_state).
  - reflexivity.
  - reflexivity.
  - intros buttons choice H. destruct buttons; [discriminate |].
    injection H as ->. now left.
Defined.


(* ===================================================================== *)
(** ** Workspace settings                                                 *)
(* ===================================================================== *)

Lemma json_reparse_idempotent (v : jsvalue) :
  json_reparse (json_reparse v) = json_reparse v.
Proof.
  induction v as [ | b | n | s | items IH | props IH] using jsvalue_nested_ind;
    try reflexivity.
  - now destruct n as [[|]| | |].
  - cbn [json_reparse]. f_equal. rewrite List.map_map.
    induction IH as [|x items Hx _ IHitems]; [reflexivity |].
    cbn [List.map]. now rewrite Hx, IHitems.
  - cbn [json_reparse]. f_equal. rewrite List.map_map.
    induction IH as [|[k x] props Hx _ IHprops]; [reflexivity |].
    cbn [List.map fst snd] in *. now rewrite Hx, IHprops.
Qed.

(** The properties of a value that was written and is read again. *)
Lemma written_lookup (o : gmap string jsvalue) (k : string) :
  existingSettings (Parses (json_reparse (object_value o))) !! k
  = json_reparse <$> o !! k.
Proof.
  unfold existingSettings. destruct (o !! k) as [v|] eqn:Hk.
  - now rewrite (reload_lookup ∅ o k v Hk).
  - now rewrite reload_lookup_None.
Qed.

Lemma stm32Settings_NoDup : List.NoDup (List.map fst stm32Settings).
Proof.
  cbv [stm32Settings List.map fst].
  repeat (constructor; [simpl; intuition discriminate |]). constructor.
Qed.

Lemma stm32Settings_stable (k : string) (v : jsvalue) :
  In (k, v) stm32Settings -> json_reparse v = v.
Proof. intros [[= <- <-] | [[= <- <-] | [[= <- <-] | []]]]; reflexivity. Qed.

(** X21.  [createSettingsConfig] on a writable file merges: the file it
    writes holds each of the three STM32 settings with its fixed value and,
    under every other key, what the existing file held (as serialisation
    prints it); a missing or malformed file counts as empty. *)
Theorem createSettingsConfig_merge (f : ConfigFile) :
  exists d,
    createSettingsConfig (mkSettingsDisk f true) = Some d /\
    (forall k v, In (k, v) stm32Settings ->
                 existingSettings (settingsFile d) !! k = Some v) /\
    (forall k, ~ In k (List.map fst stm32Settings) ->
               existingSettings (settingsFile d) !! k
               = json_reparse <$> existingSettings f !! k).
Proof.
  exists (mkSettingsDisk
            (Parses (json_reparse (object_value
                       (spread (existingSettings f) stm32Settings))))
            true).
  split; [reflexivity |]. cbn [settingsFile]. split.
  - intros k v Hin. rewrite written_lookup.
    rewrite (spread_lookup_in stm32Settings _ k v stm32Settings_NoDup Hin).
    cbn [fmap option_fmap option_map]. f_equal. now apply (stm32Settings_stable k).
  - intros k Hk. rewrite written_lookup. now rewrite spread_lookup_notin.
Qed.

(** X22.  [createSettingsConfig] is idempotent: run again on the file it
    wrote, it writes a file with the same properties and values. *)
Theorem createSettingsConfig_idempotent (d d1 : SettingsDisk) :
  createSettingsConfig d = Some d1 ->
  exists d2,
    createSettingsConfig d1 = Some d2 /\
    existingSettings (settingsFile d2) = existingSettings (settingsFile d1).
Proof.
  unfold createSettingsConfig at 1. cbv zeta.
  set (merged := spread (existingSettings (settingsFile d)) stm32Settings).
  destruct (settings_writable d); [| discriminate]. intros H.
  assert (Hd1 : d1 = mkSettingsDisk (Parses (json_reparse (object_value merged))) true)
    by congruence.
  subst d1. clear H.
  exists (mkSettingsDisk
            (Parses (json_reparse (object_value
                       (spread (existingSettings
                                  (Parses (json_reparse (object_value merged))))
                               stm32Settings))))
            true).
  split; [reflexivity |]. cbn [settingsFile].
  apply map_eq. intros k. rewrite !written_lookup. subst merged.
  destruct (decide (In k (List.map fst stm32Settings))) as [Hin | Hout].
  - apply in_map_iff in Hin as ([k' v] & Hk & Hin). cbn [fst] in Hk. subst k'.
    rewrite !(spread_lookup_in stm32Settings _ k v stm32Settings_NoDup Hin).
    reflexivity.
  - rewrite !spread_lookup_notin by exact Hout.
    rewrite written_lookup, spread_lookup_notin by exact Hout.
    destruct (existingSettings (settingsFile d) !! k) as [v|]; [| reflexivity].
    cbn [fmap option_fmap option_map]. now rewrite json_reparse_idempotent.
Qed.

Lemma createSettingsConfig_idempotent_witness :
  exists d2,
    createSettingsConfig
      (mkSettingsDisk
         (Parses (json_reparse (object_value
                    (spread (existingSettings (Parses (JObj [("editor.tabSize", num 4)])))
                            stm32Settings))))
         true)
    = Some d2 /\
    existingSettings (settingsFile d2)
    = existingSettings
        (Parses (json_reparse (object_value
                   (spread (existingSettings (Parses (JObj [("editor.tabSize", num 4)])))
                           stm32Settings)))).
Proof.
  apply (createSettingsConfig_idempotent
           (mkSettingsDisk (Parses (JObj [("editor.tabSize", num 4)])) true)).
  reflexivity.
Defined.
